(** * jsl.fields: role-aware compilation of field trees to JSON Schema

    A shallow embedding of [jsl/fields.py] together with the parts of
    [jsl/roles.py] it relies on, and the properties of role resolution,
    schema compilation and walking that are stated about them. *)

From Stdlib Require Import List String Ascii ZArith Bool Arith Lia.
Import ListNotations.
Open Scope string_scope.
Open Scope list_scope.

Set Implicit Arguments.
Set Warnings "-register-all".

(** ** Outcomes of Python calls

    A call returns a value, raises an exception, or exceeds the recursion
    budget given to it. *)

Inductive exn : Type :=
| ValueError (msg : string)
| AttributeError (msg : string)
| TypeError (msg : string)
| KeyError (msg : string).

Inductive result (A : Type) : Type :=
| Return (a : A)
| Raise (e : exn)
| OutOfFuel.

Arguments Return {A} a.
Arguments Raise {A} e.
Arguments OutOfFuel {A}.

Definition bind {A B : Type} (m : result A) (k : A -> result B) : result B :=
  match m with
  | Return a => k a
  | Raise e => Raise e
  | OutOfFuel => OutOfFuel
  end.

Notation "x <- m ;; k" := (bind m (fun x => k))
  (at level 61, m at next level, right associativity).
Notation "' pat <- m ;; k" := (bind m (fun x => match x with pat => k end))
  (at level 61, pat pattern, m at next level, right associativity).

(** ** JSON values and Python dictionaries *)

Inductive json : Type :=
| JNull
| JBool (b : bool)
| JNum (n : Z)
| JStr (s : string)
| JList (l : list json)
| JDict (d : list (string * json)).

(** A [dict] (or [OrderedDict]) with string keys, kept in insertion order. *)
Definition pydict (V : Type) : Type := list (string * V).

Fixpoint dict_get {V : Type} (k : string) (d : pydict V) : option V :=
  match d with
  | [] => None
  | (k', v) :: d' => if String.eqb k k' then Some v else dict_get k d'
  end.

(** [d[k] = v]: an existing key keeps its position, a new key goes last. *)
Fixpoint dict_set {V : Type} (k : string) (v : V) (d : pydict V) : pydict V :=
  match d with
  | [] => [(k, v)]
  | (k', v') :: d' =>
      if String.eqb k k' then (k', v) :: d' else (k', v') :: dict_set k v d'
  end.

(** [d.update(other)] *)
Definition dict_update {V : Type} (d other : pydict V) : pydict V :=
  fold_left (fun acc kv => dict_set (fst kv) (snd kv) acc) other d.

Definition dict_keys {V : Type} (d : pydict V) : list string := map fst d.

(** ** Roles ([jsl/roles.py]) *)

Definition Role : Type := string.

Definition DEFAULT_ROLE : Role := "default".

(** Modelled from the spec: the role predicates of [jsl/roles.py], which is
    not part of the sources at hand.  A predicate is an exact role name, a
    negated role name, or the catch-all. *)
Inductive matcher : Type :=
| Is (r : Role)
| Not (r : Role)
| Anything.

(** Modelled from the spec: the RoleSelector of [jsl/roles.py].  A literal
    matches its own name only, [Not r] matches every role except [r], the
    catch-all matches every role. *)
Definition matches (m : matcher) (queried : Role) : bool :=
  match m with
  | Is r => String.eqb queried r
  | Not r => negb (String.eqb queried r)
  | Anything => true
  end.

(** Modelled from the spec: the class [Var] of [jsl/roles.py]: an ordered
    list of (predicate, value) pairs and an optional collection of roles to
    pass down.  A value may be Python's [None]. *)
Record Var (T : Type) : Type := mkVar {
  values : list (matcher * option T);
  roles_to_pass_down : option (list Role)
}.

Arguments mkVar {T} values roles_to_pass_down.

(** The scan of the (predicate, value) pairs in declared order. *)
Fixpoint first_match {T : Type} (vs : list (matcher * option T)) (queried : Role)
  : option T :=
  match vs with
  | [] => None
  | (m, v) :: rest => if matches m queried then v else first_match rest queried
  end.

Definition role_in (r : Role) (l : list Role) : bool :=
  existsb (String.eqb r) l.

(** Modelled from the spec: [Var.resolve_2] of [jsl/roles.py].  The first
    matching entry gives the value (no match gives [None]); the role for
    descending into the value is the queried role when it is one of the
    roles to pass down, and the default role otherwise. *)
Definition resolve_2 {T : Type} (v : Var T) (queried : Role) : option T * Role :=
  (first_match (values v) queried,
   match roles_to_pass_down v with
   | Some l => if role_in queried l then queried else DEFAULT_ROLE
   | None => DEFAULT_ROLE
   end).

(** Modelled from the spec: [Var.resolve] of [jsl/roles.py]. *)
Definition resolve {T : Type} (v : Var T) (queried : Role) : option T :=
  fst (resolve_2 v queried).

(** A Python attribute that holds either a plain value (possibly [None]) or
    a [Var] over such values. *)
Inductive attr (T : Type) : Type :=
| Plain (v : option T)
| IsVar (v : Var T).

Arguments Plain {T} v.
Arguments IsVar {T} v.

(** Modelled from the spec: [maybe_resolve_2] of [jsl/roles.py]: a [Var] is
    resolved, any other value is returned as it is with the role unchanged
    (the tests in [tests/test_roles.py] compile plain lists of [Var]s under
    the queried role). *)
Definition maybe_resolve_2 {T : Type} (value : attr T) (queried : Role)
  : option T * Role :=
  match value with
  | IsVar v => resolve_2 v queried
  | Plain x => (x, queried)
  end.

(** Modelled from the spec: [maybe_resolve] of [jsl/roles.py]. *)
Definition maybe_resolve {T : Type} (value : attr T) (queried : Role) : option T :=
  fst (maybe_resolve_2 value queried).

(** ** Field attributes *)

(** A value given directly or as a zero-argument callable that is called
    when the attribute is resolved. *)
Inductive lazy (T : Type) : Type :=
| Now (v : T)
| Callable (f : unit -> option T).

Arguments Now {T} v.
Arguments Callable {T} f.

(** [value() if callable(value) else value], for a resolved attribute. *)
Definition call_if_callable {T : Type} (value : option (lazy T)) : option T :=
  match value with
  | Some (Callable f) => f tt
  | Some (Now v) => Some v
  | None => None
  end.

(** [BaseField.__init__]: the [required] attribute, and the identity of the
    object (what [==] and [!=] compare for fields). *)
Record BaseAttrs : Type := mkBase {
  oid : nat;
  required : attr bool
}.

(** [BaseSchemaField.__init__] *)
Record SchemaAttrs : Type := mkSchemaAttrs {
  base : BaseAttrs;
  id : string;
  title : attr string;
  description : attr string;
  _enum : attr (lazy (list json));
  _default : attr (lazy json)
}.

(** [bool or BaseField], as [additional_items] and [additional_properties]. *)
Inductive BoolOr (F : Type) : Type :=
| IsBool (b : bool)
| IsField (f : F).

Arguments IsBool {F} b.
Arguments IsField {F} f.

(** [ArrayField.items]: one field, or a list (tuple) of fields or [Var]s. *)
Inductive ItemsOf (F : Type) : Type :=
| OneItem (f : F)
| ItemList (l : list (attr F)).

Arguments OneItem {F} f.
Arguments ItemList {F} l.

Definition RECURSIVE_REFERENCE_CONSTANT : string := "self".

Definition truthy_string (s : string) : bool := negb (String.eqb s "").

(** ** The field tree and its compilation *)

Section FieldTree.

(** The Document classes of the program ([jsl/document.py] is outside the
    sources at hand). *)
Variable Document : Type.

(** What a [DocumentField] holds: a name (or the constant
    [RECURSIVE_REFERENCE_CONSTANT]) or a Document class. *)
Inductive DocTarget : Type :=
| DocName (name : string)
| DocClass (d : Document).

Inductive Field : Type :=
| BooleanField (s : SchemaAttrs)
| StringField (s : SchemaAttrs) (pattern format : attr string)
    (min_length max_length : attr Z)
| NumberField (s : SchemaAttrs) (_NUMBER_TYPE : string)
    (multiple_of minimum : attr Z) (exclusive_minimum : attr bool)
    (maximum : attr Z) (exclusive_maximum : attr bool)
| ArrayField (s : SchemaAttrs) (items : attr (ItemsOf Field))
    (min_items max_items : attr Z) (unique_items : attr bool)
    (additional_items : attr (BoolOr Field))
| DictField (s : SchemaAttrs)
    (properties pattern_properties : attr (pydict (attr Field)))
    (additional_properties : attr (BoolOr Field))
    (min_properties max_properties : attr Z)
| BaseOfField (s : SchemaAttrs) (_KEYWORD : string)
    (fields : attr (list (attr Field)))
| NotField (s : SchemaAttrs) (field : attr Field)
| DocumentField (b : BaseAttrs) (_document_cls : attr DocTarget)
    (owner_cls : option Document) (as_ref : bool).

Definition IntField (s : SchemaAttrs) := NumberField s "integer".
Definition OneOfField (s : SchemaAttrs) := BaseOfField s "oneOf".
Definition AnyOfField (s : SchemaAttrs) := BaseOfField s "anyOf".
Definition AllOfField (s : SchemaAttrs) := BaseOfField s "allOf".

Definition base_of (self : Field) : BaseAttrs :=
  match self with
  | BooleanField s | StringField s _ _ _ _ | NumberField s _ _ _ _ _ _
  | ArrayField s _ _ _ _ _ | DictField s _ _ _ _ _ | BaseOfField s _ _
  | NotField s _ => base s
  | DocumentField b _ _ _ => b
  end.

(** [field.required] *)
Definition required_of (self : Field) : attr bool := required (base_of self).

(** [a != b] on fields: no field class defines [__eq__]. *)
Definition field_ne (a b : Field) : bool :=
  negb (Nat.eqb (oid (base_of a)) (oid (base_of b))).

End FieldTree.

Arguments DocName {Document} name.
Arguments DocClass {Document} d.
Arguments BooleanField {Document} s.
Arguments StringField {Document} s pattern format min_length max_length.
Arguments NumberField {Document} s _NUMBER_TYPE multiple_of minimum
  exclusive_minimum maximum exclusive_maximum.
Arguments ArrayField {Document} s items min_items max_items unique_items
  additional_items.
Arguments DictField {Document} s properties pattern_properties
  additional_properties min_properties max_properties.
Arguments BaseOfField {Document} s _KEYWORD fields.
Arguments NotField {Document} s field.
Arguments DocumentField {Document} b _document_cls owner_cls as_ref.

(** What [fields.py] calls in [jsl/document.py], [jsl/scope.py],
    [jsl/registry.py] and [re], none of which is among the sources at hand:
    it is taken as given. *)
Class Externals : Type := {
  Document : Type;
  Document_eq_dec : forall a b : Document, {a = b} + {a <> b};
  (** [document_cls.get_definition_id()] and [document_cls.__module__] *)
  get_definition_id : Document -> string;
  module_of : Document -> string;
  (** [ResolutionScope], with [scope.alter(id)] and [scope.create_ref(id)] *)
  Scope : Type;
  alter : Scope -> string -> string * Scope;
  create_ref : Scope -> string -> json;
  (** [re.compile(regex)]: [None] when the expression compiles, the text of
      [sre_constants.error] otherwise. *)
  re_compile : string -> option string;
  (** [registry.get_document(name, module=None)]: the Document class it
      returns, or the message of the [KeyError] it raises. *)
  registry_get_document : string -> option string -> Document + string;
  (** [document_cls.get_definitions_and_schema(...)] *)
  Document_get_definitions_and_schema :
    Document -> Role -> Scope -> bool -> option (list Document) ->
    result (pydict json * json);
  (** [document_cls.iter_fields(role)] *)
  Document_iter_fields : Document -> Role -> list (attr (Field Document))
}.

Section Compilation.

Context {E : Externals}.

Definition in_documents (d : Document) (s : list Document) : bool :=
  if in_dec Document_eq_dec d s then true else false.

Definition _validate_regex (regex : string) : result unit :=
  match re_compile regex with
  | None => Return tt
  | Some e => Raise (ValueError ("Invalid regular expression: " ++ e)%string)
  end.

(** *** [BaseSchemaField] *)

Definition get_enum (self : SchemaAttrs) (role : Role) : option (list json) :=
  call_if_callable (maybe_resolve (_enum self) role).

Definition get_default (self : SchemaAttrs) (role : Role) : option json :=
  call_if_callable (maybe_resolve (_default self) role).

(** [schema[key] = value] when [value] is there. *)
Definition set_if_some (key : string) (value : option json)
    (schema : pydict json) : pydict json :=
  match value with
  | Some v => dict_set key v schema
  | None => schema
  end.

(** [enum] is written when it is true (a sequence that is not empty),
    [default] when it is not [None]; [JNull] is [None] as a JSON value. *)
Definition _update_schema_with_common_fields (self : SchemaAttrs)
    (schema : pydict json) (id : string) (role : Role) : pydict json :=
  let schema := if truthy_string id then dict_set "id" (JStr id) schema else schema in
  let title := maybe_resolve (title self) role in
  let schema := set_if_some "title" (option_map JStr title) schema in
  let description := maybe_resolve (description self) role in
  let schema := set_if_some "description" (option_map JStr description) schema in
  let enum := get_enum self role in
  let schema :=
    match enum with
    | Some ((_ :: _) as enum) => dict_set "enum" (JList enum) schema
    | _ => schema
    end in
  let default := get_default self role in
  let schema :=
    match default with
    | Some JNull | None => schema
    | Some default => dict_set "default" default schema
    end in
  schema.

(** The truth value of a resolved [bool] attribute. *)
Definition truthy (b : option bool) : bool :=
  match b with Some true => true | _ => false end.

Definition truthy_opt_string (s : option string) : bool :=
  match s with Some s => truthy_string s | None => false end.

(** *** Leaf fields *)

Definition BooleanField_get_definitions_and_schema (s : SchemaAttrs)
    (role : Role) (scope : Scope) : result (pydict json * json) :=
  let '(id, scope) := alter scope (id s) in
  let schema := [("type", JStr "boolean")] in
  let schema := _update_schema_with_common_fields s schema id role in
  Return ([], JDict schema).

Definition StringField_get_definitions_and_schema (s : SchemaAttrs)
    (pattern format : attr string) (min_length max_length : attr Z)
    (role : Role) (scope : Scope) : result (pydict json * json) :=
  let '(id, scope) := alter scope (id s) in
  let schema := [("type", JStr "string")] in
  let schema := _update_schema_with_common_fields s schema id role in
  let pattern := maybe_resolve pattern role in
  let schema :=
    if truthy_opt_string pattern
    then set_if_some "pattern" (option_map JStr pattern) schema else schema in
  let min_length := maybe_resolve min_length role in
  let schema := set_if_some "minLength" (option_map JNum min_length) schema in
  let max_length := maybe_resolve max_length role in
  let schema := set_if_some "maxLength" (option_map JNum max_length) schema in
  let format := maybe_resolve format role in
  let schema := set_if_some "format" (option_map JStr format) schema in
  Return ([], JDict schema).

Definition NumberField_get_definitions_and_schema (s : SchemaAttrs)
    (_NUMBER_TYPE : string) (multiple_of minimum : attr Z)
    (exclusive_minimum : attr bool) (maximum : attr Z)
    (exclusive_maximum : attr bool)
    (role : Role) (scope : Scope) : result (pydict json * json) :=
  let '(id, scope) := alter scope (id s) in
  let schema := [("type", JStr _NUMBER_TYPE)] in
  let schema := _update_schema_with_common_fields s schema id role in
  let multiple_of := maybe_resolve multiple_of role in
  let schema := set_if_some "multipleOf" (option_map JNum multiple_of) schema in
  let minimum := maybe_resolve minimum role in
  let schema := set_if_some "minimum" (option_map JNum minimum) schema in
  let exclusive_minimum := maybe_resolve exclusive_minimum role in
  let schema :=
    if truthy exclusive_minimum
    then set_if_some "exclusiveMinumum" (option_map JBool exclusive_minimum) schema
    else schema in
  let maximum := maybe_resolve maximum role in
  let schema := set_if_some "maximum" (option_map JNum maximum) schema in
  let exclusive_maximum := maybe_resolve exclusive_maximum role in
  let schema :=
    if truthy exclusive_maximum
    then set_if_some "exclusiveMaximum" (option_map JBool exclusive_maximum) schema
    else schema in
  Return ([], JDict schema).

(** *** Composite fields

    [field.get_definitions_and_schema] on a child is the call [rec],
    which the dispatch at the end of this part supplies. *)

Definition compile_fn : Type :=
  Field Document -> Role -> Scope -> bool -> option (list Document) ->
  result (pydict json * json).

Definition NoneType_has_no (name : string) : exn :=
  AttributeError ("'NoneType' object has no attribute '" ++ name ++ "'")%string.

(** [for item in self.items]: the loop runs over the attribute as it was
    given, which is a sequence only when it is a plain list. *)
Definition iter_items (items : attr (ItemsOf (Field Document)))
  : result (list (attr (Field Document))) :=
  match items with
  | Plain (Some (ItemList l)) => Return l
  | Plain (Some (OneItem _)) => Raise (TypeError "field object is not iterable")
  | Plain None => Raise (TypeError "'NoneType' object is not iterable")
  | IsVar _ => Raise (TypeError "'Var' object is not iterable")
  end.

(** The body of that loop, over the remaining items. *)
Fixpoint ArrayField_items_loop (rec : compile_fn) (rest : list (attr (Field Document)))
    (role : Role) (scope : Scope) (ordered : bool)
    (ref_documents : option (list Document))
    (nested_definitions : pydict json) (nested_schema : list json)
  : result (pydict json * list json) :=
  match rest with
  | [] => Return (nested_definitions, nested_schema)
  | item :: rest =>
      let '(item, items_role) := maybe_resolve_2 item role in
      match item with
      | None => Raise (NoneType_has_no "get_definitions_and_schema")
      | Some item =>
          '(item_definitions, item_schema) <-
            rec item items_role scope ordered ref_documents ;;
          let nested_definitions := dict_update nested_definitions item_definitions in
          let nested_schema := nested_schema ++ [item_schema] in
          ArrayField_items_loop rec rest role scope ordered ref_documents
            nested_definitions nested_schema
      end
  end.

Definition ArrayField_get_definitions_and_schema (rec : compile_fn)
    (s : SchemaAttrs) (self_items : attr (ItemsOf (Field Document)))
    (min_items max_items : attr Z) (unique_items : attr bool)
    (additional_items : attr (BoolOr (Field Document)))
    (role : Role) (scope : Scope) (ordered : bool)
    (ref_documents : option (list Document)) : result (pydict json * json) :=
  let '(id, scope) := alter scope (id s) in
  let nested_definitions : pydict json := [] in
  let schema := [("type", JStr "array")] in
  let '(items, items_role) := maybe_resolve_2 self_items role in
  '(nested_definitions, schema) <-
    match items with
    | Some items =>
        '(nested_definitions, nested_schema) <-
          match items with
          | ItemList _ =>
              l <- iter_items self_items ;;
              '(nested_definitions, nested_schema) <-
                ArrayField_items_loop rec l role scope ordered ref_documents
                  nested_definitions [] ;;
              Return (nested_definitions, JList nested_schema)
          | OneItem items =>
              rec items items_role scope ordered ref_documents
          end ;;
        let schema := _update_schema_with_common_fields s schema id role in
        Return (nested_definitions, dict_set "items" nested_schema schema)
    | None => Return (nested_definitions, schema)
    end ;;
  let '(additional_items, additional_items_role) :=
    maybe_resolve_2 additional_items role in
  '(nested_definitions, schema) <-
    match additional_items with
    | Some (IsBool b) =>
        Return (nested_definitions, dict_set "additionalItems" (JBool b) schema)
    | Some (IsField additional_items) =>
        '(items_definitions, items_schema) <-
          rec additional_items additional_items_role scope ordered ref_documents ;;
        let schema := dict_set "additionalItems" items_schema schema in
        Return (dict_update nested_definitions items_definitions, schema)
    | None => Return (nested_definitions, schema)
    end ;;
  let min_items := maybe_resolve min_items role in
  let schema := set_if_some "minItems" (option_map JNum min_items) schema in
  let max_items := maybe_resolve max_items role in
  let schema := set_if_some "maxItems" (option_map JNum max_items) schema in
  let unique_items := maybe_resolve unique_items role in
  let schema :=
    if truthy unique_items then dict_set "uniqueItems" (JBool true) schema
    else schema in
  Return (nested_definitions, JDict schema).

(** [DictField._process_properties]: the loop over [iteritems(properties)]
    from the state [(nested_definitions, required, schema)]. *)
Fixpoint _process_properties_loop (rec : compile_fn)
    (properties : pydict (attr (Field Document))) (scope : Scope) (ordered : bool)
    (ref_documents : option (list Document)) (role : Role)
    (nested_definitions : pydict json) (required : list string)
    (schema : pydict json)
  : result (pydict json * list string * pydict json) :=
  match properties with
  | [] => Return (nested_definitions, required, schema)
  | (prop, field) :: properties =>
      let '(field, field_role) := maybe_resolve_2 field role in
      match field with
      | None =>
          _process_properties_loop rec properties scope ordered ref_documents
            role nested_definitions required schema
      | Some field =>
          '(field_definitions, field_schema) <-
            rec field field_role scope ordered ref_documents ;;
          let required :=
            if truthy (maybe_resolve (required_of field) field_role)
            then required ++ [prop] else required in
          let schema := dict_set prop field_schema schema in
          let nested_definitions := dict_update nested_definitions field_definitions in
          _process_properties_loop rec properties scope ordered ref_documents
            role nested_definitions required schema
      end
  end.

Definition _process_properties (rec : compile_fn)
    (properties : pydict (attr (Field Document))) (scope : Scope) (ordered : bool)
    (ref_documents : option (list Document)) (role : Role)
  : result (pydict json * list string * pydict json) :=
  _process_properties_loop rec properties scope ordered ref_documents role
    [] [] [].

(** [for key in iterkeys(pattern_properties): _validate_regex(key)] *)
Fixpoint validate_keys (keys : list string) : result unit :=
  match keys with
  | [] => Return tt
  | key :: keys => _ <- _validate_regex key ;; validate_keys keys
  end.

Definition DictField_get_definitions_and_schema (rec : compile_fn)
    (s : SchemaAttrs)
    (properties pattern_properties : attr (pydict (attr (Field Document))))
    (additional_properties : attr (BoolOr (Field Document)))
    (min_properties max_properties : attr Z)
    (role : Role) (scope : Scope) (ordered : bool)
    (ref_documents : option (list Document)) : result (pydict json * json) :=
  let nested_definitions : pydict json := [] in
  let schema := [("type", JStr "object")] in
  let '(id, scope) := alter scope (id s) in
  let schema := _update_schema_with_common_fields s schema id role in
  let '(properties, properties_role) := maybe_resolve_2 properties role in
  '(nested_definitions, schema) <-
    match properties with
    | Some properties =>
        '(properties_definitions, properties_required, properties_schema) <-
          _process_properties rec properties scope ordered ref_documents
            properties_role ;;
        let schema := dict_set "properties" (JDict properties_schema) schema in
        let schema :=
          match properties_required with
          | [] => schema
          | _ :: _ => dict_set "required" (JList (map JStr properties_required)) schema
          end in
        Return (dict_update nested_definitions properties_definitions, schema)
    | None => Return (nested_definitions, schema)
    end ;;
  let '(pattern_properties, pattern_properties_role) :=
    maybe_resolve_2 pattern_properties role in
  '(nested_definitions, schema) <-
    match pattern_properties with
    | Some pattern_properties =>
        _ <- validate_keys (dict_keys pattern_properties) ;;
        '(properties_definitions, _, properties_schema) <-
          _process_properties rec pattern_properties scope ordered ref_documents
            pattern_properties_role ;;
        let schema := dict_set "patternProperties" (JDict properties_schema) schema in
        Return (dict_update nested_definitions properties_definitions, schema)
    | None => Return (nested_definitions, schema)
    end ;;
  let '(additional_properties, additional_properties_role) :=
    maybe_resolve_2 additional_properties role in
  '(nested_definitions, schema) <-
    match additional_properties with
    | Some (IsBool b) =>
        Return (nested_definitions, dict_set "additionalProperties" (JBool b) schema)
    | Some (IsField additional_properties) =>
        '(properties_definitions, properties_schema) <-
          rec additional_properties additional_properties_role scope ordered
            ref_documents ;;
        let schema := dict_set "additionalProperties" properties_schema schema in
        Return (dict_update nested_definitions properties_definitions, schema)
    | None => Return (nested_definitions, schema)
    end ;;
  let min_properties := maybe_resolve min_properties role in
  let schema := set_if_some "minProperties" (option_map JNum min_properties) schema in
  let max_properties := maybe_resolve max_properties role in
  let schema := set_if_some "maxProperties" (option_map JNum max_properties) schema in
  Return (nested_definitions, JDict schema).

(** The loop [for field in fields] of [BaseOfField]. *)
Fixpoint BaseOfField_loop (rec : compile_fn) (fields : list (attr (Field Document)))
    (fields_role : Role) (scope : Scope) (ordered : bool)
    (ref_documents : option (list Document))
    (nested_definitions : pydict json) (one_of : list json)
  : result (pydict json * list json) :=
  match fields with
  | [] => Return (nested_definitions, one_of)
  | field :: fields =>
      let '(field, field_role) := maybe_resolve_2 field fields_role in
      match field with
      | None =>
          BaseOfField_loop rec fields fields_role scope ordered ref_documents
            nested_definitions one_of
      | Some field =>
          '(field_definitions, field_schema) <-
            rec field field_role scope ordered ref_documents ;;
          let nested_definitions := dict_update nested_definitions field_definitions in
          let one_of := one_of ++ [field_schema] in
          BaseOfField_loop rec fields fields_role scope ordered ref_documents
            nested_definitions one_of
      end
  end.

(** The call of [_update_schema_with_common_fields] passes no role, so
    the parameter takes its default, [DEFAULT_ROLE]. *)
Definition BaseOfField_get_definitions_and_schema (rec : compile_fn)
    (s : SchemaAttrs) (_KEYWORD : string) (fields : attr (list (attr (Field Document))))
    (role : Role) (scope : Scope) (ordered : bool)
    (ref_documents : option (list Document)) : result (pydict json * json) :=
  let '(id, scope) := alter scope (id s) in
  let nested_definitions : pydict json := [] in
  let one_of : list json := [] in
  let '(fields, fields_role) := maybe_resolve_2 fields role in
  '(nested_definitions, one_of) <-
    match fields with
    | Some fields =>
        BaseOfField_loop rec fields fields_role scope ordered ref_documents
          nested_definitions one_of
    | None => Return (nested_definitions, one_of)
    end ;;
  let schema : pydict json := [] in
  let schema := dict_set _KEYWORD (JList one_of) schema in
  let schema := _update_schema_with_common_fields s schema id DEFAULT_ROLE in
  Return (nested_definitions, JDict schema).

Definition NotField_get_definitions_and_schema (rec : compile_fn)
    (s : SchemaAttrs) (field : attr (Field Document))
    (role : Role) (scope : Scope) (ordered : bool)
    (ref_documents : option (list Document)) : result (pydict json * json) :=
  let '(id, scope) := alter scope (id s) in
  let '(field, field_role) := maybe_resolve_2 field role in
  '(field_definitions, field_schema) <-
    match field with
    | Some field => rec field field_role scope ordered ref_documents
    | None => Return ([], JDict [])
    end ;;
  let schema : pydict json := [] in
  let schema := dict_set "not" field_schema schema in
  let schema := _update_schema_with_common_fields s schema id role in
  Return (field_definitions, JDict schema).

(** *** [DocumentField] *)

(** [DocumentField.__init__]: stores its arguments; [owner_cls] starts as
    [None] and is given later by [set_owner]. *)
Definition DocumentField_init (oid : nat) (document_cls : attr (DocTarget Document))
    (as_ref : bool) (required : attr bool) : result (Field Document) :=
  Return (DocumentField (mkBase oid required) document_cls None as_ref).

Definition set_owner (self : Field Document) (owner_cls : Document) : Field Document :=
  match self with
  | DocumentField b document_cls _ as_ref =>
      DocumentField b document_cls (Some owner_cls) as_ref
  | other => other
  end.

Definition get_document_cls (_document_cls : attr (DocTarget Document))
    (owner_cls : option Document) (role : Role) : result (option Document) :=
  let document_cls := maybe_resolve _document_cls role in
  match document_cls with
  | Some (DocName document_cls) =>
      if String.eqb document_cls RECURSIVE_REFERENCE_CONSTANT then
        match owner_cls with
        | None => Raise (ValueError "owner_cls is not set")
        | Some owner_cls => Return (Some owner_cls)
        end
      else
        match registry_get_document document_cls None with
        | inl found => Return (Some found)
        | inr _ =>
            match owner_cls with
            | None => Raise (ValueError "owner_cls is not set")
            | Some owner_cls =>
                match registry_get_document document_cls
                        (Some (module_of owner_cls)) with
                | inl found => Return (Some found)
                | inr msg => Raise (KeyError msg)
                end
            end
        end
  | Some (DocClass document_cls) => Return (Some document_cls)
  | None => Return None
  end.

(** [ref_documents and document_cls in ref_documents] *)
Definition in_ref_documents (document_cls : Document)
    (ref_documents : option (list Document)) : bool :=
  match ref_documents with
  | Some ((_ :: _) as docs) => in_documents document_cls docs
  | _ => false
  end.

Definition DocumentField_get_definitions_and_schema
    (_document_cls : attr (DocTarget Document)) (owner_cls : option Document)
    (as_ref : bool)
    (role : Role) (scope : Scope) (ordered : bool)
    (ref_documents : option (list Document)) : result (pydict json * json) :=
  document_cls <- get_document_cls _document_cls owner_cls role ;;
  match document_cls with
  | None => Raise (NoneType_has_no "get_definition_id")
  | Some document_cls =>
      let definition_id := get_definition_id document_cls in
      if in_ref_documents document_cls ref_documents then
        Return ([], create_ref scope definition_id)
      else
        '(document_definitions, document_schema) <-
          Document_get_definitions_and_schema document_cls role scope ordered
            ref_documents ;;
        if as_ref then
          let document_definitions :=
            dict_set definition_id document_schema document_definitions in
          Return (document_definitions, create_ref scope definition_id)
        else
          Return (document_definitions, document_schema)
  end.

(** *** [get_definitions_and_schema], by the class of [self]

    [fuel] bounds the depth of the calls on nested fields. *)
Fixpoint get_definitions_and_schema (fuel : nat) (self : Field Document) (role : Role)
    (scope : Scope) (ordered : bool) (ref_documents : option (list Document))
    {struct fuel} : result (pydict json * json) :=
  match fuel with
  | O => OutOfFuel
  | S fuel =>
      let rec := get_definitions_and_schema fuel in
      match self with
      | BooleanField s =>
          BooleanField_get_definitions_and_schema s role scope
      | StringField s pattern format min_length max_length =>
          StringField_get_definitions_and_schema s pattern format min_length
            max_length role scope
      | NumberField s number_type multiple_of minimum exclusive_minimum
          maximum exclusive_maximum =>
          NumberField_get_definitions_and_schema s number_type multiple_of
            minimum exclusive_minimum maximum exclusive_maximum role scope
      | ArrayField s items min_items max_items unique_items additional_items =>
          ArrayField_get_definitions_and_schema rec s items min_items max_items
            unique_items additional_items role scope ordered ref_documents
      | DictField s properties pattern_properties additional_properties
          min_properties max_properties =>
          DictField_get_definitions_and_schema rec s properties
            pattern_properties additional_properties min_properties
            max_properties role scope ordered ref_documents
      | BaseOfField s keyword fields =>
          BaseOfField_get_definitions_and_schema rec s keyword fields role scope
            ordered ref_documents
      | NotField s field =>
          NotField_get_definitions_and_schema rec s field role scope ordered
            ref_documents
      | DocumentField _ document_cls owner_cls as_ref =>
          DocumentField_get_definitions_and_schema document_cls owner_cls as_ref
            role scope ordered ref_documents
      end
  end.

(** [DictField.__init__]: stores its arguments. *)
Definition DictField_init (s : SchemaAttrs)
    (properties pattern_properties : attr (pydict (attr (Field Document))))
    (additional_properties : attr (BoolOr (Field Document)))
    (min_properties max_properties : attr Z) : result (Field Document) :=
  Return (DictField s properties pattern_properties additional_properties
            min_properties max_properties).

(** ** Iterating and walking *)

(** [iter_fields], by the class of [self].  What the generator yields is a
    field or [None]; [NotField] and the leaf fields keep [BaseField]'s. *)
Definition iter_fields (self : Field Document) (role : Role)
  : result (list (attr (Field Document))) :=
  match self with
  | ArrayField _ items _ _ _ additional_items =>
      let '(items, items_role) := maybe_resolve_2 items role in
      let from_items :=
        match items with
        | Some (ItemList items) =>
            map (fun item => Plain (maybe_resolve item items_role)) items
        | Some (OneItem items) => [Plain (Some items)]
        | None => []
        end in
      let additional_items := maybe_resolve additional_items role in
      let from_additional_items :=
        match additional_items with
        | Some (IsField additional_items) => [Plain (Some additional_items)]
        | _ => []
        end in
      Return (from_items ++ from_additional_items)
  | DictField _ properties pattern_properties additional_properties _ _ =>
      let present (role : Role) (kv : string * attr (Field Document)) :=
        match maybe_resolve (snd kv) role with
        | Some field => [Plain (Some field)]
        | None => []
        end in
      let '(properties, properties_role) := maybe_resolve_2 properties role in
      let from_properties :=
        match properties with
        | Some properties => flat_map (present properties_role) properties
        | None => []
        end in
      let '(pattern_properties, pattern_properties_role) :=
        maybe_resolve_2 pattern_properties role in
      let from_pattern_properties :=
        match pattern_properties with
        | Some pattern_properties =>
            flat_map (present pattern_properties_role) pattern_properties
        | None => []
        end in
      let additional_properties := maybe_resolve additional_properties role in
      let from_additional_properties :=
        match additional_properties with
        | Some (IsField additional_properties) => [Plain (Some additional_properties)]
        | _ => []
        end in
      Return (from_properties ++ from_pattern_properties ++ from_additional_properties)
  | BaseOfField _ _ fields =>
      let '(fields, fields_role) := maybe_resolve_2 fields role in
      match fields with
      | Some fields =>
          Return (map (fun field => Plain (maybe_resolve field fields_role)) fields)
      | None => Raise (TypeError "'NoneType' object is not iterable")
      end
  | DocumentField _ document_cls owner_cls _ =>
      document_cls <- get_document_cls document_cls owner_cls role ;;
      match document_cls with
      | Some document_cls => Return (Document_iter_fields document_cls role)
      | None => Raise (NoneType_has_no "iter_fields")
      end
  | BooleanField _ | StringField _ _ _ _ _ | NumberField _ _ _ _ _ _ _
  | NotField _ _ => Return []
  end.

Definition walk_fn : Type :=
  Field Document -> Role -> bool -> list Document -> result (list (Field Document)).

(** The loop [for field in self.iter_fields(role=role)] of [BaseField.walk];
    [field.walk] on a nested field is the call [rec]. *)
Fixpoint walk_loop (rec : walk_fn) (fields : list (attr (Field Document)))
    (role : Role) (through_document_fields : bool)
    (visited_documents : list Document) : result (list (Field Document)) :=
  match fields with
  | [] => Return []
  | field :: fields =>
      let '(field, field_role) := maybe_resolve_2 field role in
      match field with
      | None =>
          walk_loop rec fields role through_document_fields visited_documents
      | Some field =>
          yielded <- rec field field_role through_document_fields visited_documents ;;
          others <- walk_loop rec fields role through_document_fields
                      visited_documents ;;
          Return (yielded ++ others)
      end
  end.

(** [BaseField.walk]: the fields it yields once the generator is exhausted,
    or the exception that ends it. *)
Definition BaseField_walk (rec : walk_fn) (self : Field Document) (role : Role)
    (through_document_fields : bool) (visited_documents : list Document)
  : result (list (Field Document)) :=
  fields <- iter_fields self role ;;
  nested <- walk_loop rec fields role through_document_fields visited_documents ;;
  Return (self :: nested).

(** [document_cls not in visited_documents]; [None] is in no set of
    Document classes. *)
Definition not_visited (document_cls : option Document)
    (visited_documents : list Document) : bool :=
  match document_cls with
  | Some document_cls => negb (in_documents document_cls visited_documents)
  | None => true
  end.

(** [visited_documents | set([document_cls])], as a set of Document
    classes. *)
Definition visit (document_cls : option Document)
    (visited_documents : list Document) : list Document :=
  match document_cls with
  | Some document_cls => document_cls :: visited_documents
  | None => visited_documents
  end.

(** [DocumentField.walk] *)
Definition DocumentField_walk (rec : walk_fn) (self : Field Document)
    (_document_cls : attr (DocTarget Document)) (owner_cls : option Document)
    (role : Role) (through_document_fields : bool)
    (visited_documents : list Document) : result (list (Field Document)) :=
  if through_document_fields then
    document_cls <- get_document_cls _document_cls owner_cls role ;;
    if not_visited document_cls visited_documents then
      let visited_documents := visit document_cls visited_documents in
      yielded <- BaseField_walk rec self role through_document_fields
                   visited_documents ;;
      Return (self :: filter (fun field => field_ne field self) yielded)
    else Return [self]
  else Return [self].

(** [walk], by the class of [self]; [fuel] bounds the depth of the calls on
    nested fields. *)
Fixpoint walk (fuel : nat) (self : Field Document) (role : Role)
    (through_document_fields : bool) (visited_documents : list Document)
    {struct fuel} : result (list (Field Document)) :=
  match fuel with
  | O => OutOfFuel
  | S fuel =>
      let rec := walk fuel in
      match self with
      | DocumentField _ document_cls owner_cls _ =>
          DocumentField_walk rec self document_cls owner_cls role
            through_document_fields visited_documents
      | _ => BaseField_walk rec self role through_document_fields visited_documents
      end
  end.

End Compilation.

(** ** [get_schema] and the constructors of string fields *)

Section TopLevel.

Context {E : Externals}.

(** [ResolutionScope()], the default value of the parameter [scope]. *)
Variable ResolutionScope_default : Scope.

(** [maybe_resolve_all_roles] of [jsl/roles.py], which yields the values an
    attribute can take; it is taken as given. *)
Variable maybe_resolve_all_roles : attr string -> list string.

(** [BaseField.get_schema] *)
Definition get_schema (fuel : nat) (self : Field Document) (ordered : bool)
    (role : Role) : result json :=
  '(definitions, schema) <-
    get_definitions_and_schema fuel self role ResolutionScope_default ordered None ;;
  match definitions with
  | [] => Return schema
  | _ :: _ =>
      match schema with
      | JDict schema =>
          Return (JDict (dict_set "definitions" (JDict definitions) schema))
      | _ => Raise (TypeError "object does not support item assignment")
      end
  end.

(** The truth value of an attribute as it was given: [None] and the empty
    string are false, a [Var] is an object and so true. *)
Definition truthy_attr_string (value : attr string) : bool :=
  match value with
  | Plain None => false
  | Plain (Some s) => truthy_string s
  | IsVar _ => true
  end.

(** [StringField.__init__], for a class whose [_FORMAT] is given
    ([None] for [StringField], ['email'] for [EmailField], ...). *)
Definition StringField_init (_FORMAT : option string) (s : SchemaAttrs)
    (pattern format : attr string) (min_length max_length : attr Z)
  : result (Field Document) :=
  _ <- match pattern with
       | Plain None => Return tt
       | _ => validate_keys (maybe_resolve_all_roles pattern)
       end ;;
  let format := if truthy_attr_string format then format else Plain _FORMAT in
  Return (StringField s pattern format min_length max_length).

Definition EmailField_init := StringField_init (Some "email").
Definition IPv4Type_init := StringField_init (Some "ipv4").
Definition DateTimeField_init := StringField_init (Some "date-time").
Definition UriField_init := StringField_init (Some "uri").

End TopLevel.

(** ** The nesting depth of a field tree

    A measure for the recursion of [get_definitions_and_schema] and [walk];
    it does not enter Document classes. *)

Section Depth.

Variable Document : Type.

Definition depth_of_option {A : Type} (depth : A -> nat) (value : option A) : nat :=
  match value with
  | Some a => depth a
  | None => 0
  end.

Definition depth_of_list {A : Type} (depth : A -> nat) (l : list A) : nat :=
  fold_right (fun a m => Nat.max (depth a) m) 0 l.

Definition depth_of_attr {A : Type} (depth : A -> nat) (value : attr A) : nat :=
  match value with
  | Plain v => depth_of_option depth v
  | IsVar v => depth_of_list (fun entry => depth_of_option depth (snd entry)) (values v)
  end.

Definition depth_of_items {F : Type} (depth : F -> nat) (items : ItemsOf F) : nat :=
  match items with
  | OneItem f => depth f
  | ItemList l => depth_of_list (depth_of_attr depth) l
  end.

Definition depth_of_bool_or {F : Type} (depth : F -> nat) (value : BoolOr F) : nat :=
  match value with
  | IsBool _ => 0
  | IsField f => depth f
  end.

Definition depth_of_dict {F : Type} (depth : F -> nat) (d : pydict (attr F)) : nat :=
  depth_of_list (fun kv => depth_of_attr depth (snd kv)) d.

Fixpoint depth (self : Field Document) : nat :=
  match self with
  | ArrayField _ items _ _ _ additional_items =>
      S (Nat.max (depth_of_attr (depth_of_items depth) items)
                 (depth_of_attr (depth_of_bool_or depth) additional_items))
  | DictField _ properties pattern_properties additional_properties _ _ =>
      S (Nat.max (depth_of_attr (depth_of_dict depth) properties)
           (Nat.max (depth_of_attr (depth_of_dict depth) pattern_properties)
                    (depth_of_attr (depth_of_bool_or depth) additional_properties)))
  | BaseOfField _ _ fields =>
      S (depth_of_attr (depth_of_list (depth_of_attr depth)) fields)
  | NotField _ field => S (depth_of_attr depth field)
  | BooleanField _ | StringField _ _ _ _ _ | NumberField _ _ _ _ _ _ _
  | DocumentField _ _ _ _ => 1
  end.

End Depth.

(** ** Field trees without [Var]s *)

Section WithoutVars.

Variable Document : Type.

Definition is_plain {T : Type} (value : attr T) : bool :=
  match value with
  | Plain _ => true
  | IsVar _ => false
  end.

(** The attribute is no [Var], and its value, if any, satisfies [p]. *)
Definition plain_and {T : Type} (p : T -> bool) (value : attr T) : bool :=
  match value with
  | Plain (Some x) => p x
  | Plain None => true
  | IsVar _ => false
  end.

Definition plain_attrs (s : SchemaAttrs) : bool :=
  is_plain (required (base s)) && is_plain (title s) && is_plain (description s)
  && is_plain (_enum s) && is_plain (_default s).

(** No attribute of the field or of a field nested in it is a [Var], and
    none of them is a [DocumentField]. *)
Fixpoint var_free (self : Field Document) : bool :=
  match self with
  | BooleanField s => plain_attrs s
  | StringField s pattern format min_length max_length =>
      plain_attrs s && is_plain pattern && is_plain format && is_plain min_length
      && is_plain max_length
  | NumberField s _ multiple_of minimum exclusive_minimum maximum
      exclusive_maximum =>
      plain_attrs s && is_plain multiple_of && is_plain minimum
      && is_plain exclusive_minimum && is_plain maximum
      && is_plain exclusive_maximum
  | ArrayField s items min_items max_items unique_items additional_items =>
      plain_attrs s && is_plain min_items && is_plain max_items
      && is_plain unique_items
      && plain_and (fun items =>
                      match items with
                      | OneItem item => var_free item
                      | ItemList items => forallb (plain_and var_free) items
                      end) items
      && plain_and (fun additional =>
                      match additional with
                      | IsBool _ => true
                      | IsField field => var_free field
                      end) additional_items
  | DictField s properties pattern_properties additional_properties
      min_properties max_properties =>
      plain_attrs s && is_plain min_properties && is_plain max_properties
      && plain_and (forallb (fun kv => plain_and var_free (snd kv))) properties
      && plain_and (forallb (fun kv => plain_and var_free (snd kv)))
           pattern_properties
      && plain_and (fun additional =>
                      match additional with
                      | IsBool _ => true
                      | IsField field => var_free field
                      end) additional_properties
  | BaseOfField s _ fields =>
      plain_attrs s && plain_and (forallb (plain_and var_free)) fields
  | NotField s field => plain_attrs s && plain_and var_free field
  | DocumentField _ _ _ _ => false
  end.

End WithoutVars.

(** ** Field trees without document fields *)

Section WithoutDocuments.

Variable Document : Type.

Definition option_all {T : Type} (p : T -> bool) (value : option T) : bool :=
  match value with
  | Some x => p x
  | None => true
  end.

(** Every value the attribute can take satisfies [p]. *)
Definition attr_all {T : Type} (p : T -> bool) (value : attr T) : bool :=
  match value with
  | Plain v => option_all p v
  | IsVar v => forallb (fun entry => option_all p (snd entry)) (values v)
  end.

Definition items_all {F : Type} (p : F -> bool) (items : ItemsOf F) : bool :=
  match items with
  | OneItem item => p item
  | ItemList items => forallb (attr_all p) items
  end.

Definition bool_or_all {F : Type} (p : F -> bool) (value : BoolOr F) : bool :=
  match value with
  | IsBool _ => true
  | IsField field => p field
  end.

(** No field of the tree, under any role, is a [DocumentField]. *)
Fixpoint document_free (self : Field Document) : bool :=
  match self with
  | ArrayField _ items _ _ _ additional_items =>
      attr_all (items_all document_free) items
      && attr_all (bool_or_all document_free) additional_items
  | DictField _ properties pattern_properties additional_properties _ _ =>
      attr_all (forallb (fun kv => attr_all document_free (snd kv))) properties
      && attr_all (forallb (fun kv => attr_all document_free (snd kv)))
           pattern_properties
      && attr_all (bool_or_all document_free) additional_properties
  | BaseOfField _ _ fields => attr_all (forallb (attr_all document_free)) fields
  | NotField _ field => attr_all document_free field
  | DocumentField _ _ _ _ => false
  | BooleanField _ | StringField _ _ _ _ _ | NumberField _ _ _ _ _ _ _ => true
  end.

End WithoutDocuments.

(** ** A small program, for the examples

    Two Document classes that refer to each other, [A] with a field [b]
    and [B] with a field [a] and a reference to itself. *)

Module Sample.

Inductive Doc : Type := A | B.

Definition Doc_eq_dec (x y : Doc) : {x = y} + {x <> y}.
Proof. decide equality. Defined.

Definition all_docs : list Doc := [A; B].

Definition no_attrs (oid : nat) : SchemaAttrs :=
  mkSchemaAttrs (mkBase oid (Plain (Some false))) "" (Plain None) (Plain None)
    (Plain None) (Plain None).

Definition only (r : Role) {T : Type} (value : T) : attr T :=
  IsVar (mkVar [(Is r, Some value)] None).

Definition doc_fields (d : Doc) : list (attr (Field Doc)) :=
  match d with
  | A => [Plain (Some (DocumentField (mkBase 11 (Plain (Some false)))
                         (Plain (Some (DocClass B))) (Some A) false))]
  | B => [Plain (Some (DocumentField (mkBase 21 (Plain (Some false)))
                         (Plain (Some (DocClass A))) (Some B) false));
          Plain (Some (DocumentField (mkBase 22 (Plain (Some false)))
                         (Plain (Some (DocName "self"))) (Some B) false))]
  end.

Definition program : Externals := {|
  Document := Doc;
  Document_eq_dec := Doc_eq_dec;
  get_definition_id := fun d => match d with A => "A" | B => "B" end;
  module_of := fun _ => "app";
  Scope := list string;
  alter := fun scope id => (id, if truthy_string id then id :: scope else scope);
  create_ref := fun _ id => JDict [("$ref", JStr ("#/definitions/" ++ id)%string)];
  re_compile := fun regex =>
    if String.eqb regex "(" then Some "unbalanced parenthesis" else None;
  registry_get_document := fun name module =>
    inr match module with
        | Some module => (module ++ "." ++ name)%string
        | None => name
        end;
  Document_get_definitions_and_schema := fun _ _ _ _ _ =>
    Return ([], JDict [("type", JStr "object")]);
  Document_iter_fields := fun d _ => doc_fields d
|}.

(** Fields of the examples. *)

Definition s_f : Field Doc :=
  StringField (no_attrs 1) (Plain None) (Plain None) (Plain None) (Plain None).

Definition required_string : Field Doc :=
  StringField
    (mkSchemaAttrs (mkBase 2 (Plain (Some true))) "" (Plain None) (Plain None)
       (Plain None) (Plain None))
    (Plain None) (Plain None) (Plain None) (Plain None).

(** The [properties] of [test_dict_field] in [tests/test_roles.py]. *)
Definition passing_properties : Var (pydict (attr (Field Doc))) :=
  mkVar [(Is "role_1", Some [("name", only "role_1" s_f)]);
         (Is "role_2", Some [("name", only "role_2" s_f)])]
        (Some ["role_1"]).

Definition passing_dict : Field Doc :=
  DictField (no_attrs 3) (IsVar passing_properties) (Plain None) (Plain None)
    (Plain None) (Plain None).

(** Properties [a] (required), [b] (not required) and [c] (absent unless
    the role is [Y]). *)
Definition abc_properties : pydict (attr (Field Doc)) :=
  [("a", Plain (Some required_string)); ("b", Plain (Some s_f)); ("c", only "Y" s_f)].

Definition abc_dict : Field Doc :=
  DictField (no_attrs 4) (Plain (Some abc_properties)) (Plain None) (Plain None)
    (Plain None) (Plain None).

(** [ArrayField([Var({'role_1': StringField()})])] *)
Definition array_of_var : Field Doc :=
  ArrayField (no_attrs 5) (Plain (Some (ItemList [only "role_1" s_f]))) (Plain None)
    (Plain None) (Plain (Some false)) (Plain None).

Definition titled (oid : nat) : SchemaAttrs :=
  mkSchemaAttrs (mkBase oid (Plain (Some false))) "" (only "role_1" "Title")
    (only "role_1" "Description") (only "role_1" (Now [JNum 1; JNum 2]))
    (only "role_1" (Now (JNum 1))).

(** [OneOfField([], title=Var({'role_1': 'Title'}), ...)] and a [NotField]
    with the same attributes. *)
Definition titled_one_of : Field Doc := OneOfField (titled 6) (Plain (Some [])).

Definition titled_not : Field Doc := NotField (titled 7) (Plain (Some s_f)).

(** [DictField(pattern_properties={'(': StringField()})] *)
Definition bad_pattern : pydict (attr (Field Doc)) := [("(", Plain (Some s_f))].

(** [DictField(pattern_properties={'.*': ..., '(': ..., 'a': ...})]; the
    sample [re_compile] rejects the second key alone. *)
Definition mixed_patterns : pydict (attr (Field Doc)) :=
  [(".*", Plain (Some s_f)); ("(", Plain (Some s_f)); ("a", Plain (Some s_f))].

(** [DocumentField(A)], outside any Document. *)
Definition to_A : Field Doc :=
  DocumentField (mkBase 10 (Plain (Some false))) (Plain (Some (DocClass A))) None false.

(** [DocumentField('self')], before any owner is set. *)
Definition to_self : attr (DocTarget Doc) := Plain (Some (DocName "self")).

(** The [Var] of [test_var] in [tests/test_roles.py], with numbers for the
    three values. *)
Definition test_var : Var nat :=
  mkVar [(Not "role_3", Some 3); (Is "role_1", Some 1); (Is "role_2", Some 2)] None.

(** Fields of [test_keyword_of_fields] and [test_array_field] in
    [tests/test_roles.py]. *)
Definition n_f : Field Doc :=
  NumberField (no_attrs 31) "number" (Plain None) (Plain None) (Plain None)
    (Plain None) (Plain None).

Definition i_f : Field Doc :=
  IntField Doc (no_attrs 32) (Plain None) (Plain None) (Plain None) (Plain None)
    (Plain None).

Definition keyword_fields : list (attr (Field Doc)) :=
  [Plain (Some n_f); only "role_1" s_f; only "role_2" i_f].

(** [OneOfField([n_f, Var(role_1=s_f), Var(role_2=i_f)])] *)
Definition one_of_three : Field Doc :=
  OneOfField (no_attrs 33) (Plain (Some keyword_fields)).

Definition with_title (oid : nat) : SchemaAttrs :=
  mkSchemaAttrs (mkBase oid (Plain (Some false))) "" (Plain (Some "Title"))
    (Plain None) (Plain None) (Plain None).

(** [ArrayField(Var({'role_1': s_f}), title='Title')] *)
Definition array_for_role_1 : Field Doc :=
  ArrayField (with_title 34) (only "role_1" (OneItem s_f)) (Plain None) (Plain None)
    (Plain None) (Plain None).

(** [ArrayField([s_f, n_f], title='Title')] *)
Definition array_of_two : list (attr (Field Doc)) :=
  [Plain (Some s_f); Plain (Some n_f)].

(** A [DictField] without any [Var]. *)
Definition plain_properties : pydict (attr (Field Doc)) :=
  [("a", Plain (Some required_string)); ("b", Plain (Some n_f))].

Definition plain_dict : Field Doc :=
  DictField (with_title 35) (Plain (Some plain_properties)) (Plain None)
    (Plain (Some (IsBool false))) (Plain (Some 1%Z)) (Plain None).

(** [maybe_resolve_all_roles]: the values an attribute can take. *)
Definition all_values {T : Type} (value : attr T) : list T :=
  match value with
  | Plain (Some x) => [x]
  | Plain None => []
  | IsVar v =>
      flat_map (fun entry => match snd entry with Some x => [x] | None => [] end)
        (values v)
  end.

(** [DictField(properties=Var({'role_2': {'tags': ArrayField(Var({'role_2':
    StringField()}))}}, roles_to_pass_down=['role_1']))] *)
Definition nested_array : Field Doc :=
  ArrayField (no_attrs 61) (only "role_2" (OneItem s_f)) (Plain None) (Plain None)
    (Plain None) (Plain None).

Definition walked_properties : Var (pydict (attr (Field Doc))) :=
  mkVar [(Is "role_2", Some [("tags", Plain (Some nested_array))])] (Some ["role_1"]).

Definition walked_dict : Field Doc :=
  DictField (no_attrs 60) (IsVar walked_properties) (Plain None) (Plain None)
    (Plain None) (Plain None).

End Sample.

(** * Properties *)

Unset Implicit Arguments.

(** ** Role resolution *)

Lemma matches_Is (r queried : Role) : matches (Is r) queried = true <-> queried = r.
Proof. simpl. apply String.eqb_eq. Qed.

Lemma matches_Not (r queried : Role) : matches (Not r) queried = true <-> queried <> r.
Proof.
  simpl. rewrite negb_true_iff. split; intro H.
  - now apply String.eqb_neq.
  - now apply String.eqb_neq.
Qed.

Lemma first_match_split (T : Type) (pre : list (matcher * option T)) :
  forall m x post queried,
    matches m queried = true ->
    (forall m' y, In (m', y) pre -> matches m' queried = false) ->
    first_match (pre ++ (m, x) :: post) queried = x.
Proof.
  induction pre as [|[m0 y0] pre IH]; intros m x post queried Hm Hpre; simpl.
  - now rewrite Hm.
  - rewrite (Hpre m0 y0) by now left.
    apply IH; [assumption|]. intros m' y Hin. apply (Hpre m' y). now right.
Qed.

Lemma first_match_none (T : Type) (vs : list (matcher * option T)) (queried : Role) :
  (forall m y, In (m, y) vs -> matches m queried = false) ->
  first_match vs queried = None.
Proof.
  induction vs as [|[m0 y0] vs IH]; intro H; simpl; [reflexivity|].
  rewrite (H m0 y0) by now left.
  apply IH. intros m y Hin. apply (H m y). now right.
Qed.

(** Either some entry is the first one whose predicate matches, or none
    matches. *)
Lemma first_match_cases (T : Type) (vs : list (matcher * option T)) (queried : Role) :
  (exists pre m x post,
      vs = pre ++ (m, x) :: post /\ matches m queried = true /\
      (forall m' y, In (m', y) pre -> matches m' queried = false) /\
      first_match vs queried = x)
  \/ ((forall m y, In (m, y) vs -> matches m queried = false) /\
      first_match vs queried = None).
Proof.
  induction vs as [|[m0 y0] vs IH].
  - right. split; [intros m y []|reflexivity].
  - destruct (matches m0 queried) eqn:Hm0.
    + left. exists [], m0, y0, vs. simpl. rewrite Hm0.
      repeat split; try reflexivity; try assumption. intros m' y [].
    + destruct IH as [(pre & m & x & post & Hvs & Hm & Hpre & Hres)|[Hnone Hres]].
      * left. exists ((m0, y0) :: pre), m, x, post. simpl. rewrite Hm0.
        repeat split; try assumption.
        -- now rewrite Hvs.
        -- intros m' y [Heq|Hin]; [now inversion Heq; subst|now apply (Hpre m' y)].
      * right. simpl. rewrite Hm0. split; [|assumption].
        intros m y [Heq|Hin]; [now inversion Heq; subst|now apply (Hnone m y)].
Qed.

(** C1. [Var.resolve] scans the (predicate, value) pairs in declared order
    and returns the value of the first entry whose predicate matches the
    queried role: a literal matches exactly its own role name, [Not r]
    matches every role except [r], the catch-all matches every role; when
    no predicate matches the result is [None].  In particular a [Var] whose
    first entry is [Not "role_3"] resolves to that entry's value for every
    role other than ["role_3"], whatever the later entries name, and to
    [None] for ["role_3"] when no later entry matches. *)
Theorem resolve_first_match_wins :
  forall (T : Type) (v : Var T) (queried : Role),
    (forall r, matches (Is r) queried = true <-> queried = r) /\
    (forall r, matches (Not r) queried = true <-> queried <> r) /\
    matches Anything queried = true /\
    ((exists pre m x post,
         values v = pre ++ (m, x) :: post /\ matches m queried = true /\
         (forall m' y, In (m', y) pre -> matches m' queried = false) /\
         resolve v queried = x)
     \/ ((forall m y, In (m, y) (values v) -> matches m queried = false) /\
         resolve v queried = None)) /\
    (forall pre m x post,
        values v = pre ++ (m, x) :: post -> matches m queried = true ->
        (forall m' y, In (m', y) pre -> matches m' queried = false) ->
        resolve v queried = x) /\
    (forall x rest,
        values v = (Not "role_3", x) :: rest ->
        (queried <> "role_3" -> resolve v queried = x) /\
        (queried = "role_3" ->
         (forall m y, In (m, y) rest -> matches m queried = false) ->
         resolve v queried = None)).
Proof.
  intros T v queried.
  split; [intro r; apply matches_Is|].
  split; [intro r; apply matches_Not|].
  split; [reflexivity|].
  split; [apply first_match_cases|].
  split.
  - intros pre m x post Hv Hm Hpre. unfold resolve, resolve_2. simpl.
    rewrite Hv. now apply first_match_split.
  - intros x rest Hv. unfold resolve, resolve_2. simpl. rewrite Hv. split.
    + intro Hne. simpl. apply String.eqb_neq in Hne. now rewrite Hne.
    + intros Heq Hrest. simpl. subst queried. simpl.
      now apply first_match_none.
Qed.

(** ** Dictionaries *)

Lemma dict_get_set (V : Type) (k k' : string) (v : V) (d : pydict V) :
  dict_get k (dict_set k' v d) = if String.eqb k k' then Some v else dict_get k d.
Proof.
  induction d as [|[k0 v0] d IH]; simpl.
  - destruct (String.eqb k k'); reflexivity.
  - destruct (String.eqb k' k0) eqn:E0; simpl.
    + apply String.eqb_eq in E0. subst k0.
      destruct (String.eqb k k'); reflexivity.
    + rewrite IH. destruct (String.eqb k k0) eqn:E1; [|reflexivity].
      apply String.eqb_eq in E1. subst k0.
      rewrite String.eqb_sym in E0. now rewrite E0.
Qed.

Lemma dict_get_set_same (V : Type) (k : string) (v : V) (d : pydict V) :
  dict_get k (dict_set k v d) = Some v.
Proof. rewrite dict_get_set. now rewrite String.eqb_refl. Qed.

Lemma dict_get_set_other (V : Type) (k k' : string) (v : V) (d : pydict V) :
  String.eqb k k' = false -> dict_get k (dict_set k' v d) = dict_get k d.
Proof. intro H. rewrite dict_get_set. now rewrite H. Qed.

Section Facts.

Context {E : Externals}.

Lemma dict_get_set_if_some (k k' : string) (value : option json) (d : pydict json) :
  dict_get k (set_if_some k' value d) =
  match value with
  | Some v => if String.eqb k k' then Some v else dict_get k d
  | None => dict_get k d
  end.
Proof. destruct value; simpl; [apply dict_get_set|reflexivity]. Qed.

Lemma dict_get_set_if_some_other (k k' : string) (value : option json)
    (d : pydict json) :
  String.eqb k k' = false -> dict_get k (set_if_some k' value d) = dict_get k d.
Proof. intro H. rewrite dict_get_set_if_some. rewrite H. now destruct value. Qed.

(** [_update_schema_with_common_fields] writes under no key other than
    [id], [title], [description], [enum] and [default]. *)
Lemma common_fields_other_key (self : SchemaAttrs) (schema : pydict json)
    (id : string) (role : Role) (k : string) :
  existsb (String.eqb k) ["id"; "title"; "description"; "enum"; "default"] = false ->
  dict_get k (_update_schema_with_common_fields self schema id role) = dict_get k schema.
Proof.
  simpl. intro H.
  repeat (apply orb_false_iff in H; destruct H as [? H]).
  unfold _update_schema_with_common_fields.
  assert (Hdef : forall d,
             dict_get k match get_default self role with
                        | Some JNull | None => d
                        | Some default => dict_set "default" default d
                        end = dict_get k d).
  { intro d. destruct (get_default self role) as [[]|];
      try reflexivity; now apply dict_get_set_other. }
  rewrite Hdef.
  assert (Henum : forall d,
             dict_get k match get_enum self role with
                        | Some ((_ :: _) as enum) => dict_set "enum" (JList enum) d
                        | _ => d
                        end = dict_get k d).
  { intro d. destruct (get_enum self role) as [[|]|];
      try reflexivity; now apply dict_get_set_other. }
  rewrite Henum.
  rewrite !dict_get_set_if_some_other by assumption.
  destruct (truthy_string id); [now apply dict_get_set_other|reflexivity].
Qed.

(** ** Number fields *)

(** C10. When [exclusive_minimum] resolves to a true value under the
    queried role, [NumberField] (and so [IntField]) writes it under the key
    spelled [exclusiveMinumum], and never writes a key [exclusiveMinimum];
    a true [exclusive_maximum] is written under [exclusiveMaximum]; a false
    or absent value of either attribute writes no key. *)
Theorem NumberField_exclusive_bounds_keys :
  forall (fuel : nat) (s : SchemaAttrs) (number_type : string)
         (multiple_of minimum : attr Z) (exclusive_minimum : attr bool)
         (maximum : attr Z) (exclusive_maximum : attr bool)
         (role : Role) (scope : Scope) (ordered : bool)
         (ref_documents : option (list Document)),
  exists schema,
    get_definitions_and_schema (S fuel)
      (NumberField s number_type multiple_of minimum exclusive_minimum maximum
         exclusive_maximum) role scope ordered ref_documents
    = Return ([], JDict schema) /\
    dict_get "exclusiveMinimum" schema = None /\
    dict_get "exclusiveMinumum" schema =
      (if truthy (maybe_resolve exclusive_minimum role)
       then Some (JBool true) else None) /\
    dict_get "exclusiveMaximum" schema =
      (if truthy (maybe_resolve exclusive_maximum role)
       then Some (JBool true) else None).
Proof.
  intros. simpl. unfold NumberField_get_definitions_and_schema.
  destruct (alter scope (id s)) as [id' scope'].
  eexists. split; [reflexivity|].
  set (base := _update_schema_with_common_fields s [("type", JStr number_type)] id' role).
  assert (Hbase : forall k,
             existsb (String.eqb k) ["id"; "title"; "description"; "enum"; "default"; "type"]
             = false -> dict_get k base = None).
  { intros k Hk. simpl in Hk.
    unfold base. rewrite common_fields_other_key.
    - simpl. repeat (apply orb_false_iff in Hk; destruct Hk as [? Hk]).
      now replace (String.eqb k "type") with false.
    - simpl. repeat (apply orb_false_iff in Hk; destruct Hk as [? Hk]).
      repeat (apply orb_false_iff; split; try assumption). }
  destruct (maybe_resolve exclusive_minimum role) as [[|]|];
    destruct (maybe_resolve exclusive_maximum role) as [[|]|]; simpl;
    repeat split;
    repeat first
      [ rewrite dict_get_set_if_some_other by reflexivity
      | rewrite dict_get_set_other by reflexivity
      | rewrite dict_get_set_same ];
    try reflexivity; apply Hbase; reflexivity.
Qed.

(** ** Document fields *)

Lemma in_documents_In (d : Document) (docs : list Document) :
  in_documents d docs = true <-> In d docs.
Proof.
  unfold in_documents. destruct (in_dec Document_eq_dec d docs); split;
    intro H; try assumption; try reflexivity; [discriminate|contradiction].
Qed.

Lemma in_ref_documents_In (d : Document) (docs : list Document) :
  in_ref_documents d (Some docs) = true <-> In d docs.
Proof.
  destruct docs as [|d0 docs].
  - simpl. split; [discriminate|intros []].
  - exact (in_documents_In d (d0 :: docs)).
Qed.

Lemma in_ref_documents_not_In (d : Document) (ref_documents : option (list Document)) :
  in_ref_documents d ref_documents = false <->
  (forall docs, ref_documents = Some docs -> ~ In d docs).
Proof.
  destruct ref_documents as [docs|].
  - split.
    + intros H docs' Heq Hin. inversion Heq; subst docs'.
      apply in_ref_documents_In in Hin. congruence.
    + intro H. destruct (in_ref_documents d (Some docs)) eqn:Hd; [|reflexivity].
      apply in_ref_documents_In in Hd. now elim (H docs eq_refl).
  - simpl. split; [intros _ docs Heq; discriminate|reflexivity].
Qed.

(** C5. A [DocumentField] whose target Document (under the queried role) is
    in [ref_documents] compiles to the reference the scope creates for the
    target's definition id, with no definitions; when the target is not in
    [ref_documents] and [as_ref] is set, the schema the Document compiles to
    is stored under its definition id in the returned definitions and the
    field's schema is the reference to it. *)
Theorem DocumentField_compiles_to_reference :
  forall (fuel : nat) (b : BaseAttrs) (document_cls : attr (DocTarget Document))
         (owner_cls : option Document) (as_ref : bool) (role : Role)
         (scope : Scope) (ordered : bool)
         (ref_documents : option (list Document)) (target : Document),
    get_document_cls document_cls owner_cls role = Return (Some target) ->
    (forall docs,
        ref_documents = Some docs -> In target docs ->
        get_definitions_and_schema (S fuel)
          (DocumentField b document_cls owner_cls as_ref) role scope ordered
          ref_documents
        = Return ([], create_ref scope (get_definition_id target)))
    /\
    ((forall docs, ref_documents = Some docs -> ~ In target docs) ->
     as_ref = true ->
     forall document_definitions document_schema,
       Document_get_definitions_and_schema target role scope ordered ref_documents
       = Return (document_definitions, document_schema) ->
       exists definitions,
         get_definitions_and_schema (S fuel)
           (DocumentField b document_cls owner_cls as_ref) role scope ordered
           ref_documents
         = Return (definitions, create_ref scope (get_definition_id target)) /\
         definitions =
           dict_set (get_definition_id target) document_schema document_definitions /\
         dict_get (get_definition_id target) definitions = Some document_schema).
Proof.
  intros fuel b document_cls owner_cls as_ref role scope ordered ref_documents
    target Hcls.
  split.
  - intros docs Hrefs Hin. subst ref_documents. cbn [get_definitions_and_schema].
    unfold DocumentField_get_definitions_and_schema. rewrite Hcls. cbn [bind].
    apply in_ref_documents_In in Hin. now rewrite Hin.
  - intros Hnot Has_ref defs schema Hdoc. subst as_ref. cbn [get_definitions_and_schema].
    unfold DocumentField_get_definitions_and_schema. rewrite Hcls. cbn [bind].
    apply in_ref_documents_not_In in Hnot. rewrite Hnot. rewrite Hdoc. cbn [bind].
    eexists. split; [reflexivity|]. split; [reflexivity|].
    apply dict_get_set_same.
Qed.

(** C9 (as amended).  Constructing a [DocumentField] never fails and
    leaves it without an owner, also when its [document_cls] is the
    self-reference constant; the missing owner is reported by
    [get_document_cls], with [ValueError], when the [document_cls] resolves
    to that constant under the queried role.  Once [set_owner] has given an
    owner, [get_document_cls] returns the owner for the constant.  What
    calls [get_document_cls] fails in the same way for want of an owner:
    [iter_fields], [walk] through document fields and
    [get_definitions_and_schema]. *)
Theorem DocumentField_owner_checked_by_get_document_cls :
  forall (oid : nat) (document_cls : attr (DocTarget Document)) (as_ref : bool)
         (required : attr bool),
    DocumentField_init oid document_cls as_ref required
    = Return (DocumentField (mkBase oid required) document_cls None as_ref) /\
    (forall (role : Role) (owner : Document),
        maybe_resolve document_cls role = Some (DocName RECURSIVE_REFERENCE_CONSTANT) ->
        get_document_cls document_cls None role
        = Raise (ValueError "owner_cls is not set") /\
        set_owner (DocumentField (mkBase oid required) document_cls None as_ref) owner
        = DocumentField (mkBase oid required) document_cls (Some owner) as_ref /\
        get_document_cls document_cls (Some owner) role = Return (Some owner) /\
        iter_fields (DocumentField (mkBase oid required) document_cls None as_ref) role
        = Raise (ValueError "owner_cls is not set") /\
        (forall fuel visited_documents,
            walk (S fuel) (DocumentField (mkBase oid required) document_cls None as_ref)
              role true visited_documents
            = Raise (ValueError "owner_cls is not set")) /\
        (forall fuel scope ordered ref_documents,
            get_definitions_and_schema (S fuel)
              (DocumentField (mkBase oid required) document_cls None as_ref) role scope
              ordered ref_documents
            = Raise (ValueError "owner_cls is not set"))).
Proof.
  intros oid document_cls as_ref required. split; [reflexivity|].
  intros role owner Hself.
  assert (Hcls : get_document_cls document_cls None role
                 = Raise (ValueError "owner_cls is not set")).
  { unfold get_document_cls. now rewrite Hself. }
  split; [exact Hcls|]. split; [reflexivity|].
  split; [unfold get_document_cls; now rewrite Hself|].
  split; [|split].
  - cbn [iter_fields]. now rewrite Hcls.
  - intros fuel visited. cbn [walk]. unfold DocumentField_walk. now rewrite Hcls.
  - intros fuel scope ordered ref_documents. cbn [get_definitions_and_schema].
    unfold DocumentField_get_definitions_and_schema. now rewrite Hcls.
Qed.

(** ** Regular expressions of [pattern_properties] *)

Lemma validate_keys_valid (keys : list string) :
  (forall key, In key keys -> re_compile key = None) ->
  validate_keys keys = Return tt.
Proof.
  induction keys as [|key keys IH]; intro H; simpl; [reflexivity|].
  unfold _validate_regex. rewrite (H key) by now left. simpl.
  apply IH. intros key' Hin. apply H. now right.
Qed.

Lemma validate_keys_invalid (keys : list string) :
  (exists key, In key keys /\ re_compile key <> None) ->
  exists key e,
    In key keys /\ re_compile key = Some e /\
    validate_keys keys = Raise (ValueError ("Invalid regular expression: " ++ e)%string).
Proof.
  induction keys as [|key keys IH]; intros (bad & Hin & Hbad); [destruct Hin|].
  simpl. unfold _validate_regex. destruct (re_compile key) as [e|] eqn:Hkey.
  - exists key, e. repeat split; [now left|assumption].
  - destruct Hin as [Heq|Hin]; [subst bad; congruence|].
    destruct IH as (key' & e & Hin' & Hre & Hraise); [now exists bad|].
    exists key', e. repeat split; [now right|assumption|assumption].
Qed.

(** The keys are validated in order: the error is that of the first key
    that does not compile. *)
Lemma validate_keys_first_invalid (keys : list string) :
  (exists key, In key keys /\ re_compile key <> None) ->
  exists before key after e,
    keys = before ++ key :: after /\
    (forall valid, In valid before -> re_compile valid = None) /\
    re_compile key = Some e /\
    validate_keys keys = Raise (ValueError ("Invalid regular expression: " ++ e)%string).
Proof.
  induction keys as [|key keys IH]; intros (bad & Hin & Hbad); [destruct Hin|].
  simpl. unfold _validate_regex. destruct (re_compile key) as [e|] eqn:Hkey.
  - exists [], key, keys, e. repeat split; [intros valid []|assumption].
  - destruct Hin as [Heq|Hin]; [subst bad; congruence|].
    destruct IH as (before & key' & after & e & Hkeys & Hvalid & Hre & Hraise);
      [now exists bad|].
    exists (key :: before), key', after, e. repeat split; try assumption.
    + simpl. now rewrite Hkeys.
    + intros valid [Heq|Hin']; [now subst valid|now apply Hvalid].
Qed.

(** What compiling the [properties] of a [DictField] comes to: they are
    absent under the role, or their processing returns. *)
Definition properties_return (rec : compile_fn)
    (properties : attr (pydict (attr (Field Document)))) (scope : Scope)
    (ordered : bool) (ref_documents : option (list Document)) (role : Role) : Prop :=
  match maybe_resolve_2 properties role with
  | (Some properties, properties_role) =>
      exists r, _process_properties rec properties scope ordered ref_documents
                  properties_role = Return r
  | (None, _) => True
  end.

(** The same for [additional_properties]. *)
Definition additional_returns (rec : compile_fn)
    (additional : attr (BoolOr (Field Document))) (scope : Scope)
    (ordered : bool) (ref_documents : option (list Document)) (role : Role) : Prop :=
  match maybe_resolve_2 additional role with
  | (Some (IsField field), field_role) =>
      exists r, rec field field_role scope ordered ref_documents = Return r
  | _ => True
  end.

(** C8 (as amended).  [DictField.__init__] looks at no key of
    [pattern_properties] and never fails.  The keys are validated by
    [get_definitions_and_schema], for the mapping that
    [pattern_properties] resolves to under the queried role: when one of
    them does not compile (and the [properties] before it were processed),
    the call raises [ValueError] for the first such key, in the order of
    the mapping: the keys before it compile; when all of them compile, the
    validation raises nothing, and the call returns whenever the nested
    fields compile. *)
Theorem DictField_pattern_keys_validated_when_compiled :
  forall (fuel : nat) (s : SchemaAttrs)
         (properties pattern_properties : attr (pydict (attr (Field Document))))
         (additional_properties : attr (BoolOr (Field Document)))
         (min_properties max_properties : attr Z)
         (role : Role) (scope : Scope) (ordered : bool)
         (ref_documents : option (list Document)),
    let self := DictField s properties pattern_properties additional_properties
                  min_properties max_properties in
    let rec := get_definitions_and_schema fuel in
    let scope' := snd (alter scope (id s)) in
    DictField_init s properties pattern_properties additional_properties
      min_properties max_properties = Return self /\
    (forall patterns,
        maybe_resolve pattern_properties role = Some patterns ->
        properties_return rec properties scope' ordered ref_documents role ->
        ((exists key, In key (dict_keys patterns) /\ re_compile key <> None) ->
         exists before key after e,
           dict_keys patterns = before ++ key :: after /\
           (forall valid, In valid before -> re_compile valid = None) /\
           re_compile key = Some e /\
           get_definitions_and_schema (S fuel) self role scope ordered ref_documents
           = Raise (ValueError ("Invalid regular expression: " ++ e)%string)) /\
        ((forall key, In key (dict_keys patterns) -> re_compile key = None) ->
         validate_keys (dict_keys patterns) = Return tt /\
         ((exists r,
              _process_properties rec patterns scope' ordered ref_documents
                (snd (maybe_resolve_2 pattern_properties role)) = Return r) ->
          additional_returns rec additional_properties scope' ordered ref_documents
            role ->
          exists definitions schema,
            get_definitions_and_schema (S fuel) self role scope ordered ref_documents
            = Return (definitions, JDict schema)))).
Proof.
  intros fuel s properties pattern_properties additional_properties
    min_properties max_properties role scope ordered ref_documents self rec scope'.
  split; [reflexivity|].
  intros patterns Hpat Hprops.
  assert (Hcompile :
    get_definitions_and_schema (S fuel) self role scope ordered ref_documents
    = DictField_get_definitions_and_schema rec s properties pattern_properties
        additional_properties min_properties max_properties role scope ordered
        ref_documents) by reflexivity.
  rewrite Hcompile. unfold DictField_get_definitions_and_schema.
  unfold scope' in *. destruct (alter scope (id s)) as [id' sc]. cbn [snd] in *.
  unfold properties_return in Hprops.
  unfold maybe_resolve in Hpat.
  destruct (maybe_resolve_2 pattern_properties role) as [pp prole] eqn:Hpp.
  cbn [fst snd] in *. subst pp.
  split.
  - intros Hbad.
    destruct (validate_keys_first_invalid _ Hbad)
      as (before & key & after & e & Hkeys & Hvalid & Hre & Hraise).
    exists before, key, after, e. repeat split; try assumption.
    destruct (maybe_resolve_2 properties role) as [[props|] prole'].
    + destruct Hprops as [[[pd pr] ps] Hr]. rewrite Hr. cbn [bind].
      rewrite Hraise. reflexivity.
    + cbn [bind]. rewrite Hraise. reflexivity.
  - intros Hvalid. split; [now apply validate_keys_valid|].
    intros Hpatterns Hadd.
    unfold additional_returns in Hadd.
    rewrite (validate_keys_valid _ Hvalid).
    assert (Hpat_ret : exists r,
               _process_properties rec patterns sc ordered ref_documents prole
               = Return r).
    { destruct Hpatterns as [r Hr]. exists r. exact Hr. }
    destruct Hpat_ret as [[[pd pr] ps] Hr].
    destruct (maybe_resolve_2 properties role) as [[props|] prole'].
    + destruct Hprops as [[[pd0 pr0] ps0] Hr0]. rewrite Hr0. cbn [bind].
      rewrite Hr. cbn [bind].
      destruct (maybe_resolve_2 additional_properties role) as [[[b|f]|] arole].
      * cbn [bind]. eexists; eexists; reflexivity.
      * destruct Hadd as [[ad asch] Ha]. rewrite Ha. cbn [bind].
        eexists; eexists; reflexivity.
      * cbn [bind]. eexists; eexists; reflexivity.
    + cbn [bind]. rewrite Hr. cbn [bind].
      destruct (maybe_resolve_2 additional_properties role) as [[[b|f]|] arole].
      * cbn [bind]. eexists; eexists; reflexivity.
      * destruct Hadd as [[ad asch] Ha]. rewrite Ha. cbn [bind].
        eexists; eexists; reflexivity.
      * cbn [bind]. eexists; eexists; reflexivity.
Qed.

(** ** Properties of an object schema *)


Lemma dict_get_keys (V : Type) (k : string) (d : pydict V) :
  In k (dict_keys d) <-> exists v, dict_get k d = Some v.
Proof.
  induction d as [|[k0 v0] d IH]; simpl.
  - split; [intros []|intros [v Hv]; discriminate].
  - destruct (String.eqb k k0) eqn:E0.
    + apply String.eqb_eq in E0. subst k0. split; [now exists v0|now left].
    + rewrite <- IH. apply String.eqb_neq in E0. split; [intros [H|H]|]; try tauto.
      now elim E0.
Qed.








(** ** A role among the roles to pass down *)

Lemma role_in_In (r : Role) (l : list Role) : role_in r l = true <-> In r l.
Proof.
  unfold role_in. rewrite existsb_exists. split.
  - intros (x & Hin & Heq). apply String.eqb_eq in Heq. now subst x.
  - intro Hin. exists r. split; [assumption|apply String.eqb_refl].
Qed.

(** ** Common attributes *)

(** What [_update_schema_with_common_fields] leaves under [title],
    [description], [enum] and [default]. *)
Lemma common_fields_written (self : SchemaAttrs) (schema : pydict json)
    (id : string) (role : Role) :
  let updated := _update_schema_with_common_fields self schema id role in
  dict_get "title" updated =
    match maybe_resolve (title self) role with
    | Some title => Some (JStr title)
    | None => dict_get "title" schema
    end /\
  dict_get "description" updated =
    match maybe_resolve (description self) role with
    | Some description => Some (JStr description)
    | None => dict_get "description" schema
    end /\
  dict_get "enum" updated =
    match get_enum self role with
    | Some ((_ :: _) as enum) => Some (JList enum)
    | _ => dict_get "enum" schema
    end /\
  dict_get "default" updated =
    match get_default self role with
    | Some JNull | None => dict_get "default" schema
    | Some default => Some default
    end.
Proof.
  unfold _update_schema_with_common_fields.
  set (s1 := if truthy_string id then dict_set "id" (JStr id) schema else schema).
  assert (H1 : forall k, String.eqb k "id" = false -> dict_get k s1 = dict_get k schema).
  { intros k Hk. unfold s1. destruct (truthy_string id); [|reflexivity].
    now apply dict_get_set_other. }
  cbv zeta.
  destruct (maybe_resolve (title self) role) as [t|];
    destruct (maybe_resolve (description self) role) as [d|];
    destruct (get_enum self role) as [[|e es]|];
    destruct (get_default self role) as [[]|]; cbn [option_map set_if_some];
    repeat split;
    repeat first
      [ rewrite dict_get_set_other by reflexivity
      | rewrite dict_get_set_same ];
    try reflexivity; apply H1; reflexivity.
Qed.

(** ** Absent children *)

Lemma ArrayField_items_loop_absent (rec : compile_fn) (role : Role) (scope : Scope)
    (ordered : bool) (ref_documents : option (list Document))
    (items : list (attr (Field Document))) :
  (exists item, In item items /\ maybe_resolve item role = None) ->
  (forall item field,
      In item items -> maybe_resolve item role = Some field ->
      exists r, rec field (snd (maybe_resolve_2 item role)) scope ordered
                  ref_documents = Return r) ->
  forall nested_definitions nested_schema,
    ArrayField_items_loop rec items role scope ordered ref_documents
      nested_definitions nested_schema
    = Raise (NoneType_has_no "get_definitions_and_schema").
Proof.
  induction items as [|item items IH]; intros (absent & Hin & Habsent) Hpresent
    nested_definitions nested_schema; [destruct Hin|].
  cbn [ArrayField_items_loop]. unfold maybe_resolve in *.
  destruct (maybe_resolve_2 item role) as [[field|] items_role] eqn:Hitem.
  - destruct (Hpresent item field) as [[d sch] Hr];
      [now left|now rewrite Hitem|].
    rewrite Hitem in Hr. cbn [snd] in Hr. rewrite Hr. cbn [bind].
    apply IH.
    + destruct Hin as [Heq|Hin].
      * subst absent. rewrite Hitem in Habsent. discriminate.
      * now exists absent.
    + intros item' field' Hin' Hres. apply Hpresent; [now right|assumption].
  - reflexivity.
Qed.

(** C4 (what the code does).  An [ArrayField] whose [items] are a plain
    list does not skip an item that resolves to [None] under the role:
    when the items that are present compile, compiling the array raises
    [AttributeError], from calling [get_definitions_and_schema] on
    [None]. *)
Theorem ArrayField_absent_item_raises :
  forall (fuel : nat) (s : SchemaAttrs) (items : list (attr (Field Document)))
         (min_items max_items : attr Z) (unique_items : attr bool)
         (additional_items : attr (BoolOr (Field Document)))
         (role : Role) (scope : Scope) (ordered : bool)
         (ref_documents : option (list Document)),
    (exists item, In item items /\ maybe_resolve item role = None) ->
    (forall item field,
        In item items -> maybe_resolve item role = Some field ->
        exists r,
          get_definitions_and_schema fuel field (snd (maybe_resolve_2 item role))
            (snd (alter scope (id s))) ordered ref_documents = Return r) ->
    get_definitions_and_schema (S fuel)
      (ArrayField s (Plain (Some (ItemList items))) min_items max_items
         unique_items additional_items) role scope ordered ref_documents
    = Raise (NoneType_has_no "get_definitions_and_schema").
Proof.
  intros fuel s items min_items max_items unique_items additional_items role
    scope ordered ref_documents Habsent Hpresent.
  cbn [get_definitions_and_schema].
  unfold ArrayField_get_definitions_and_schema.
  destruct (alter scope (id s)) as [id' scope']. cbn [snd] in Hpresent.
  cbn [maybe_resolve_2 iter_items bind].
  rewrite (ArrayField_items_loop_absent _ _ _ _ _ _ Habsent Hpresent).
  reflexivity.
Qed.

(** The sibling loops do skip a child that resolves to [None]. *)
Lemma BaseOfField_loop_skips_absent (rec : compile_fn) (field : attr (Field Document))
    (fields : list (attr (Field Document))) (fields_role : Role) (scope : Scope)
    (ordered : bool) (ref_documents : option (list Document))
    (nested_definitions : pydict json) (one_of : list json) :
  maybe_resolve field fields_role = None ->
  BaseOfField_loop rec (field :: fields) fields_role scope ordered ref_documents
    nested_definitions one_of
  = BaseOfField_loop rec fields fields_role scope ordered ref_documents
      nested_definitions one_of.
Proof.
  unfold maybe_resolve. intro H. cbn [BaseOfField_loop].
  destruct (maybe_resolve_2 field fields_role) as [[f|] r]; [discriminate|reflexivity].
Qed.

Lemma process_properties_loop_skips_absent (rec : compile_fn) (prop : string)
    (field : attr (Field Document)) (properties : pydict (attr (Field Document)))
    (scope : Scope) (ordered : bool) (ref_documents : option (list Document))
    (role : Role) (nested_definitions : pydict json) (required : list string)
    (schema : pydict json) :
  maybe_resolve field role = None ->
  _process_properties_loop rec ((prop, field) :: properties) scope ordered
    ref_documents role nested_definitions required schema
  = _process_properties_loop rec properties scope ordered ref_documents role
      nested_definitions required schema.
Proof.
  unfold maybe_resolve. intro H. cbn [_process_properties_loop].
  destruct (maybe_resolve_2 field role) as [[f|] r]; [discriminate|reflexivity].
Qed.

(** C7 (what the code does).  [BaseOfField] ([OneOfField], [AnyOfField],
    [AllOfField]) writes [title], [description], [enum] and [default] as
    they resolve under the default role, whatever role it is compiled
    under. *)
Theorem BaseOfField_common_fields_under_default_role :
  forall (fuel : nat) (s : SchemaAttrs) (keyword : string)
         (fields : attr (list (attr (Field Document))))
         (role : Role) (scope : Scope) (ordered : bool)
         (ref_documents : option (list Document))
         (definitions : pydict json) (schema : json),
    In keyword ["oneOf"; "anyOf"; "allOf"] ->
    get_definitions_and_schema (S fuel) (BaseOfField s keyword fields) role scope
      ordered ref_documents = Return (definitions, schema) ->
    exists object,
      schema = JDict object /\
      dict_get "title" object = option_map JStr (maybe_resolve (title s) DEFAULT_ROLE) /\
      dict_get "description" object =
        option_map JStr (maybe_resolve (description s) DEFAULT_ROLE) /\
      dict_get "enum" object =
        match get_enum s DEFAULT_ROLE with
        | Some ((_ :: _) as enum) => Some (JList enum)
        | _ => None
        end /\
      dict_get "default" object =
        match get_default s DEFAULT_ROLE with
        | Some JNull | None => None
        | Some default => Some default
        end.
Proof.
  intros fuel s keyword fields role scope ordered ref_documents definitions
    schema Hkeyword Hcompile.
  cbn [get_definitions_and_schema] in Hcompile.
  unfold BaseOfField_get_definitions_and_schema in Hcompile.
  destruct (alter scope (id s)) as [id' scope'].
  destruct (maybe_resolve_2 fields role) as [fs fields_role].
  match type of Hcompile with
  | bind ?m _ = _ => destruct m as [[nd one_of]| |]
  end; cbn [bind] in Hcompile; try discriminate.
  inversion Hcompile; subst. eexists. split; [reflexivity|].
  destruct (common_fields_written s [(keyword, JList one_of)] id' DEFAULT_ROLE)
    as (Ht & Hd & He & Hdef).
  rewrite Ht, Hd, He, Hdef.
  assert (Hk : forall k, In k ["title"; "description"; "enum"; "default"] ->
                         dict_get k [(keyword, JList one_of)] = None).
  { intros k Hk. cbn [dict_get].
    destruct Hkeyword as [<-|[<-|[<-|[]]]];
      destruct Hk as [<-|[<-|[<-|[<-|[]]]]]; reflexivity. }
  rewrite !Hk by (simpl; tauto).
  destruct (maybe_resolve (title s) DEFAULT_ROLE);
    destruct (maybe_resolve (description s) DEFAULT_ROLE);
    repeat split; reflexivity.
Qed.

(** ** The depth of nested fields *)

Lemma depth_of_list_In {A : Type} (h : A -> nat) (l : list A) (a : A) :
  In a l -> h a <= depth_of_list h l.
Proof.
  induction l as [|b l IH]; intros Hin; [destruct Hin|].
  simpl. destruct Hin as [->|Hin]; [lia|]. specialize (IH Hin). lia.
Qed.

Lemma first_match_depth {A : Type} (h : A -> nat) (vs : list (matcher * option A))
    (queried : Role) (a : A) :
  first_match vs queried = Some a ->
  h a <= depth_of_list (fun entry => depth_of_option h (snd entry)) vs.
Proof.
  induction vs as [|[m v] vs IH]; intro H; [discriminate|].
  simpl in *. destruct (matches m queried).
  - subst v. simpl. lia.
  - specialize (IH H). lia.
Qed.

(** What an attribute resolves to is no deeper than the attribute. *)
Lemma maybe_resolve_depth {A : Type} (h : A -> nat) (value : attr A) (queried : Role)
    (a : A) :
  maybe_resolve value queried = Some a -> h a <= depth_of_attr h value.
Proof.
  unfold maybe_resolve. destruct value as [v|v]; simpl.
  - intros ->. simpl. lia.
  - apply first_match_depth.
Qed.

(** The fields that [iter_fields] yields for a field that is not a
    [DocumentField] are nested in it. *)
Lemma iter_fields_depth (self : Field Document) (role : Role)
    (children : list (attr (Field Document))) :
  (forall b c o r, self <> DocumentField b c o r) ->
  iter_fields self role = Return children ->
  forall child queried field,
    In child children -> maybe_resolve child queried = Some field ->
    depth field < depth self.
Proof.
  intros Hself Hiter child queried field Hin Hres.
  destruct self as [s|s p f mn mx|s t a b c d e|s items mn mx u additional
                   |s properties patterns additional mn mx|s k fields|s f
                   |b c o r]; cbn [iter_fields] in Hiter;
    try (inversion Hiter; subst; destruct Hin; fail).
  - (* ArrayField *)
    cbn [depth].
    destruct (maybe_resolve_2 items role) as [its items_role] eqn:Hitems.
    inversion Hiter; subst children; clear Hiter.
    apply in_app_or in Hin. destruct Hin as [Hin|Hin].
    + assert (Hle : depth field <= depth_of_attr (depth_of_items (@depth Document)) items);
        [|lia].
      destruct its as [[f|l]|]; [| |destruct Hin].
      * destruct Hin as [<-|[]]. cbn in Hres. inversion Hres; subst.
        apply (maybe_resolve_depth (depth_of_items (@depth Document)) items role
                 (OneItem field)).
        unfold maybe_resolve. now rewrite Hitems.
      * apply in_map_iff in Hin. destruct Hin as (item & <- & Hin).
        cbn in Hres.
        pose proof (maybe_resolve_depth (@depth Document) item items_role field Hres).
        pose proof (depth_of_list_In (depth_of_attr (@depth Document)) l item Hin).
        assert (depth_of_items (@depth Document) (ItemList l)
                <= depth_of_attr (depth_of_items (@depth Document)) items).
        { apply (maybe_resolve_depth (depth_of_items (@depth Document)) items role).
          unfold maybe_resolve. now rewrite Hitems. }
        cbn [depth_of_items] in *. lia.
    + assert (Hle : depth field
                    <= depth_of_attr (depth_of_bool_or (@depth Document)) additional);
        [|lia].
      destruct (maybe_resolve additional role) as [[bb|f]|] eqn:Hadd;
        try (destruct Hin; fail).
      destruct Hin as [<-|[]]. cbn in Hres. inversion Hres; subst.
      apply (maybe_resolve_depth (depth_of_bool_or (@depth Document)) additional role
               (IsField field) Hadd).
  - (* DictField *)
    cbn [depth].
    destruct (maybe_resolve_2 properties role) as [props props_role] eqn:Hprops.
    destruct (maybe_resolve_2 patterns role) as [pats pats_role] eqn:Hpats.
    inversion Hiter; subst children; clear Hiter.
    assert (Hdict : forall (d : pydict (attr (Field Document))) r,
               In child (flat_map
                           (fun kv : string * attr (Field Document) =>
                              match maybe_resolve (snd kv) r with
                              | Some field => [Plain (Some field)]
                              | None => []
                              end) d) ->
               depth field <= depth_of_dict (@depth Document) d).
    { intros d r Hd. apply in_flat_map in Hd. destruct Hd as ([k v] & Hkv & Hd).
      cbn [snd] in Hd. destruct (maybe_resolve v r) as [f|] eqn:Hv; [|destruct Hd].
      destruct Hd as [<-|[]]. cbn in Hres. inversion Hres; subst.
      pose proof (maybe_resolve_depth (@depth Document) v r field Hv).
      pose proof (depth_of_list_In
                    (fun kv : string * attr (Field Document) =>
                       depth_of_attr (@depth Document) (snd kv)) d (k, v) Hkv).
      unfold depth_of_dict. cbn [snd] in *. lia. }
    apply in_app_or in Hin. destruct Hin as [Hin|Hin];
      [|apply in_app_or in Hin; destruct Hin as [Hin|Hin]].
    + destruct props as [props|]; [|destruct Hin].
      apply Hdict in Hin.
      assert (depth_of_dict (@depth Document) props
              <= depth_of_attr (depth_of_dict (@depth Document)) properties).
      { apply (maybe_resolve_depth (depth_of_dict (@depth Document)) properties role).
        unfold maybe_resolve. now rewrite Hprops. }
      lia.
    + destruct pats as [pats|]; [|destruct Hin].
      apply Hdict in Hin.
      assert (depth_of_dict (@depth Document) pats
              <= depth_of_attr (depth_of_dict (@depth Document)) patterns).
      { apply (maybe_resolve_depth (depth_of_dict (@depth Document)) patterns role).
        unfold maybe_resolve. now rewrite Hpats. }
      lia.
    + destruct (maybe_resolve additional role) as [[bb|f]|] eqn:Hadd;
        try (destruct Hin; fail).
      destruct Hin as [<-|[]]. cbn in Hres. inversion Hres; subst.
      pose proof (maybe_resolve_depth (depth_of_bool_or (@depth Document)) additional
                    role (IsField field) Hadd) as Hle.
      cbn [depth_of_bool_or] in Hle. lia.
  - (* BaseOfField *)
    cbn [depth].
    destruct (maybe_resolve_2 fields role) as [[fs|] fields_role] eqn:Hfields;
      [|discriminate].
    inversion Hiter; subst children; clear Hiter.
    apply in_map_iff in Hin. destruct Hin as (item & <- & Hin).
    cbn in Hres.
    pose proof (maybe_resolve_depth (@depth Document) item fields_role field Hres).
    pose proof (depth_of_list_In (depth_of_attr (@depth Document)) fs item Hin).
    assert (depth_of_list (depth_of_attr (@depth Document)) fs
            <= depth_of_attr (depth_of_list (depth_of_attr (@depth Document))) fields).
    { apply (maybe_resolve_depth (depth_of_list (depth_of_attr (@depth Document)))
               fields role).
      unfold maybe_resolve. now rewrite Hfields. }
    lia.
  - now elim (Hself b c o r).
Qed.

(** ** Walking terminates *)

(** How many of the program's Document classes a walk has not entered. *)
Definition unvisited (all_documents visited : list Document) : nat :=
  List.length (filter (fun d => negb (in_documents d visited)) all_documents).

Lemma unvisited_visit (all_documents visited : list Document) (d : Document) :
  In d all_documents -> in_documents d visited = false ->
  unvisited all_documents (d :: visited) < unvisited all_documents visited.
Proof.
  intros Hin Hnew. unfold unvisited.
  assert (Hle : forall l,
             List.length (filter (fun x => negb (in_documents x (d :: visited))) l)
             <= List.length (filter (fun x => negb (in_documents x visited)) l)).
  { induction l as [|x l IH]; [simpl; lia|]. simpl.
    destruct (in_documents x visited) eqn:Hx.
    - assert (in_documents x (d :: visited) = true) as ->.
      { apply in_documents_In. right. now apply in_documents_In. }
      simpl. assumption.
    - destruct (in_documents x (d :: visited)); simpl; lia. }
  induction all_documents as [|x l IH]; [destruct Hin|]. simpl.
  destruct Hin as [->|Hin].
  - rewrite Hnew.
    assert (in_documents d (d :: visited) = true) as ->.
    { apply in_documents_In. now left. }
    simpl. specialize (Hle l). lia.
  - specialize (IH Hin).
    destruct (in_documents x visited) eqn:Hx.
    + assert (in_documents x (d :: visited) = true) as ->.
      { apply in_documents_In. right. now apply in_documents_In. }
      simpl. assumption.
    + destruct (in_documents x (d :: visited)); simpl; lia.
Qed.

(** From [bound] on, more fuel does not change what the walk produces, and
    that is not running out of fuel. *)
Definition settles (self : Field Document) (role : Role)
    (through_document_fields : bool) (visited : list Document) (bound : nat) : Prop :=
  walk bound self role through_document_fields visited <> OutOfFuel /\
  forall fuel, bound <= fuel ->
    walk fuel self role through_document_fields visited
    = walk bound self role through_document_fields visited.

Lemma settles_mono (self : Field Document) (role : Role) (through : bool)
    (visited : list Document) (bound bound' : nat) :
  settles self role through visited bound -> bound <= bound' ->
  settles self role through visited bound'.
Proof.
  intros [Hne Hstable] Hle. split.
  - now rewrite (Hstable bound' Hle).
  - intros fuel Hfuel. rewrite (Hstable bound' Hle). apply Hstable. lia.
Qed.

Lemma walk_loop_settles (through : bool) (visited : list Document) (role : Role)
    (children : list (attr (Field Document))) :
  (forall child field field_role,
      In child children -> maybe_resolve_2 child role = (Some field, field_role) ->
      exists bound, settles field field_role through visited bound) ->
  exists bound,
    walk_loop (walk bound) children role through visited <> OutOfFuel /\
    forall fuel, bound <= fuel ->
      walk_loop (walk fuel) children role through visited
      = walk_loop (walk bound) children role through visited.
Proof.
  induction children as [|child children IH]; intro Hchildren.
  - exists 0. split; [discriminate|reflexivity].
  - destruct IH as (bound1 & Hne1 & Hstable1).
    { intros c f r Hin. apply Hchildren. now right. }
    cbn [walk_loop].
    destruct (maybe_resolve_2 child role) as [[field|] field_role] eqn:Hchild.
    + destruct (Hchildren child field field_role) as (bound0 & Hsettles);
        [now left|exact Hchild|].
      pose proof (settles_mono _ _ _ _ _ (Nat.max bound0 bound1) Hsettles
                    (Nat.le_max_l _ _)) as [Hne Hstable].
      exists (Nat.max bound0 bound1). split.
      * destruct (walk (Nat.max bound0 bound1) field field_role through visited)
          as [yielded| |]; cbn [bind]; [|discriminate|congruence].
        rewrite (Hstable1 (Nat.max bound0 bound1)) by lia.
        destruct (walk_loop (walk bound1) children role through visited);
          cbn [bind]; [discriminate|discriminate|congruence].
      * intros fuel Hfuel. rewrite (Hstable fuel Hfuel).
        rewrite (Hstable1 fuel) by lia.
        rewrite (Hstable1 (Nat.max bound0 bound1)) by lia. reflexivity.
    + exists bound1. split; assumption.
Qed.

Lemma BaseField_walk_settles (self : Field Document) (through : bool)
    (visited : list Document) (role : Role) :
  (forall children child field field_role,
      iter_fields self role = Return children ->
      In child children -> maybe_resolve_2 child role = (Some field, field_role) ->
      exists bound, settles field field_role through visited bound) ->
  exists bound,
    BaseField_walk (walk bound) self role through visited <> OutOfFuel /\
    forall fuel, bound <= fuel ->
      BaseField_walk (walk fuel) self role through visited
      = BaseField_walk (walk bound) self role through visited.
Proof.
  intro Hchildren. unfold BaseField_walk.
  destruct (iter_fields self role) as [children|e|] eqn:Hiter; cbn [bind].
  - destruct (walk_loop_settles through visited role children)
      as (bound & Hne & Hstable).
    { intros c f r. now apply (Hchildren children). }
    exists bound. split.
    + destruct (walk_loop (walk bound) children role through visited); cbn [bind];
        [discriminate|discriminate|congruence].
    + intros fuel Hfuel. now rewrite (Hstable fuel Hfuel).
  - exists 0. split; [discriminate|reflexivity].
  - exfalso.
    destruct self; cbn [iter_fields] in Hiter; try discriminate.
    + destruct (maybe_resolve_2 items role); discriminate.
    + destruct (maybe_resolve_2 properties role);
        destruct (maybe_resolve_2 pattern_properties role); discriminate.
    + destruct (maybe_resolve_2 fields role) as [[|] ?]; discriminate.
    + unfold get_document_cls in Hiter.
      destruct (maybe_resolve _document_cls role) as [[name|d]|];
        cbn [bind] in Hiter; try discriminate.
      destruct (String.eqb name RECURSIVE_REFERENCE_CONSTANT).
      * destruct owner_cls; discriminate.
      * destruct (registry_get_document name None); [discriminate|].
        destruct owner_cls as [o|]; [|discriminate].
        destruct (registry_get_document name (Some (module_of o))); discriminate.
Qed.

Lemma get_document_cls_has_fuel (document_cls : attr (DocTarget Document))
    (owner_cls : option Document) (role : Role) :
  get_document_cls document_cls owner_cls role <> OutOfFuel.
Proof.
  unfold get_document_cls.
  destruct (maybe_resolve document_cls role) as [[name|d]|]; try discriminate.
  destruct (String.eqb name RECURSIVE_REFERENCE_CONSTANT).
  - destruct owner_cls; discriminate.
  - destruct (registry_get_document name None); [discriminate|].
    destruct owner_cls as [o|]; [|discriminate].
    destruct (registry_get_document name (Some (module_of o))); discriminate.
Qed.

Lemma depth_positive (self : Field Document) : 1 <= depth self.
Proof. destruct self; simpl; lia. Qed.

Lemma walk_S_BaseField (self : Field Document) :
  (forall b c o r, self <> DocumentField b c o r) ->
  forall fuel role through visited,
    walk (S fuel) self role through visited
    = BaseField_walk (walk fuel) self role through visited.
Proof.
  intros Hself fuel role through visited.
  destruct self; try reflexivity.
  now elim (Hself b _document_cls owner_cls as_ref).
Qed.

(** Given a list of all Document classes, every walk settles: by induction
    on the number of classes not yet visited, then on the depth of the
    field. *)
Lemma walk_settles (all_documents : list Document) (through : bool) :
  (forall d : Document, In d all_documents) ->
  forall n visited,
    unvisited all_documents visited = n ->
    forall self role, exists bound, settles self role through visited bound.
Proof.
  intro Hall. induction n as [n IHn] using lt_wf_ind. intros visited Hn.
  assert (Hdepth : forall h self, depth self <= h ->
                     forall role, exists bound, settles self role through visited bound).
  { induction h as [|h IHh]; intros self Hh role.
    - pose proof (depth_positive self). lia.
    - assert (Hbase : (forall b c o r, self <> DocumentField b c o r) ->
                      exists bound, settles self role through visited bound).
      { intro Hself.
        destruct (BaseField_walk_settles self through visited role)
          as (bound & Hne & Hstable).
        { intros children child field field_role Hiter Hin Hres.
          apply IHh.
          assert (depth field < depth self); [|lia].
          apply (iter_fields_depth self role children Hself Hiter child role field Hin).
          unfold maybe_resolve. now rewrite Hres. }
        exists (S bound). split.
        - now rewrite walk_S_BaseField.
        - intros [|fuel] Hfuel; [lia|].
          rewrite !walk_S_BaseField by assumption. apply Hstable. lia. }
      destruct self as [s|s p f mn mx|s t a b c d e|s items mn mx u additional
                       |s properties patterns additional mn mx|s k fields|s f
                       |b c o r];
        try (apply Hbase; intros; discriminate).
      destruct through.
      + destruct (get_document_cls c o role) as [document_cls|e|] eqn:Hcls;
          [| |now elim (get_document_cls_has_fuel c o role)].
        * destruct (not_visited document_cls visited) eqn:Hnew.
          -- destruct (BaseField_walk_settles (DocumentField b c o r) true
                         (visit document_cls visited) role)
               as (bound & Hne & Hstable).
             { intros children child field field_role Hiter Hin Hres.
               destruct document_cls as [d|].
               - cbn [not_visited visit] in *.
                 apply negb_true_iff in Hnew.
                 apply (IHn (unvisited all_documents (d :: visited))); [|reflexivity].
                 rewrite <- Hn. apply unvisited_visit; [apply Hall|assumption].
               - cbn [iter_fields] in Hiter.
                 rewrite Hcls in Hiter. discriminate. }
             exists (S bound). split.
             ++ cbn [walk]. unfold DocumentField_walk. rewrite Hcls. cbn [bind].
                rewrite Hnew.
                destruct (BaseField_walk (walk bound) (DocumentField b c o r) role true
                            (visit document_cls visited));
                  cbn [bind]; [discriminate|discriminate|congruence].
             ++ intros [|fuel] Hfuel; [lia|].
                cbn [walk]. unfold DocumentField_walk. rewrite Hcls. cbn [bind].
                rewrite Hnew. rewrite (Hstable fuel) by lia. reflexivity.
          -- exists 1. split.
             ++ cbn [walk]. unfold DocumentField_walk. rewrite Hcls. cbn [bind].
                rewrite Hnew. discriminate.
             ++ intros [|fuel] Hfuel; [lia|].
                cbn [walk]. unfold DocumentField_walk. rewrite Hcls. cbn [bind].
                now rewrite Hnew.
        * exists 1. split.
          -- cbn [walk]. unfold DocumentField_walk. rewrite Hcls. discriminate.
          -- intros [|fuel] Hfuel; [lia|].
             cbn [walk]. unfold DocumentField_walk. now rewrite Hcls.
      + exists 1. split; [discriminate|].
        intros [|fuel] Hfuel; [lia|reflexivity]. }
  intros self role. apply (Hdepth (depth self) self (Nat.le_refl _)).
Qed.

(** C6. In a program with finitely many Document classes, walking a field
    through its document fields ends, also when the Documents refer to
    themselves or to each other: with enough fuel the walk has one outcome,
    a finite list of fields or an exception.  A [DocumentField] whose
    Document is already in the set of visited Documents it is given yields
    itself and enters nothing. *)
Theorem walk_through_document_fields_ends :
  forall (all_documents : list Document),
    (forall d : Document, In d all_documents) ->
    forall (self : Field Document) (role : Role) (visited_documents : list Document),
      (exists bound outcome,
          outcome <> OutOfFuel /\
          forall fuel, bound <= fuel ->
            walk fuel self role true visited_documents = outcome) /\
      (forall fuel b document_cls owner_cls as_ref target,
          self = DocumentField b document_cls owner_cls as_ref ->
          get_document_cls document_cls owner_cls role = Return (Some target) ->
          In target visited_documents ->
          walk (S fuel) self role true visited_documents = Return [self]).
Proof.
  intros all_documents Hall self role visited. split.
  - destruct (walk_settles all_documents true Hall
                (unvisited all_documents visited) visited eq_refl self role)
      as (bound & Hne & Hstable).
    exists bound, (walk bound self role true visited). split; assumption.
  - intros fuel b document_cls owner_cls as_ref target -> Hcls Hin.
    cbn [walk]. unfold DocumentField_walk. rewrite Hcls. cbn [bind not_visited].
    apply in_documents_In in Hin. now rewrite Hin.
Qed.

(** ** Enough fuel for compiling *)

Lemma bind_has_fuel {A B : Type} (m : result A) (k : A -> result B) :
  m <> OutOfFuel -> (forall a, m = Return a -> k a <> OutOfFuel) ->
  bind m k <> OutOfFuel.
Proof.
  intros Hm Hk. destruct m as [a| |]; cbn [bind];
    [now apply Hk|discriminate|congruence].
Qed.

(** [rec] has fuel for every field no deeper than [n]. *)
Definition has_fuel_below (rec : compile_fn) (n : nat) : Prop :=
  forall field, depth field <= n ->
    forall role scope ordered ref_documents,
      rec field role scope ordered ref_documents <> OutOfFuel.

Lemma ArrayField_items_loop_has_fuel (rec : compile_fn) (n : nat) (role : Role)
    (scope : Scope) (ordered : bool) (ref_documents : option (list Document))
    (items : list (attr (Field Document))) :
  has_fuel_below rec n -> depth_of_list (depth_of_attr (@depth Document)) items <= n ->
  forall nested_definitions nested_schema,
    ArrayField_items_loop rec items role scope ordered ref_documents
      nested_definitions nested_schema <> OutOfFuel.
Proof.
  intros Hrec. induction items as [|item items IH]; intros Hn nd ns;
    [discriminate|].
  cbn [ArrayField_items_loop]. cbn [depth_of_list fold_right] in Hn.
  fold (depth_of_list (depth_of_attr (@depth Document)) items) in Hn.
  destruct (maybe_resolve_2 item role) as [[field|] r] eqn:Hitem; [|discriminate].
  pose proof (maybe_resolve_depth (@depth Document) item role field) as Hd.
  unfold maybe_resolve in Hd. rewrite Hitem in Hd. specialize (Hd eq_refl).
  apply bind_has_fuel; [apply Hrec; lia|].
  intros [d sch] _. apply IH. lia.
Qed.

Lemma process_properties_loop_has_fuel (rec : compile_fn) (n : nat) (role : Role)
    (scope : Scope) (ordered : bool) (ref_documents : option (list Document))
    (properties : pydict (attr (Field Document))) :
  has_fuel_below rec n -> depth_of_dict (@depth Document) properties <= n ->
  forall nested_definitions required schema,
    _process_properties_loop rec properties scope ordered ref_documents role
      nested_definitions required schema <> OutOfFuel.
Proof.
  intros Hrec. induction properties as [|[prop value] properties IH];
    intros Hn nd req sch; [discriminate|].
  cbn [_process_properties_loop]. unfold depth_of_dict in *.
  cbn [depth_of_list fold_right snd] in Hn.
  fold (depth_of_list (fun kv : string * attr (Field Document) =>
                         depth_of_attr (@depth Document) (snd kv)) properties) in Hn.
  destruct (maybe_resolve_2 value role) as [[field|] r] eqn:Hvalue.
  - pose proof (maybe_resolve_depth (@depth Document) value role field) as Hd.
    unfold maybe_resolve in Hd. rewrite Hvalue in Hd. specialize (Hd eq_refl).
    apply bind_has_fuel; [apply Hrec; lia|].
    intros [d s] _. apply IH. lia.
  - apply IH. lia.
Qed.

Lemma BaseOfField_loop_has_fuel (rec : compile_fn) (n : nat) (fields_role : Role)
    (scope : Scope) (ordered : bool) (ref_documents : option (list Document))
    (fields : list (attr (Field Document))) :
  has_fuel_below rec n -> depth_of_list (depth_of_attr (@depth Document)) fields <= n ->
  forall nested_definitions one_of,
    BaseOfField_loop rec fields fields_role scope ordered ref_documents
      nested_definitions one_of <> OutOfFuel.
Proof.
  intros Hrec. induction fields as [|field fields IH]; intros Hn nd one_of;
    [discriminate|].
  cbn [BaseOfField_loop]. cbn [depth_of_list fold_right] in Hn.
  fold (depth_of_list (depth_of_attr (@depth Document)) fields) in Hn.
  destruct (maybe_resolve_2 field fields_role) as [[f|] r] eqn:Hfield.
  - pose proof (maybe_resolve_depth (@depth Document) field fields_role f) as Hd.
    unfold maybe_resolve in Hd. rewrite Hfield in Hd. specialize (Hd eq_refl).
    apply bind_has_fuel; [apply Hrec; lia|].
    intros [d s] _. apply IH. lia.
  - apply IH. lia.
Qed.

Lemma validate_keys_has_fuel (keys : list string) : validate_keys keys <> OutOfFuel.
Proof.
  induction keys as [|key keys IH]; [discriminate|]. cbn [validate_keys].
  unfold _validate_regex. destruct (re_compile key); cbn [bind];
    [discriminate|assumption].
Qed.

(** Compiling a field never runs out of a fuel that is at least the depth
    of the field, as long as compiling a Document does not. *)
Lemma get_definitions_and_schema_has_fuel :
  (forall d role scope ordered ref_documents,
      Document_get_definitions_and_schema d role scope ordered ref_documents
      <> OutOfFuel) ->
  forall fuel, has_fuel_below (get_definitions_and_schema fuel) fuel.
Proof.
  intro Hdoc. unfold has_fuel_below.
  induction fuel as [|fuel IH]; intros self Hdepth role scope ordered ref_documents.
  - pose proof (depth_positive self). lia.
  - cbn [get_definitions_and_schema].
    destruct self as [s|s p f mn mx|s t a b c d e|s items mn mx u additional
                     |s properties patterns additional mn mx|s k fields|s f
                     |b c o r]; cbn [depth] in Hdepth.
    + unfold BooleanField_get_definitions_and_schema.
      destruct (alter scope (id s)); discriminate.
    + unfold StringField_get_definitions_and_schema.
      destruct (alter scope (id s)); discriminate.
    + unfold NumberField_get_definitions_and_schema.
      destruct (alter scope (id s)); discriminate.
    + unfold ArrayField_get_definitions_and_schema.
      destruct (alter scope (id s)) as [id' scope'].
      destruct (maybe_resolve_2 items role) as [its items_role] eqn:Hitems.
      destruct (maybe_resolve_2 additional role) as [add add_role] eqn:Hadd.
      assert (Hits : forall x, its = Some x ->
                               depth_of_items (@depth Document) x <= fuel).
      { intros x ->.
        pose proof (maybe_resolve_depth (depth_of_items (@depth Document)) items role x)
          as Hd.
        unfold maybe_resolve in Hd. rewrite Hitems in Hd. specialize (Hd eq_refl). lia. }
      assert (Hadds : forall x, add = Some x ->
                                depth_of_bool_or (@depth Document) x <= fuel).
      { intros x ->.
        pose proof (maybe_resolve_depth (depth_of_bool_or (@depth Document)) additional
                      role x) as Hd.
        unfold maybe_resolve in Hd. rewrite Hadd in Hd. specialize (Hd eq_refl). lia. }
      apply bind_has_fuel.
      * destruct its as [[f|l]|]; [| |discriminate].
        -- apply bind_has_fuel; [apply IH; apply (Hits _ eq_refl)|].
           intros [d sch] _. discriminate.
        -- apply bind_has_fuel.
           ++ apply bind_has_fuel.
              ** destruct items as [[[f|l']|]|v]; discriminate.
              ** intros l' Hl'. apply bind_has_fuel; [|intros [d sch] _; discriminate].
                 apply (ArrayField_items_loop_has_fuel _ fuel); [exact IH|].
                 destruct items as [[[f|l'']|]|v]; try discriminate.
                 cbn in Hl', Hitems. inversion Hl'; inversion Hitems; subst.
                 apply (Hits _ eq_refl).
           ++ intros [d sch] _. discriminate.
      * intros [nd sch] _. apply bind_has_fuel; [|intros [d sch'] _; discriminate].
        destruct add as [[bb|f]|]; try discriminate.
        apply bind_has_fuel; [apply IH; apply (Hadds _ eq_refl)|].
        intros [d sch'] _. discriminate.
    + unfold DictField_get_definitions_and_schema.
      destruct (alter scope (id s)) as [id' scope'].
      destruct (maybe_resolve_2 properties role) as [props props_role] eqn:Hprops.
      destruct (maybe_resolve_2 patterns role) as [pats pats_role] eqn:Hpats.
      destruct (maybe_resolve_2 additional role) as [add add_role] eqn:Hadd.
      assert (Hp : forall x, props = Some x -> depth_of_dict (@depth Document) x <= fuel).
      { intros x ->.
        pose proof (maybe_resolve_depth (depth_of_dict (@depth Document)) properties
                      role x) as Hd.
        unfold maybe_resolve in Hd. rewrite Hprops in Hd. specialize (Hd eq_refl). lia. }
      assert (Hpp : forall x, pats = Some x -> depth_of_dict (@depth Document) x <= fuel).
      { intros x ->.
        pose proof (maybe_resolve_depth (depth_of_dict (@depth Document)) patterns
                      role x) as Hd.
        unfold maybe_resolve in Hd. rewrite Hpats in Hd. specialize (Hd eq_refl). lia. }
      assert (Hadds : forall x, add = Some x ->
                                depth_of_bool_or (@depth Document) x <= fuel).
      { intros x ->.
        pose proof (maybe_resolve_depth (depth_of_bool_or (@depth Document)) additional
                      role x) as Hd.
        unfold maybe_resolve in Hd. rewrite Hadd in Hd. specialize (Hd eq_refl). lia. }
      apply bind_has_fuel.
      * destruct props as [props|]; [|discriminate].
        apply bind_has_fuel; [|intros [[d r] sch] _; discriminate].
        apply (process_properties_loop_has_fuel _ fuel); [exact IH|].
        apply (Hp _ eq_refl).
      * intros [nd sch] _. apply bind_has_fuel.
        -- destruct pats as [pats|]; [|discriminate].
           apply bind_has_fuel; [apply validate_keys_has_fuel|]. intros _ _.
           apply bind_has_fuel; [|intros [[d r] sch'] _; discriminate].
           apply (process_properties_loop_has_fuel _ fuel); [exact IH|].
           apply (Hpp _ eq_refl).
        -- intros [nd' sch'] _. apply bind_has_fuel; [|intros [d sch''] _; discriminate].
           destruct add as [[bb|f]|]; try discriminate.
           apply bind_has_fuel; [apply IH; apply (Hadds _ eq_refl)|].
           intros [d sch''] _. discriminate.
    + unfold BaseOfField_get_definitions_and_schema.
      destruct (alter scope (id s)) as [id' scope'].
      destruct (maybe_resolve_2 fields role) as [fs fields_role] eqn:Hfields.
      apply bind_has_fuel; [|intros [d one_of] _; discriminate].
      destruct fs as [fs|]; [|discriminate].
      apply (BaseOfField_loop_has_fuel _ fuel); [exact IH|].
      pose proof (maybe_resolve_depth (depth_of_list (depth_of_attr (@depth Document)))
                    fields role fs) as Hd.
      unfold maybe_resolve in Hd. rewrite Hfields in Hd. specialize (Hd eq_refl). lia.
    + unfold NotField_get_definitions_and_schema.
      destruct (alter scope (id s)) as [id' scope'].
      destruct (maybe_resolve_2 f role) as [field field_role] eqn:Hfield.
      apply bind_has_fuel; [|intros [d sch] _; discriminate].
      destruct field as [field|]; [|discriminate].
      apply IH.
      pose proof (maybe_resolve_depth (@depth Document) f role field) as Hd.
      unfold maybe_resolve in Hd. rewrite Hfield in Hd. specialize (Hd eq_refl). lia.
    + unfold DocumentField_get_definitions_and_schema.
      apply bind_has_fuel; [apply get_document_cls_has_fuel|].
      intros [target|] _; [|discriminate].
      destruct (in_ref_documents target ref_documents); [discriminate|].
      apply bind_has_fuel; [apply Hdoc|].
      intros [d sch] _. destruct r; discriminate.
Qed.

End Facts.

(** * The properties at work on the sample program *)

Lemma resolve_first_match_wins_witness :
  resolve Sample.test_var "role_1" = Some 3 /\
  resolve Sample.test_var "role_2" = Some 3 /\
  resolve Sample.test_var "default" = Some 3 /\
  resolve Sample.test_var "role_3" = None.
Proof.
  pose proof (fun queried =>
                proj2 (proj2 (proj2 (proj2 (proj2
                  (resolve_first_match_wins nat Sample.test_var queried)))))
                  (Some 3) _ eq_refl) as H.
  split; [|split; [|split]].
  - apply (proj1 (H "role_1")). discriminate.
  - apply (proj1 (H "role_2")). discriminate.
  - apply (proj1 (H "default")). discriminate.
  - apply (proj2 (H "role_3")); [reflexivity|].
    intros m y [Heq|[Heq|[]]]; inversion Heq; reflexivity.
Defined.


Lemma ArrayField_absent_item_raises_witness :
  get_definitions_and_schema (E := Sample.program) 1 Sample.array_of_var DEFAULT_ROLE
    [] false None
  = Raise (NoneType_has_no "get_definitions_and_schema").
Proof.
  apply (ArrayField_absent_item_raises (E := Sample.program) 0 (Sample.no_attrs 5)
           [Sample.only "role_1" Sample.s_f]).
  - exists (Sample.only "role_1" Sample.s_f). split; [now left|reflexivity].
  - intros item field [<-|[]] Hfield. discriminate.
Defined.

Lemma DocumentField_compiles_to_reference_witness :
  get_definitions_and_schema (E := Sample.program) 1 Sample.to_A DEFAULT_ROLE []
    false (Some [Sample.A])
  = Return ([], JDict [("$ref", JStr "#/definitions/A")]).
Proof.
  apply (proj1 (DocumentField_compiles_to_reference (E := Sample.program) 0
                  (mkBase 10 (Plain (Some false))) (Plain (Some (DocClass Sample.A)))
                  None false DEFAULT_ROLE [] false (Some [Sample.A]) Sample.A eq_refl)
           [Sample.A] eq_refl).
  now left.
Defined.

Lemma BaseOfField_common_fields_under_default_role_witness :
  exists object,
    JDict [("oneOf", JList [])] = JDict object /\
    dict_get "title" object = None /\
    dict_get "description" object = None /\
    dict_get "enum" object = None /\
    dict_get "default" object = None.
Proof.
  apply (BaseOfField_common_fields_under_default_role (E := Sample.program) 1
           (Sample.titled 6) "oneOf" (Plain (Some [])) "role_1" [] false None []
           (JDict [("oneOf", JList [])])).
  - now left.
  - reflexivity.
Defined.

Lemma walk_through_document_fields_ends_witness :
  (exists bound outcome,
      outcome <> OutOfFuel /\
      forall fuel, bound <= fuel ->
        walk (E := Sample.program) fuel Sample.to_A DEFAULT_ROLE true [] = outcome) /\
  walk (E := Sample.program) 1 Sample.to_A DEFAULT_ROLE true [Sample.A]
  = Return [Sample.to_A].
Proof.
  assert (Hall : forall d : Sample.Doc, In d Sample.all_docs).
  { intros []; simpl; auto. }
  split.
  - apply (proj1 (walk_through_document_fields_ends (E := Sample.program)
                    Sample.all_docs Hall Sample.to_A DEFAULT_ROLE [])).
  - apply (proj2 (walk_through_document_fields_ends (E := Sample.program)
                    Sample.all_docs Hall Sample.to_A DEFAULT_ROLE [Sample.A])
             0 (mkBase 10 (Plain (Some false))) (Plain (Some (DocClass Sample.A)))
             None false Sample.A eq_refl eq_refl).
    now left.
Defined.

(** What walking the sample program yields: [A] and [B] refer to each
    other, and each Document is entered once. *)
Example walk_sample_program :
  walk (E := Sample.program) 3 Sample.to_A DEFAULT_ROLE true []
  = Return (Sample.to_A :: flat_map (fun value =>
                                       match value with
                                       | Plain (Some field) => [field]
                                       | _ => []
                                       end)
                             (Sample.doc_fields Sample.A ++ Sample.doc_fields Sample.B)).
Proof. reflexivity. Qed.

(** Contrary to C8 as stated: a [DictField] whose [pattern_properties] have
    the key ["("], which [re] rejects, is constructed; the error comes when
    it is compiled. *)
Lemma DictField_invalid_pattern_key_constructs :
  re_compile (Externals := Sample.program) "(" = Some "unbalanced parenthesis" /\
  DictField_init (E := Sample.program) (Sample.no_attrs 8) (Plain None)
    (Plain (Some Sample.bad_pattern)) (Plain None) (Plain None) (Plain None)
  = Return (DictField (Sample.no_attrs 8) (Plain None)
              (Plain (Some Sample.bad_pattern)) (Plain None) (Plain None)
              (Plain None)) /\
  get_definitions_and_schema (E := Sample.program) 2
    (DictField (Sample.no_attrs 8) (Plain None) (Plain (Some Sample.bad_pattern))
       (Plain None) (Plain None) (Plain None)) DEFAULT_ROLE [] false None
  = Raise (ValueError "Invalid regular expression: unbalanced parenthesis").
Proof. split; [|split]; reflexivity. Qed.

Lemma DictField_pattern_keys_validated_when_compiled_witness :
  exists before key after e,
    dict_keys Sample.mixed_patterns = before ++ key :: after /\
    (forall valid,
        In valid before -> re_compile (Externals := Sample.program) valid = None) /\
    re_compile (Externals := Sample.program) key = Some e /\
    get_definitions_and_schema (E := Sample.program) 2
      (DictField (Sample.no_attrs 8) (Plain None) (Plain (Some Sample.mixed_patterns))
         (Plain None) (Plain None) (Plain None)) DEFAULT_ROLE [] false None
    = Raise (ValueError ("Invalid regular expression: " ++ e)%string).
Proof.
  apply (proj1 (proj2 (DictField_pattern_keys_validated_when_compiled
                         (E := Sample.program) 1 (Sample.no_attrs 8) (Plain None)
                         (Plain (Some Sample.mixed_patterns)) (Plain None)
                         (Plain None) (Plain None) DEFAULT_ROLE [] false None)
                 Sample.mixed_patterns eq_refl I)).
  exists "(". split; [right; now left|discriminate].
Defined.

(** Contrary to C9 as stated: a [DocumentField] for the self-reference
    constant is constructed without an owner; the error comes from
    [get_document_cls]. *)
Lemma DocumentField_self_reference_constructs_without_owner :
  DocumentField_init (E := Sample.program) 9 Sample.to_self false (Plain (Some false))
  = Return (DocumentField (mkBase 9 (Plain (Some false))) Sample.to_self None false) /\
  get_document_cls (E := Sample.program) Sample.to_self None DEFAULT_ROLE
  = Raise (ValueError "owner_cls is not set").
Proof. split; reflexivity. Qed.

Lemma DocumentField_owner_checked_by_get_document_cls_witness :
  get_document_cls (E := Sample.program) Sample.to_self None DEFAULT_ROLE
  = Raise (ValueError "owner_cls is not set") /\
  set_owner (E := Sample.program)
    (DocumentField (mkBase 9 (Plain (Some false))) Sample.to_self None false) Sample.B
  = DocumentField (mkBase 9 (Plain (Some false))) Sample.to_self (Some Sample.B) false /\
  get_document_cls (E := Sample.program) Sample.to_self (Some Sample.B) DEFAULT_ROLE
  = Return (Some Sample.B) /\
  iter_fields (E := Sample.program)
    (DocumentField (mkBase 9 (Plain (Some false))) Sample.to_self None false)
    DEFAULT_ROLE
  = Raise (ValueError "owner_cls is not set") /\
  (forall fuel visited_documents,
      walk (E := Sample.program) (S fuel)
        (DocumentField (mkBase 9 (Plain (Some false))) Sample.to_self None false)
        DEFAULT_ROLE true visited_documents
      = Raise (ValueError "owner_cls is not set")) /\
  (forall fuel scope ordered ref_documents,
      get_definitions_and_schema (E := Sample.program) (S fuel)
        (DocumentField (mkBase 9 (Plain (Some false))) Sample.to_self None false)
        DEFAULT_ROLE scope ordered ref_documents
      = Raise (ValueError "owner_cls is not set")).
Proof.
  apply (proj2 (DocumentField_owner_checked_by_get_document_cls (E := Sample.program)
                  9 Sample.to_self false (Plain (Some false)))
           DEFAULT_ROLE Sample.B eq_refl).
Defined.

(** * Further properties of [fields.py] *)

Section Extras.

Context {E : Externals}.

Ltac lookup_keys :=
  repeat first
    [ rewrite dict_get_set_if_some_other by reflexivity
    | rewrite dict_get_set_other by reflexivity
    | rewrite dict_get_set_same
    | rewrite common_fields_other_key by reflexivity ].

(** ** Common attributes and leaf fields *)

(** What a schema carries under [id], [title], [description], [enum] and
    [default] when they were written for [self] under [role], with [id]
    the one the scope returned. *)
Definition common_written (self : SchemaAttrs) (role : Role) (id : string)
    (object : pydict json) : Prop :=
  dict_get "id" object = (if truthy_string id then Some (JStr id) else None) /\
  dict_get "title" object = option_map JStr (maybe_resolve (title self) role) /\
  dict_get "description" object =
    option_map JStr (maybe_resolve (description self) role) /\
  dict_get "enum" object =
    match get_enum self role with
    | Some ((_ :: _) as enum) => Some (JList enum)
    | _ => None
    end /\
  dict_get "default" object =
    match get_default self role with
    | Some JNull | None => None
    | Some default => Some default
    end.

Definition common_keys : list string :=
  ["id"; "title"; "description"; "enum"; "default"].

Lemma common_fields_id (self : SchemaAttrs) (schema : pydict json) (id : string)
    (role : Role) :
  dict_get "id" (_update_schema_with_common_fields self schema id role)
  = if truthy_string id then Some (JStr id) else dict_get "id" schema.
Proof.
  unfold _update_schema_with_common_fields.
  destruct (maybe_resolve (title self) role) as [t|];
    destruct (maybe_resolve (description self) role) as [d|];
    destruct (get_enum self role) as [[|e es]|];
    destruct (get_default self role) as [[]|]; cbn [option_map set_if_some];
    repeat rewrite dict_get_set_other by reflexivity;
    destruct (truthy_string id); try reflexivity; apply dict_get_set_same.
Qed.

Lemma common_fields_fresh (self : SchemaAttrs) (schema : pydict json) (id : string)
    (role : Role) :
  (forall k, In k common_keys -> dict_get k schema = None) ->
  common_written self role id (_update_schema_with_common_fields self schema id role).
Proof.
  intro Hfresh. unfold common_written.
  destruct (common_fields_written self schema id role) as (Ht & Hd & He & Hdef).
  rewrite common_fields_id, Ht, Hd, He, Hdef.
  rewrite !Hfresh by (simpl; tauto).
  destruct (maybe_resolve (title self) role);
    destruct (maybe_resolve (description self) role);
    destruct (get_enum self role) as [[|]|];
    destruct (get_default self role) as [[]|];
    repeat split; reflexivity.
Qed.

(** Writing under other keys afterwards keeps the common attributes. *)
Lemma common_written_kept (self : SchemaAttrs) (role : Role) (id : string)
    (object object' : pydict json) :
  (forall k, In k common_keys -> dict_get k object' = dict_get k object) ->
  common_written self role id object -> common_written self role id object'.
Proof.
  intros Hsame (Hi & Ht & Hd & He & Hdef). unfold common_written.
  rewrite !Hsame by (simpl; tauto). repeat split; assumption.
Qed.

Lemma base_schema_other_key (self : SchemaAttrs) (type_key type_value : string)
    (value : json) (id : string) (role : Role) (k : string) :
  existsb (String.eqb k) common_keys = false -> String.eqb k type_key = false ->
  dict_get k (_update_schema_with_common_fields self [(type_key, value)] id role) = None.
Proof.
  intros Hcommon Htype. rewrite common_fields_other_key by exact Hcommon.
  cbn [dict_get]. now rewrite Htype.
Qed.

(** X1. A [StringField] always compiles, to no definitions and a schema of
    type [string] in which [pattern] is written only when it resolves to a
    string that is not empty, and [minLength], [maxLength] and [format]
    exactly when they resolve to a value under the role. *)
Theorem StringField_schema_keys :
  forall (fuel : nat) (s : SchemaAttrs) (pattern format : attr string)
         (min_length max_length : attr Z) (role : Role) (scope : Scope)
         (ordered : bool) (ref_documents : option (list Document)),
  exists object,
    get_definitions_and_schema (S fuel)
      (StringField s pattern format min_length max_length) role scope ordered
      ref_documents = Return ([], JDict object) /\
    dict_get "type" object = Some (JStr "string") /\
    dict_get "pattern" object =
      match maybe_resolve pattern role with
      | Some p => if truthy_string p then Some (JStr p) else None
      | None => None
      end /\
    dict_get "minLength" object = option_map JNum (maybe_resolve min_length role) /\
    dict_get "maxLength" object = option_map JNum (maybe_resolve max_length role) /\
    dict_get "format" object = option_map JStr (maybe_resolve format role).
Proof.
  intros. cbn [get_definitions_and_schema].
  unfold StringField_get_definitions_and_schema.
  destruct (alter scope (id s)) as [id' scope'].
  eexists. split; [reflexivity|].
  unfold truthy_opt_string.
  destruct (maybe_resolve pattern role) as [p|]; [destruct (truthy_string p)|];
    destruct (maybe_resolve min_length role);
    destruct (maybe_resolve max_length role);
    destruct (maybe_resolve format role);
    cbn [option_map set_if_some]; repeat split; lookup_keys;
    try reflexivity;
    apply base_schema_other_key; reflexivity.
Qed.

(** X2. A [NumberField] (or [IntField]) always compiles, to no definitions
    and a schema whose [type] is the class's number type, in which
    [multipleOf], [minimum] and [maximum] are written exactly when they
    resolve to a value under the role, zero included. *)
Theorem NumberField_schema_keys :
  forall (fuel : nat) (s : SchemaAttrs) (number_type : string)
         (multiple_of minimum : attr Z) (exclusive_minimum : attr bool)
         (maximum : attr Z) (exclusive_maximum : attr bool)
         (role : Role) (scope : Scope) (ordered : bool)
         (ref_documents : option (list Document)),
  exists object,
    get_definitions_and_schema (S fuel)
      (NumberField s number_type multiple_of minimum exclusive_minimum maximum
         exclusive_maximum) role scope ordered ref_documents
    = Return ([], JDict object) /\
    dict_get "type" object = Some (JStr number_type) /\
    dict_get "multipleOf" object = option_map JNum (maybe_resolve multiple_of role) /\
    dict_get "minimum" object = option_map JNum (maybe_resolve minimum role) /\
    dict_get "maximum" object = option_map JNum (maybe_resolve maximum role).
Proof.
  intros. cbn [get_definitions_and_schema].
  unfold NumberField_get_definitions_and_schema.
  destruct (alter scope (id s)) as [id' scope'].
  eexists. split; [reflexivity|].
  destruct (maybe_resolve multiple_of role);
    destruct (maybe_resolve minimum role);
    destruct (maybe_resolve maximum role);
    destruct (maybe_resolve exclusive_minimum role) as [[|]|];
    destruct (maybe_resolve exclusive_maximum role) as [[|]|];
    cbn [option_map set_if_some truthy]; repeat split; lookup_keys;
    try reflexivity;
    apply base_schema_other_key; reflexivity.
Qed.

(** The outcomes of the stages of [DictField.get_definitions_and_schema],
    for a call that returned. *)
Ltac dict_field_stages H rec :=
  unfold DictField_get_definitions_and_schema in H;
  let id' := fresh "id'" in
  let scope' := fresh "scope'" in
  destruct (alter _ _) as [id' scope'];
  let props := fresh "props" in
  let props_role := fresh "props_role" in
  let Hprops := fresh "Hprops" in
  destruct (maybe_resolve_2 _ _) as [props props_role] eqn:Hprops in H;
  let pats := fresh "pats" in
  let pats_role := fresh "pats_role" in
  let Hpats := fresh "Hpats" in
  destruct (maybe_resolve_2 _ _) as [pats pats_role] eqn:Hpats in H;
  let add := fresh "add" in
  let add_role := fresh "add_role" in
  let Hadd := fresh "Hadd" in
  destruct (maybe_resolve_2 _ _) as [add add_role] eqn:Hadd in H;
  destruct props as [props|];
  [ let Hp := fresh "Hprocess" in
    destruct (_process_properties rec props _ _ _ _) as [[[? ?] ?]| |] eqn:Hp in H;
    cbn [bind] in H; try discriminate H
  | cbn [bind] in H ];
  (destruct pats as [pats|];
   [ let Hv := fresh "Hvalid" in
     destruct (validate_keys _) eqn:Hv in H; cbn [bind] in H; try discriminate H;
     let Hpp := fresh "Hpatterns" in
     destruct (_process_properties rec pats _ _ _ _) as [[[? ?] ?]| |] eqn:Hpp in H;
     cbn [bind] in H; try discriminate H
   | cbn [bind] in H ]);
  (destruct add as [[?|?f]|];
   [ cbn [bind] in H
   | let Ha := fresh "Hadditional" in
     destruct (rec f _ _ _ _) as [[? ?]| |] eqn:Ha in H;
     cbn [bind] in H; try discriminate H
   | cbn [bind] in H ]);
  inversion H; subst; clear H.

(** X3. Every schema field other than the [BaseOfField]s and
    [ArrayField] writes its common attributes as they resolve under the
    role it is compiled under: [title] and [description] when present,
    [enum] when not empty, [default] when not [None] (a callable is
    called), and [id] when the scope returns one that is not empty.  The
    leaf fields always compile; for [NotField] and [DictField] this holds
    of whatever they return. *)
Theorem common_attributes_under_the_queried_role :
  forall (fuel : nat) (s : SchemaAttrs) (role : Role) (scope : Scope)
         (ordered : bool) (ref_documents : option (list Document)),
    let id' := fst (alter scope (id s)) in
    (exists object,
        get_definitions_and_schema (S fuel) (BooleanField s) role scope ordered
          ref_documents = Return ([], JDict object) /\
        dict_get "type" object = Some (JStr "boolean") /\
        common_written s role id' object) /\
    (forall pattern format min_length max_length,
        exists object,
          get_definitions_and_schema (S fuel)
            (StringField s pattern format min_length max_length) role scope ordered
            ref_documents = Return ([], JDict object) /\
          common_written s role id' object) /\
    (forall number_type multiple_of minimum exclusive_minimum maximum
            exclusive_maximum,
        exists object,
          get_definitions_and_schema (S fuel)
            (NumberField s number_type multiple_of minimum exclusive_minimum
               maximum exclusive_maximum) role scope ordered ref_documents
          = Return ([], JDict object) /\
          common_written s role id' object) /\
    (forall field definitions schema,
        get_definitions_and_schema (S fuel) (NotField s field) role scope ordered
          ref_documents = Return (definitions, schema) ->
        exists object, schema = JDict object /\ common_written s role id' object) /\
    (forall properties pattern_properties additional_properties min_properties
            max_properties definitions schema,
        get_definitions_and_schema (S fuel)
          (DictField s properties pattern_properties additional_properties
             min_properties max_properties) role scope ordered ref_documents
        = Return (definitions, schema) ->
        exists object, schema = JDict object /\ common_written s role id' object).
Proof.
  intros fuel s role scope ordered ref_documents id'.
  assert (Hbase : forall type_key value,
             ~ In type_key common_keys ->
             common_written s role id'
               (_update_schema_with_common_fields s [(type_key, value)] id' role)).
  { intros type_key value Hnot. apply common_fields_fresh.
    intros k Hk. cbn [dict_get].
    destruct (String.eqb k type_key) eqn:Heq; [|reflexivity].
    apply String.eqb_eq in Heq. subst k. contradiction. }
  assert (Htype : ~ In "type" common_keys).
  { simpl. intuition discriminate. }
  assert (Hnot : ~ In "not" common_keys).
  { simpl. intuition discriminate. }
  unfold id' in *. clear id'. cbn [get_definitions_and_schema].
  split; [|split; [|split; [|split]]].
  - unfold BooleanField_get_definitions_and_schema.
    destruct (alter scope (id s)) as [i scope']. cbn [fst] in *.
    eexists. split; [reflexivity|]. split; [|now apply Hbase].
    rewrite common_fields_other_key by reflexivity. reflexivity.
  - intros pattern format min_length max_length.
    unfold StringField_get_definitions_and_schema.
    destruct (alter scope (id s)) as [i scope']. cbn [fst] in *.
    eexists. split; [reflexivity|].
    eapply common_written_kept; [|apply (Hbase "type" (JStr "string") Htype)].
    intros k Hk. unfold truthy_opt_string.
    destruct (maybe_resolve pattern role) as [p|]; [destruct (truthy_string p)|];
      destruct (maybe_resolve min_length role);
      destruct (maybe_resolve max_length role);
      destruct (maybe_resolve format role);
      cbn [option_map set_if_some];
      destruct Hk as [<-|[<-|[<-|[<-|[<-|[]]]]]];
      repeat rewrite dict_get_set_other by reflexivity; reflexivity.
  - intros number_type multiple_of minimum exclusive_minimum maximum exclusive_maximum.
    unfold NumberField_get_definitions_and_schema.
    destruct (alter scope (id s)) as [i scope']. cbn [fst] in *.
    eexists. split; [reflexivity|].
    eapply common_written_kept; [|apply (Hbase "type" (JStr number_type) Htype)].
    intros k Hk.
    destruct (maybe_resolve multiple_of role);
      destruct (maybe_resolve minimum role);
      destruct (maybe_resolve maximum role);
      destruct (maybe_resolve exclusive_minimum role) as [[|]|];
      destruct (maybe_resolve exclusive_maximum role) as [[|]|];
      cbn [option_map set_if_some truthy];
      destruct Hk as [<-|[<-|[<-|[<-|[<-|[]]]]]];
      repeat rewrite dict_get_set_other by reflexivity; reflexivity.
  - intros field definitions schema Hcompile.
    unfold NotField_get_definitions_and_schema in Hcompile.
    destruct (alter scope (id s)) as [i scope']. cbn [fst] in *.
    destruct (maybe_resolve_2 field role) as [f field_role].
    match type of Hcompile with
    | bind ?m _ = _ => destruct m as [[fd fs]| |]
    end; cbn [bind] in Hcompile; try discriminate.
    inversion Hcompile; subst. eexists. split; [reflexivity|].
    now apply Hbase.
  - intros properties pattern_properties additional_properties min_properties
      max_properties definitions schema Hcompile.
    dict_field_stages Hcompile (get_definitions_and_schema fuel);
      cbn [fst] in *;
      (eexists; split; [reflexivity|];
       eapply common_written_kept; [|apply (Hbase "type" (JStr "object") Htype)];
       intros k Hk;
       destruct (maybe_resolve min_properties role);
       destruct (maybe_resolve max_properties role);
       cbn [option_map set_if_some];
       try match goal with
           | |- context [match ?l with [] => _ | _ :: _ => _ end] => destruct l
           end;
       destruct Hk as [<-|[<-|[<-|[<-|[<-|[]]]]]];
       repeat rewrite dict_get_set_other by reflexivity; reflexivity).
Qed.

(** ** Composite fields *)

(** X4. A [NotField] compiles its field under the field's role and puts
    the schema under [not], with the field's definitions as its own; an
    exception of the field is the exception of the [NotField]; when the
    field is absent under the role the [NotField] compiles to [{}] under
    [not] and no definitions. *)
Theorem NotField_wraps_its_field :
  forall (fuel : nat) (s : SchemaAttrs) (field : attr (Field Document))
         (role : Role) (scope : Scope) (ordered : bool)
         (ref_documents : option (list Document)),
    let scope' := snd (alter scope (id s)) in
    let compiled :=
      get_definitions_and_schema (S fuel) (NotField s field) role scope ordered
        ref_documents in
    (maybe_resolve field role = None ->
     exists object,
       compiled = Return ([], JDict object) /\
       dict_get "not" object = Some (JDict [])) /\
    (forall nested nested_role,
        maybe_resolve_2 field role = (Some nested, nested_role) ->
        match get_definitions_and_schema fuel nested nested_role scope' ordered
                ref_documents with
        | Return (definitions, schema) =>
            exists object,
              compiled = Return (definitions, JDict object) /\
              dict_get "not" object = Some schema
        | Raise e => compiled = Raise e
        | OutOfFuel => compiled = OutOfFuel
        end).
Proof.
  intros fuel s field role scope ordered ref_documents scope' compiled.
  unfold compiled, scope'. cbn [get_definitions_and_schema].
  unfold NotField_get_definitions_and_schema, maybe_resolve.
  destruct (alter scope (id s)) as [i sc]. cbn [snd].
  split.
  - intro Hnone. destruct (maybe_resolve_2 field role) as [f r].
    cbn [fst] in Hnone. subst f. cbn [bind].
    eexists. split; [reflexivity|].
    rewrite common_fields_other_key by reflexivity. reflexivity.
  - intros nested nested_role Hfield. rewrite Hfield.
    destruct (get_definitions_and_schema fuel nested nested_role sc ordered
                ref_documents) as [[definitions schema]|e|]; cbn [bind];
      try reflexivity.
    eexists. split; [reflexivity|].
    rewrite common_fields_other_key by reflexivity. reflexivity.
Qed.

(** X5. An [ArrayField] whose [items] are absent under the role writes
    neither [items] nor any common attribute ([id], [title],
    [description], [enum], [default]): these are written only together
    with [items].  The type and the other keywords are written as usual. *)
Theorem ArrayField_without_items :
  forall (fuel : nat) (s : SchemaAttrs) (items : attr (ItemsOf (Field Document)))
         (min_items max_items : attr Z) (unique_items : attr bool)
         (additional_items : attr (BoolOr (Field Document)))
         (role : Role) (scope : Scope) (ordered : bool)
         (ref_documents : option (list Document))
         (definitions : pydict json) (schema : json),
    maybe_resolve items role = None ->
    get_definitions_and_schema (S fuel)
      (ArrayField s items min_items max_items unique_items additional_items)
      role scope ordered ref_documents = Return (definitions, schema) ->
    exists object,
      schema = JDict object /\
      dict_get "type" object = Some (JStr "array") /\
      (forall k, In k ("items" :: common_keys) -> dict_get k object = None) /\
      dict_get "minItems" object = option_map JNum (maybe_resolve min_items role) /\
      dict_get "maxItems" object = option_map JNum (maybe_resolve max_items role) /\
      dict_get "uniqueItems" object =
        (if truthy (maybe_resolve unique_items role) then Some (JBool true) else None).
Proof.
  intros fuel s items min_items max_items unique_items additional_items role scope
    ordered ref_documents definitions schema Hitems Hcompile.
  cbn [get_definitions_and_schema] in Hcompile.
  unfold ArrayField_get_definitions_and_schema, maybe_resolve in *.
  destruct (alter scope (id s)) as [i sc].
  destruct (maybe_resolve_2 items role) as [its items_role].
  cbn [fst] in Hitems. subst its. cbn [bind] in Hcompile.
  destruct (maybe_resolve_2 additional_items role) as [[[b|f]|] add_role];
    [| destruct (get_definitions_and_schema fuel f add_role sc ordered ref_documents)
         as [[ad asch]| |] |];
    cbn [bind] in Hcompile; try discriminate;
    inversion Hcompile; subst; clear Hcompile;
    (eexists; split; [reflexivity|];
     destruct (fst (maybe_resolve_2 min_items role));
     destruct (fst (maybe_resolve_2 max_items role));
     destruct (fst (maybe_resolve_2 unique_items role)) as [[|]|];
     cbn [option_map set_if_some truthy];
     (split; [|split; [intros k Hk; destruct Hk as [<-|[<-|[<-|[<-|[<-|[<-|[]]]]]]]|]]);
     repeat split;
     repeat first [ rewrite dict_get_set_other by reflexivity
                  | rewrite dict_get_set_same ];
     reflexivity).
Qed.

(** The fields of a list that are present under [role], each with the
    role to compile it under. *)
Definition present_fields (fields : list (attr (Field Document))) (role : Role)
  : list (Field Document * Role) :=
  flat_map (fun field =>
              match maybe_resolve_2 field role with
              | (Some field, field_role) => [(field, field_role)]
              | (None, _) => []
              end) fields.

(** [results] are what [rec] returns for the fields of [present], one by
    one. *)
Definition compiled_to (rec : compile_fn) (scope : Scope) (ordered : bool)
    (ref_documents : option (list Document))
    (present : list (Field Document * Role)) (results : list (pydict json * json))
  : Prop :=
  Forall2 (fun entry result =>
             rec (fst entry) (snd entry) scope ordered ref_documents = Return result)
          present results.

(** The definitions of the children, merged in order into [definitions]. *)
Definition merged (definitions : pydict json) (results : list (pydict json * json))
  : pydict json :=
  fold_left (fun acc result => dict_update acc (fst result)) results definitions.

Lemma BaseOfField_loop_returns (rec : compile_fn) (fields_role : Role) (scope : Scope)
    (ordered : bool) (ref_documents : option (list Document))
    (fields : list (attr (Field Document))) :
  forall nested_definitions one_of definitions schemas,
    BaseOfField_loop rec fields fields_role scope ordered ref_documents
      nested_definitions one_of = Return (definitions, schemas) <->
    exists results,
      compiled_to rec scope ordered ref_documents
        (present_fields fields fields_role) results /\
      definitions = merged nested_definitions results /\
      schemas = one_of ++ map snd results.
Proof.
  unfold compiled_to, present_fields.
  induction fields as [|field fields IH]; intros nd one_of definitions schemas.
  - cbn. split.
    + intro H. inversion H; subst. exists []. repeat split.
      * constructor.
      * now rewrite app_nil_r.
    + intros (results & Hall & -> & ->). inversion Hall; subst.
      cbn. now rewrite app_nil_r.
  - cbn [BaseOfField_loop flat_map].
    destruct (maybe_resolve_2 field fields_role) as [[f|] r].
    + cbn [app]. split.
      * destruct (rec f r scope ordered ref_documents) as [[d sch]| |] eqn:Hrec;
          cbn [bind]; try discriminate.
        intro H. apply IH in H. destruct H as (results & Hall & -> & ->).
        exists ((d, sch) :: results). repeat split.
        -- constructor; assumption.
        -- cbn. now rewrite <- app_assoc.
      * intros (results & Hall & -> & ->).
        inversion Hall as [|? [d sch] ? results' Hrec Hall']; subst.
        cbn [fst snd] in Hrec. rewrite Hrec. cbn [bind]. apply IH.
        exists results'. repeat split; [assumption|].
        cbn. now rewrite <- app_assoc.
    + cbn [app]. apply IH.
Qed.

(** X6. A [BaseOfField] ([OneOfField], [AnyOfField], [AllOfField]) returns
    exactly when every field that is present under the role of its list
    compiles; the list under its keyword then holds the schemas of those
    fields, in the order they were declared and without the absent ones,
    and its definitions are theirs merged in that order. *)
Theorem BaseOfField_lists_present_fields :
  forall (fuel : nat) (s : SchemaAttrs) (keyword : string)
         (fields : attr (list (attr (Field Document))))
         (role : Role) (scope : Scope) (ordered : bool)
         (ref_documents : option (list Document))
         (declared : list (attr (Field Document))) (fields_role : Role),
    In keyword ["oneOf"; "anyOf"; "allOf"] ->
    maybe_resolve_2 fields role = (Some declared, fields_role) ->
    forall definitions schema,
      get_definitions_and_schema (S fuel) (BaseOfField s keyword fields) role scope
        ordered ref_documents = Return (definitions, schema) <->
      exists results object,
        compiled_to (get_definitions_and_schema fuel) (snd (alter scope (id s)))
          ordered ref_documents (present_fields declared fields_role) results /\
        definitions = merged [] results /\
        schema = JDict object /\
        object = _update_schema_with_common_fields s
                   [(keyword, JList (map snd results))]
                   (fst (alter scope (id s))) DEFAULT_ROLE /\
        dict_get keyword object = Some (JList (map snd results)).
Proof.
  intros fuel s keyword fields role scope ordered ref_documents declared
    fields_role Hkeyword Hfields definitions schema.
  cbn [get_definitions_and_schema].
  unfold BaseOfField_get_definitions_and_schema.
  destruct (alter scope (id s)) as [i sc]. cbn [fst snd].
  rewrite Hfields.
  assert (Hkey : forall one_of,
             dict_get keyword
               (_update_schema_with_common_fields s [(keyword, JList one_of)] i
                  DEFAULT_ROLE) = Some (JList one_of)).
  { intro one_of. rewrite common_fields_other_key.
    - cbn [dict_get]. now rewrite String.eqb_refl.
    - destruct Hkeyword as [<-|[<-|[<-|[]]]]; reflexivity. }
  split.
  - destruct (BaseOfField_loop (get_definitions_and_schema fuel) declared fields_role
                sc ordered ref_documents [] []) as [[nd one_of]| |] eqn:Hloop;
      cbn [bind]; try discriminate.
    intro H. inversion H; subst; clear H.
    apply BaseOfField_loop_returns in Hloop.
    destruct Hloop as (results & Hall & -> & ->).
    exists results. eexists. repeat split; try assumption. apply Hkey.
  - intros (results & object & Hall & -> & -> & -> & _).
    assert (Hloop : BaseOfField_loop (get_definitions_and_schema fuel) declared
                      fields_role sc ordered ref_documents [] []
                    = Return (merged [] results, [] ++ map snd results)).
    { apply BaseOfField_loop_returns. exists results. repeat split. assumption. }
    rewrite Hloop. reflexivity.
Qed.

(** [results] are what [rec] returns for the items of a list, each of them
    present under [role]. *)
Definition items_compiled_to (rec : compile_fn) (role : Role) (scope : Scope)
    (ordered : bool) (ref_documents : option (list Document))
    (items : list (attr (Field Document))) (results : list (pydict json * json))
  : Prop :=
  Forall2 (fun item result =>
             exists field field_role,
               maybe_resolve_2 item role = (Some field, field_role) /\
               rec field field_role scope ordered ref_documents = Return result)
          items results.

Lemma ArrayField_items_loop_returns (rec : compile_fn) (role : Role) (scope : Scope)
    (ordered : bool) (ref_documents : option (list Document))
    (items : list (attr (Field Document))) :
  forall nested_definitions nested_schema definitions schemas,
    ArrayField_items_loop rec items role scope ordered ref_documents
      nested_definitions nested_schema = Return (definitions, schemas) <->
    exists results,
      items_compiled_to rec role scope ordered ref_documents items results /\
      definitions = merged nested_definitions results /\
      schemas = nested_schema ++ map snd results.
Proof.
  unfold items_compiled_to.
  induction items as [|item items IH]; intros nd ns definitions schemas.
  - cbn. split.
    + intro H. inversion H; subst. exists []. repeat split.
      * constructor.
      * now rewrite app_nil_r.
    + intros (results & Hall & -> & ->). inversion Hall; subst.
      cbn. now rewrite app_nil_r.
  - cbn [ArrayField_items_loop].
    destruct (maybe_resolve_2 item role) as [[f|] r] eqn:Hitem.
    + split.
      * destruct (rec f r scope ordered ref_documents) as [[d sch]| |] eqn:Hrec;
          cbn [bind]; try discriminate.
        intro H. apply IH in H. destruct H as (results & Hall & -> & ->).
        exists ((d, sch) :: results). repeat split.
        -- constructor; [|assumption]. now exists f, r.
        -- cbn. now rewrite <- app_assoc.
      * intros (results & Hall & -> & ->).
        inversion Hall as [|? [d sch] ? results' (f' & r' & Hres & Hrec) Hall'];
          subst.
        rewrite Hitem in Hres. inversion Hres; subst f' r'.
        rewrite Hrec. cbn [bind]. apply IH.
        exists results'. repeat split; [assumption|].
        cbn. now rewrite <- app_assoc.
    + split; [discriminate|].
      intros (results & Hall & _).
      inversion Hall as [|? ? ? ? (f' & r' & Hres & _) ?]; subst.
      rewrite Hitem in Hres. discriminate.
Qed.

(** The stages of [ArrayField.get_definitions_and_schema] after [items],
    for a call that returned. *)
Ltac array_field_tail H rec :=
  let add := fresh "add" in
  let add_role := fresh "add_role" in
  destruct (maybe_resolve_2 _ _) as [add add_role] in H;
  (destruct add as [[?|?f]|];
   [ cbn [bind] in H
   | destruct (rec f _ _ _ _) as [[? ?]| |] in H; cbn [bind] in H;
     try discriminate H
   | cbn [bind] in H ]);
  inversion H; subst; clear H.

Ltac array_field_keys min_items max_items unique_items role :=
  destruct (maybe_resolve min_items role);
  destruct (maybe_resolve max_items role);
  destruct (maybe_resolve unique_items role) as [[|]|];
  cbn [option_map set_if_some truthy].

(** X7. An [ArrayField] whose [items] are a plain list compiles every item
    under the role the array is compiled under: when it returns, [items]
    is the list of the items' schemas, one for each position and in order,
    and the common attributes are written. *)
Theorem ArrayField_tuple_items :
  forall (fuel : nat) (s : SchemaAttrs) (items : list (attr (Field Document)))
         (min_items max_items : attr Z) (unique_items : attr bool)
         (additional_items : attr (BoolOr (Field Document)))
         (role : Role) (scope : Scope) (ordered : bool)
         (ref_documents : option (list Document))
         (definitions : pydict json) (schema : json),
    get_definitions_and_schema (S fuel)
      (ArrayField s (Plain (Some (ItemList items))) min_items max_items
         unique_items additional_items) role scope ordered ref_documents
    = Return (definitions, schema) ->
    exists results object,
      items_compiled_to (get_definitions_and_schema fuel) role
        (snd (alter scope (id s))) ordered ref_documents items results /\
      List.length results = List.length items /\
      schema = JDict object /\
      dict_get "type" object = Some (JStr "array") /\
      dict_get "items" object = Some (JList (map snd results)) /\
      common_written s role (fst (alter scope (id s))) object.
Proof.
  intros fuel s items min_items max_items unique_items additional_items role scope
    ordered ref_documents definitions schema Hcompile.
  cbn [get_definitions_and_schema] in Hcompile.
  unfold ArrayField_get_definitions_and_schema in Hcompile.
  destruct (alter scope (id s)) as [i sc]. cbn [fst snd].
  cbn [maybe_resolve_2 iter_items bind] in Hcompile.
  destruct (ArrayField_items_loop (get_definitions_and_schema fuel) items role sc
              ordered ref_documents [] []) as [[nd ns]| |] eqn:Hloop;
    cbn [bind] in Hcompile; try discriminate.
  apply ArrayField_items_loop_returns in Hloop.
  destruct Hloop as (results & Hall & -> & ->). cbn [app] in Hcompile.
  assert (Hcommon : common_written s role i
                      (_update_schema_with_common_fields s
                         [("type", JStr "array")] i role)).
  { apply common_fields_fresh. intros k Hk. cbn [dict_get].
    destruct Hk as [<-|[<-|[<-|[<-|[<-|[]]]]]]; reflexivity. }
  exists results.
  unfold maybe_resolve in Hcompile.
  array_field_tail Hcompile (get_definitions_and_schema fuel);
    (eexists; split; [assumption|];
     split; [symmetry; apply (Forall2_length Hall)|];
     split; [reflexivity|];
     fold (maybe_resolve min_items role); fold (maybe_resolve max_items role);
     fold (maybe_resolve unique_items role);
     array_field_keys min_items max_items unique_items role;
     (split;
      [ lookup_keys; reflexivity
      | split;
        [ lookup_keys; reflexivity
        | (eapply common_written_kept; [|exact Hcommon]);
          intros k Hk; destruct Hk as [<-|[<-|[<-|[<-|[<-|[]]]]]];
          repeat rewrite dict_get_set_other by reflexivity; reflexivity ] ])).
Qed.

(** X8. An [ArrayField] whose [items] resolve to one field compiles that
    field under the role that comes with it (the role passed down, or the
    default role): when the array returns, the field returned, [items] is
    the field's schema, and the common attributes are written. *)
Theorem ArrayField_single_items :
  forall (fuel : nat) (s : SchemaAttrs) (items : attr (ItemsOf (Field Document)))
         (min_items max_items : attr Z) (unique_items : attr bool)
         (additional_items : attr (BoolOr (Field Document)))
         (role : Role) (scope : Scope) (ordered : bool)
         (ref_documents : option (list Document))
         (item : Field Document) (items_role : Role)
         (definitions : pydict json) (schema : json),
    maybe_resolve_2 items role = (Some (OneItem item), items_role) ->
    get_definitions_and_schema (S fuel)
      (ArrayField s items min_items max_items unique_items additional_items)
      role scope ordered ref_documents = Return (definitions, schema) ->
    exists item_definitions item_schema object,
      get_definitions_and_schema fuel item items_role (snd (alter scope (id s)))
        ordered ref_documents = Return (item_definitions, item_schema) /\
      schema = JDict object /\
      dict_get "type" object = Some (JStr "array") /\
      dict_get "items" object = Some item_schema /\
      common_written s role (fst (alter scope (id s))) object.
Proof.
  intros fuel s items min_items max_items unique_items additional_items role scope
    ordered ref_documents item items_role definitions schema Hitems Hcompile.
  cbn [get_definitions_and_schema] in Hcompile.
  unfold ArrayField_get_definitions_and_schema in Hcompile.
  destruct (alter scope (id s)) as [i sc]. cbn [fst snd].
  rewrite Hitems in Hcompile.
  destruct (get_definitions_and_schema fuel item items_role sc ordered ref_documents)
    as [[d sch]| |] eqn:Hitem; cbn [bind] in Hcompile; try discriminate.
  assert (Hcommon : common_written s role i
                      (_update_schema_with_common_fields s
                         [("type", JStr "array")] i role)).
  { apply common_fields_fresh. intros k Hk. cbn [dict_get].
    destruct Hk as [<-|[<-|[<-|[<-|[<-|[]]]]]]; reflexivity. }
  exists d, sch.
  unfold maybe_resolve in Hcompile.
  array_field_tail Hcompile (get_definitions_and_schema fuel);
    (eexists; split; [reflexivity|];
     split; [reflexivity|];
     fold (maybe_resolve min_items role); fold (maybe_resolve max_items role);
     fold (maybe_resolve unique_items role);
     array_field_keys min_items max_items unique_items role;
     (split;
      [ lookup_keys; reflexivity
      | split;
        [ lookup_keys; reflexivity
        | (eapply common_written_kept; [|exact Hcommon]);
          intros k Hk; destruct Hk as [<-|[<-|[<-|[<-|[<-|[]]]]]];
          repeat rewrite dict_get_set_other by reflexivity; reflexivity ] ])).
Qed.

(** X9. A [BaseOfField] whose list of fields is absent under the role
    compiles to an empty list under its keyword and no definitions, but it
    cannot be iterated or walked: [iter_fields] and [walk] raise
    [TypeError], from looping over [None]. *)
Theorem BaseOfField_without_fields :
  forall (fuel : nat) (s : SchemaAttrs) (keyword : string)
         (fields : attr (list (attr (Field Document))))
         (role : Role) (scope : Scope) (ordered : bool)
         (ref_documents : option (list Document))
         (through_document_fields : bool) (visited_documents : list Document),
    In keyword ["oneOf"; "anyOf"; "allOf"] ->
    maybe_resolve fields role = None ->
    (exists object,
        get_definitions_and_schema (S fuel) (BaseOfField s keyword fields) role
          scope ordered ref_documents = Return ([], JDict object) /\
        dict_get keyword object = Some (JList [])) /\
    iter_fields (BaseOfField s keyword fields) role
    = Raise (TypeError "'NoneType' object is not iterable") /\
    walk (S fuel) (BaseOfField s keyword fields) role through_document_fields
      visited_documents
    = Raise (TypeError "'NoneType' object is not iterable").
Proof.
  intros fuel s keyword fields role scope ordered ref_documents through visited
    Hkeyword Hnone.
  unfold maybe_resolve in Hnone.
  cbn [get_definitions_and_schema walk]. unfold BaseField_walk.
  cbn [iter_fields]. unfold BaseOfField_get_definitions_and_schema.
  destruct (alter scope (id s)) as [i sc].
  destruct (maybe_resolve_2 fields role) as [fs fields_role].
  cbn [fst] in Hnone. subst fs. cbn [bind].
  split; [|split; reflexivity].
  eexists. split; [reflexivity|].
  rewrite common_fields_other_key.
  - cbn [dict_get dict_set]. now rewrite String.eqb_refl.
  - destruct Hkeyword as [<-|[<-|[<-|[]]]]; reflexivity.
Qed.

(** X10. The keys of the schema a [DictField] returns, one by one:
    [properties] and [required] come from the properties alone (a
    required field among the pattern properties is not listed),
    [patternProperties] is there exactly when the pattern properties are
    present under the role, and then their keys were validated;
    [additionalProperties] is the boolean as it was given, false
    included, or the schema of the field; [minProperties] and
    [maxProperties] are there exactly when they resolve to a value. *)
Theorem DictField_schema_keys :
  forall (fuel : nat) (s : SchemaAttrs)
         (properties pattern_properties : attr (pydict (attr (Field Document))))
         (additional_properties : attr (BoolOr (Field Document)))
         (min_properties max_properties : attr Z)
         (role : Role) (scope : Scope) (ordered : bool)
         (ref_documents : option (list Document))
         (definitions : pydict json) (schema : json),
    let rec := get_definitions_and_schema fuel in
    let scope' := snd (alter scope (id s)) in
    get_definitions_and_schema (S fuel)
      (DictField s properties pattern_properties additional_properties
         min_properties max_properties) role scope ordered ref_documents
    = Return (definitions, schema) ->
    exists object,
      schema = JDict object /\
      dict_get "type" object = Some (JStr "object") /\
      match maybe_resolve_2 properties role with
      | (Some props, props_role) =>
          exists pd required ps,
            _process_properties rec props scope' ordered ref_documents props_role
            = Return (pd, required, ps) /\
            dict_get "properties" object = Some (JDict ps) /\
            dict_get "required" object =
              match required with
              | [] => None
              | _ :: _ => Some (JList (map JStr required))
              end
      | (None, _) =>
          dict_get "properties" object = None /\ dict_get "required" object = None
      end /\
      match maybe_resolve_2 pattern_properties role with
      | (Some patterns, patterns_role) =>
          validate_keys (dict_keys patterns) = Return tt /\
          exists pd required ps,
            _process_properties rec patterns scope' ordered ref_documents
              patterns_role = Return (pd, required, ps) /\
            dict_get "patternProperties" object = Some (JDict ps)
      | (None, _) => dict_get "patternProperties" object = None
      end /\
      match maybe_resolve_2 additional_properties role with
      | (Some (IsBool b), _) =>
          dict_get "additionalProperties" object = Some (JBool b)
      | (Some (IsField field), field_role) =>
          exists fd fs,
            rec field field_role scope' ordered ref_documents = Return (fd, fs) /\
            dict_get "additionalProperties" object = Some fs
      | (None, _) => dict_get "additionalProperties" object = None
      end /\
      dict_get "minProperties" object
      = option_map JNum (maybe_resolve min_properties role) /\
      dict_get "maxProperties" object
      = option_map JNum (maybe_resolve max_properties role).
Proof.
  intros fuel s properties pattern_properties additional_properties
    min_properties max_properties role scope ordered ref_documents definitions
    schema rec scope' Hcompile.
  unfold rec, scope' in *. clear rec scope'.
  cbn [get_definitions_and_schema] in Hcompile.
  dict_field_stages Hcompile (get_definitions_and_schema fuel);
    cbn [snd];
    repeat match goal with
           | Heq : maybe_resolve_2 _ _ = _ |- _ => rewrite Heq; clear Heq
           | u : unit |- _ => destruct u
           end;
    (eexists; split; [reflexivity|];
     destruct (maybe_resolve min_properties role);
     destruct (maybe_resolve max_properties role);
     cbn [option_map set_if_some];
     repeat match goal with
            | |- _ /\ _ => split
            | |- exists _ : pydict json, _ => eexists
            | |- exists _ : list string, _ => eexists
            | |- exists _ : json, _ => eexists
            | |- Return _ = Return _ => reflexivity
            | H : ?x = Return _ |- ?x = Return _ => exact H
            end;
     try match goal with
         | |- context [match ?l with [] => _ | _ :: _ => _ end] => destruct l
         end;
     lookup_keys; reflexivity).
Qed.

(** ** Document fields *)

(** X11. A [DocumentField] that is not a reference (its Document is not in
    [ref_documents] and [as_ref] is not set) compiles to whatever its
    Document compiles to, definitions, schema or exception.  When its
    [document_cls] resolves to no Document under the role,
    [get_document_cls] returns [None], and compiling or iterating the
    field raises [AttributeError]. *)
Theorem DocumentField_inlines_its_document :
  forall (fuel : nat) (b : BaseAttrs) (document_cls : attr (DocTarget Document))
         (owner_cls : option Document) (as_ref : bool) (role : Role)
         (scope : Scope) (ordered : bool) (ref_documents : option (list Document)),
    let self := DocumentField b document_cls owner_cls as_ref in
    (forall target,
        get_document_cls document_cls owner_cls role = Return (Some target) ->
        (forall docs, ref_documents = Some docs -> ~ In target docs) ->
        as_ref = false ->
        get_definitions_and_schema (S fuel) self role scope ordered ref_documents
        = Document_get_definitions_and_schema target role scope ordered
            ref_documents) /\
    (maybe_resolve document_cls role = None ->
     get_document_cls document_cls owner_cls role = Return None /\
     get_definitions_and_schema (S fuel) self role scope ordered ref_documents
     = Raise (NoneType_has_no "get_definition_id") /\
     iter_fields self role = Raise (NoneType_has_no "iter_fields")).
Proof.
  intros fuel b document_cls owner_cls as_ref role scope ordered ref_documents self.
  unfold self. cbn [get_definitions_and_schema iter_fields].
  unfold DocumentField_get_definitions_and_schema.
  split.
  - intros target Hcls Hnot ->. rewrite Hcls. cbn [bind].
    apply in_ref_documents_not_In in Hnot. rewrite Hnot.
    destruct (Document_get_definitions_and_schema target role scope ordered
                ref_documents) as [[d sch]| |]; reflexivity.
  - intro Hnone.
    assert (Hcls : get_document_cls document_cls owner_cls role = Return None).
    { unfold get_document_cls. now rewrite Hnone. }
    rewrite Hcls. cbn [bind]. repeat split.
Qed.

(** X12. The exceptions of [get_document_cls]: it raises [ValueError] only
    when no owner is set, and then for the self-reference constant or for
    a name the registry does not know; a [KeyError] is the registry's own,
    from the lookup in the owner's module, and comes only when an owner is
    set and the registry knows the name neither globally nor in that
    module.  A Document class it returns is the class given, the owner
    (for the constant), or what the registry holds for the name, the
    global entry first. *)
Theorem get_document_cls_outcomes :
  forall (document_cls : attr (DocTarget Document)) (owner_cls : option Document)
         (role : Role),
    (forall msg,
        get_document_cls document_cls owner_cls role = Raise (ValueError msg) ->
        owner_cls = None /\
        exists name,
          maybe_resolve document_cls role = Some (DocName name) /\
          (name = RECURSIVE_REFERENCE_CONSTANT \/
           exists e, registry_get_document name None = inr e)) /\
    (forall msg,
        get_document_cls document_cls owner_cls role = Raise (KeyError msg) ->
        exists owner name,
          owner_cls = Some owner /\
          maybe_resolve document_cls role = Some (DocName name) /\
          name <> RECURSIVE_REFERENCE_CONSTANT /\
          (exists e, registry_get_document name None = inr e) /\
          registry_get_document name (Some (module_of owner)) = inr msg) /\
    (forall found,
        get_document_cls document_cls owner_cls role = Return (Some found) ->
        maybe_resolve document_cls role = Some (DocClass found) \/
        (maybe_resolve document_cls role
         = Some (DocName RECURSIVE_REFERENCE_CONSTANT) /\ owner_cls = Some found) \/
        exists name,
          maybe_resolve document_cls role = Some (DocName name) /\
          name <> RECURSIVE_REFERENCE_CONSTANT /\
          (registry_get_document name None = inl found \/
           ((exists e, registry_get_document name None = inr e) /\
            exists owner,
              owner_cls = Some owner /\
              registry_get_document name (Some (module_of owner)) = inl found))).
Proof.
  intros document_cls owner_cls role. unfold get_document_cls.
  destruct (maybe_resolve document_cls role) as [[name|d]|].
  - destruct (String.eqb name RECURSIVE_REFERENCE_CONSTANT) eqn:Hself.
    + apply String.eqb_eq in Hself. subst name.
      destruct owner_cls as [o|]; repeat split; try discriminate.
      * intros found H. inversion H; subst. right. left. now split.
      * exists RECURSIVE_REFERENCE_CONSTANT. split; [reflexivity|now left].
    + apply String.eqb_neq in Hself.
      destruct (registry_get_document name None) as [g|e] eqn:Hglobal.
      * repeat split; try discriminate.
        intros found H. inversion H; subst. right. right.
        exists name. repeat split; [assumption|now left].
      * destruct owner_cls as [o|].
        -- destruct (registry_get_document name (Some (module_of o))) as [m|e']
             eqn:Hmodule; repeat split; try discriminate.
           ++ intros found H. inversion H; subst. right. right.
              exists name. repeat split; [assumption|]. right.
              split; [now exists e|]. now exists o.
           ++ intros msg H. inversion H; subst. exists o, name.
              repeat split; try assumption. now exists e.
        -- repeat split; try discriminate.
           exists name. split; [reflexivity|]. right. now exists e.
  - repeat split; try discriminate.
    intros found H. inversion H; subst. now left.
  - repeat split; discriminate.
Qed.

(** ** Walking *)

Lemma iter_fields_has_fuel (self : Field Document) (role : Role) :
  iter_fields self role <> OutOfFuel.
Proof.
  destruct self; cbn [iter_fields]; try discriminate.
  - destruct (maybe_resolve_2 items role); discriminate.
  - destruct (maybe_resolve_2 properties role);
      destruct (maybe_resolve_2 pattern_properties role); discriminate.
  - destruct (maybe_resolve_2 fields role) as [[|] ?]; discriminate.
  - apply bind_has_fuel; [apply get_document_cls_has_fuel|].
    intros [d|] _; discriminate.
Qed.

Lemma walk_loop_ext (rec1 rec2 : walk_fn) (through : bool)
    (visited1 visited2 : list Document) (role : Role)
    (children : list (attr (Field Document))) :
  (forall child field field_role,
      In child children -> maybe_resolve_2 child role = (Some field, field_role) ->
      rec1 field field_role through visited1 = rec2 field field_role through visited2) ->
  walk_loop rec1 children role through visited1
  = walk_loop rec2 children role through visited2.
Proof.
  induction children as [|child children IH]; intro H; [reflexivity|].
  cbn [walk_loop].
  destruct (maybe_resolve_2 child role) as [[field|] field_role] eqn:Hchild.
  - rewrite (H child field field_role) by (assumption || now left).
    rewrite IH; [reflexivity|].
    intros c f r Hin. apply H. now right.
  - apply IH. intros c f r Hin. apply H. now right.
Qed.

Lemma walk_loop_has_fuel (rec : walk_fn) (through : bool) (visited : list Document)
    (role : Role) (children : list (attr (Field Document))) :
  (forall child field field_role,
      In child children -> maybe_resolve_2 child role = (Some field, field_role) ->
      rec field field_role through visited <> OutOfFuel) ->
  walk_loop rec children role through visited <> OutOfFuel.
Proof.
  induction children as [|child children IH]; intro H; [discriminate|].
  cbn [walk_loop].
  destruct (maybe_resolve_2 child role) as [[field|] field_role] eqn:Hchild.
  - apply bind_has_fuel;
      [apply (H child field field_role); [now left|assumption]|].
    intros yielded _. apply bind_has_fuel; [|discriminate].
    apply IH. intros c f r Hin. apply H. now right.
  - apply IH. intros c f r Hin. apply H. now right.
Qed.

(** X13. A walk that does not go through document fields needs no more
    fuel than the depth of the field, does not depend on the set of
    visited Documents, and yields a [DocumentField] alone, without
    looking at its Document. *)
Theorem walk_not_through_document_fields :
  forall (fuel : nat) (self : Field Document) (role : Role)
         (visited visited' : list Document),
    depth self <= fuel ->
    walk fuel self role false visited <> OutOfFuel /\
    walk fuel self role false visited = walk fuel self role false visited' /\
    (forall b document_cls owner_cls as_ref,
        self = DocumentField b document_cls owner_cls as_ref ->
        walk fuel self role false visited = Return [self]).
Proof.
  induction fuel as [|fuel IH]; intros self role visited visited' Hdepth.
  - pose proof (depth_positive self). lia.
  - assert (Hbase : (forall b c o r, self <> DocumentField b c o r) ->
                    walk (S fuel) self role false visited <> OutOfFuel /\
                    walk (S fuel) self role false visited
                    = walk (S fuel) self role false visited').
    { intro Hself. rewrite !walk_S_BaseField by assumption.
      unfold BaseField_walk.
      destruct (iter_fields self role) as [children|e|] eqn:Hiter; cbn [bind];
        [|split; [discriminate|reflexivity]
         |now elim (iter_fields_has_fuel self role)].
      assert (Hchild : forall child field field_role,
                 In child children ->
                 maybe_resolve_2 child role = (Some field, field_role) ->
                 depth field <= fuel).
      { intros child field field_role Hin Hres.
        assert (depth field < depth self); [|lia].
        apply (iter_fields_depth self role children Hself Hiter child role field Hin).
        unfold maybe_resolve. now rewrite Hres. }
      split.
      - apply bind_has_fuel; [|discriminate].
        apply walk_loop_has_fuel. intros child field field_role Hin Hres.
        exact (proj1 (IH field field_role visited visited'
                        (Hchild child field field_role Hin Hres))).
      - rewrite (walk_loop_ext (walk fuel) (walk fuel) false visited visited' role
                   children); [reflexivity|].
        intros child field field_role Hin Hres.
        exact (proj1 (proj2 (IH field field_role visited visited'
                               (Hchild child field field_role Hin Hres)))). }
    destruct self as [s|s p f mn mx|s t a b c d e|s items mn mx u additional
                     |s properties patterns additional mn mx|s k fields|s f
                     |b c o r];
      try (destruct Hbase as [H1 H2]; [intros; discriminate|];
           split; [exact H1|split; [exact H2|intros; discriminate]]).
    repeat split. discriminate.
Qed.

(** X14. What [walk] yields starts with the field itself; and when the
    field is a [DocumentField], the field does not come again among the
    fields of its Document: it is yielded once. *)
Theorem walk_yields_self_first :
  forall (fuel : nat) (self : Field Document) (role : Role)
         (through_document_fields : bool) (visited_documents : list Document)
         (yielded : list (Field Document)),
    walk fuel self role through_document_fields visited_documents = Return yielded ->
    exists others,
      yielded = self :: others /\
      (forall b document_cls owner_cls as_ref,
          self = DocumentField b document_cls owner_cls as_ref ->
          Forall (fun field => field_ne field self = true) others).
Proof.
  intros [|fuel] self role through visited yielded Hwalk; [discriminate|].
  assert (Hbase : forall v l,
             BaseField_walk (walk fuel) self role through v = Return l ->
             exists others, l = self :: others).
  { intros v l H. unfold BaseField_walk in H.
    destruct (iter_fields self role) as [children| |]; cbn [bind] in H;
      try discriminate.
    destruct (walk_loop (walk fuel) children role through v) as [nested| |];
      cbn [bind] in H; try discriminate.
    inversion H; subst. now exists nested. }
  destruct self as [s|s p f mn mx|s t a b c d e|s items mn mx u additional
                   |s properties patterns additional mn mx|s k fields|s f
                   |b c o r]; cbn [walk] in Hwalk;
    try (destruct (Hbase _ _ Hwalk) as [others ->]; exists others;
         split; [reflexivity|intros; discriminate]).
  unfold DocumentField_walk in Hwalk.
  destruct through;
    [|inversion Hwalk; subst; exists []; split; [reflexivity|constructor]].
  destruct (get_document_cls c o role) as [document_cls| |]; cbn [bind] in Hwalk;
    try discriminate.
  destruct (not_visited document_cls visited);
    [|inversion Hwalk; subst; exists []; split; [reflexivity|constructor]].
  destruct (BaseField_walk (walk fuel) (DocumentField b c o r) role true
              (visit document_cls visited)) as [l| |];
    cbn [bind] in Hwalk; try discriminate.
  inversion Hwalk; subst. eexists. split; [reflexivity|].
  intros b' c' o' r' _. apply Forall_forall. intros field Hin.
  apply filter_In in Hin. apply Hin.
Qed.

(** X15. A [NotField] keeps the [iter_fields] of [BaseField], which yields
    nothing: walking it yields the [NotField] alone, whatever fuel, role,
    [through_document_fields] and [visited_documents] are, so the field it
    negates under the role, which compiling does visit, is not among the
    fields walked. *)
Theorem NotField_field_is_not_walked :
  forall (fuel : nat) (s : SchemaAttrs) (field : attr (Field Document))
         (role : Role) (through_document_fields : bool)
         (visited_documents : list Document) (negated : Field Document),
    maybe_resolve field role = Some negated ->
    exists yielded,
      walk (S fuel) (NotField s field) role through_document_fields
        visited_documents = Return yielded /\
      yielded = [NotField s field] /\
      ~ In negated yielded.
Proof.
  intros fuel s field role through visited negated Hres.
  exists [NotField s field]. split; [reflexivity|]. split; [reflexivity|].
  intros [Heq|[]].
  pose proof (maybe_resolve_depth (@depth Document) field role negated Hres) as Hle.
  apply (f_equal (@depth Document)) in Heq. cbn [depth] in Heq. lia.
Qed.

(** ** Fuel *)

(** [rec'] produces whatever [rec] produces, when that is not running out
    of fuel. *)
Definition refines (rec rec' : compile_fn) : Prop :=
  forall field role scope ordered ref_documents outcome,
    rec field role scope ordered ref_documents = outcome ->
    outcome <> OutOfFuel ->
    rec' field role scope ordered ref_documents = outcome.

Ltac refine_call H Href :=
  match type of H with
  | context [bind (?rec ?f ?a ?b ?c ?d) _] =>
      let Hcall := fresh "Hcall" in
      destruct (rec f a b c d) as [[? ?]| |] eqn:Hcall;
      [ rewrite (Href _ _ _ _ _ _ Hcall ltac:(discriminate))
      | rewrite (Href _ _ _ _ _ _ Hcall ltac:(discriminate))
      | ];
      cbn [bind] in H |- *
  end.

Lemma ArrayField_items_loop_refines (rec rec' : compile_fn) (role : Role)
    (scope : Scope) (ordered : bool) (ref_documents : option (list Document))
    (items : list (attr (Field Document))) :
  refines rec rec' ->
  forall nested_definitions nested_schema outcome,
    ArrayField_items_loop rec items role scope ordered ref_documents
      nested_definitions nested_schema = outcome ->
    outcome <> OutOfFuel ->
    ArrayField_items_loop rec' items role scope ordered ref_documents
      nested_definitions nested_schema = outcome.
Proof.
  intro Href. induction items as [|item items IH]; intros nd ns outcome H Hne;
    [exact H|].
  cbn [ArrayField_items_loop] in *.
  destruct (maybe_resolve_2 item role) as [[f|] r]; [|exact H].
  refine_call H Href; [now apply IH|exact H|congruence].
Qed.

Lemma process_properties_loop_refines (rec rec' : compile_fn) (role : Role)
    (scope : Scope) (ordered : bool) (ref_documents : option (list Document))
    (properties : pydict (attr (Field Document))) :
  refines rec rec' ->
  forall nested_definitions required schema outcome,
    _process_properties_loop rec properties scope ordered ref_documents role
      nested_definitions required schema = outcome ->
    outcome <> OutOfFuel ->
    _process_properties_loop rec' properties scope ordered ref_documents role
      nested_definitions required schema = outcome.
Proof.
  intro Href. induction properties as [|[prop value] properties IH];
    intros nd req sch outcome H Hne; [exact H|].
  cbn [_process_properties_loop] in *.
  destruct (maybe_resolve_2 value role) as [[f|] r]; [|now apply IH].
  refine_call H Href; [now apply IH|exact H|congruence].
Qed.

Lemma BaseOfField_loop_refines (rec rec' : compile_fn) (fields_role : Role)
    (scope : Scope) (ordered : bool) (ref_documents : option (list Document))
    (fields : list (attr (Field Document))) :
  refines rec rec' ->
  forall nested_definitions one_of outcome,
    BaseOfField_loop rec fields fields_role scope ordered ref_documents
      nested_definitions one_of = outcome ->
    outcome <> OutOfFuel ->
    BaseOfField_loop rec' fields fields_role scope ordered ref_documents
      nested_definitions one_of = outcome.
Proof.
  intro Href. induction fields as [|field fields IH];
    intros nd one_of outcome H Hne; [exact H|].
  cbn [BaseOfField_loop] in *.
  destruct (maybe_resolve_2 field fields_role) as [[f|] r]; [|now apply IH].
  refine_call H Href; [now apply IH|exact H|congruence].
Qed.

(** One more unit of fuel does not change an outcome that is not running
    out of fuel. *)
Lemma get_definitions_and_schema_more_fuel (fuel : nat) :
  refines (get_definitions_and_schema fuel) (get_definitions_and_schema (S fuel)).
Proof.
  induction fuel as [|fuel IH];
    intros self role scope ordered ref_documents outcome H Hne.
  - cbn in H. congruence.
  - cbn [get_definitions_and_schema] in H.
    change (get_definitions_and_schema (S (S fuel)) self role scope ordered
              ref_documents)
      with (match self with
            | BooleanField s => BooleanField_get_definitions_and_schema s role scope
            | StringField s pattern format min_length max_length =>
                StringField_get_definitions_and_schema s pattern format min_length
                  max_length role scope
            | NumberField s number_type multiple_of minimum exclusive_minimum
                maximum exclusive_maximum =>
                NumberField_get_definitions_and_schema s number_type multiple_of
                  minimum exclusive_minimum maximum exclusive_maximum role scope
            | ArrayField s items min_items max_items unique_items additional_items =>
                ArrayField_get_definitions_and_schema
                  (get_definitions_and_schema (S fuel)) s items min_items max_items
                  unique_items additional_items role scope ordered ref_documents
            | DictField s properties pattern_properties additional_properties
                min_properties max_properties =>
                DictField_get_definitions_and_schema
                  (get_definitions_and_schema (S fuel)) s properties
                  pattern_properties additional_properties min_properties
                  max_properties role scope ordered ref_documents
            | BaseOfField s keyword fields =>
                BaseOfField_get_definitions_and_schema
                  (get_definitions_and_schema (S fuel)) s keyword fields role scope
                  ordered ref_documents
            | NotField s field =>
                NotField_get_definitions_and_schema
                  (get_definitions_and_schema (S fuel)) s field role scope ordered
                  ref_documents
            | DocumentField _ document_cls owner_cls as_ref =>
                DocumentField_get_definitions_and_schema document_cls owner_cls
                  as_ref role scope ordered ref_documents
            end).
    set (rec := get_definitions_and_schema fuel) in *.
    set (rec' := get_definitions_and_schema (S fuel)) in *.
    destruct self as [s|s p f mn mx|s t a b c d e|s items mn mx u additional
                     |s properties patterns additional mn mx|s k fields|s f
                     |b c o r]; try exact H.
    + (* ArrayField *)
      unfold ArrayField_get_definitions_and_schema in *.
      destruct (alter scope (id s)) as [i sc].
      destruct (maybe_resolve_2 items role) as [[[item|l]|] items_role].
      * refine_call H IH; [|exact H|congruence].
        destruct (maybe_resolve_2 additional role) as [[[bb|g]|] add_role];
          try exact H.
        refine_call H IH; [exact H|exact H|congruence].
      * destruct (iter_items items) as [l'| |]; cbn [bind] in *; try exact H.
        destruct (ArrayField_items_loop rec l' role sc ordered ref_documents [] [])
          as [[nd ns]| |] eqn:Hloop.
        -- rewrite (ArrayField_items_loop_refines rec rec' role sc ordered
                      ref_documents l' IH [] [] _ Hloop) by discriminate.
           cbn [bind] in *.
           destruct (maybe_resolve_2 additional role) as [[[bb|g]|] add_role];
             try exact H.
           refine_call H IH; [exact H|exact H|congruence].
        -- rewrite (ArrayField_items_loop_refines rec rec' role sc ordered
                      ref_documents l' IH [] [] _ Hloop) by discriminate.
           exact H.
        -- cbn [bind] in H. congruence.
      * cbn [bind] in *.
        destruct (maybe_resolve_2 additional role) as [[[bb|g]|] add_role];
          try exact H.
        refine_call H IH; [exact H|exact H|congruence].
    + (* DictField *)
      unfold DictField_get_definitions_and_schema, _process_properties in *.
      destruct (alter scope (id s)) as [i sc].
      destruct (maybe_resolve_2 properties role) as [props props_role].
      destruct (maybe_resolve_2 patterns role) as [pats pats_role].
      destruct (maybe_resolve_2 additional role) as [add add_role].
      assert (Hrest : forall nd sch outcome',
        match pats with
        | Some pattern_properties =>
            _ <- validate_keys (dict_keys pattern_properties) ;;
            '(properties_definitions, _, properties_schema) <-
              _process_properties_loop rec pattern_properties sc ordered
                ref_documents pats_role [] [] [] ;;
            Return (dict_update nd properties_definitions,
                    dict_set "patternProperties" (JDict properties_schema) sch)
        | None => Return (nd, sch)
        end = outcome' -> outcome' <> OutOfFuel ->
        match pats with
        | Some pattern_properties =>
            _ <- validate_keys (dict_keys pattern_properties) ;;
            '(properties_definitions, _, properties_schema) <-
              _process_properties_loop rec' pattern_properties sc ordered
                ref_documents pats_role [] [] [] ;;
            Return (dict_update nd properties_definitions,
                    dict_set "patternProperties" (JDict properties_schema) sch)
        | None => Return (nd, sch)
        end = outcome').
      { intros nd sch outcome' H' Hne'. destruct pats as [pats|]; [|exact H'].
        destruct (validate_keys (dict_keys pats)); cbn [bind] in *; try exact H'.
        destruct (_process_properties_loop rec pats sc ordered ref_documents
                    pats_role [] [] []) as [[[pd pr] ps]| |] eqn:Hloop.
        - rewrite (process_properties_loop_refines rec rec' pats_role sc ordered
                     ref_documents pats IH [] [] [] _ Hloop) by discriminate.
          exact H'.
        - rewrite (process_properties_loop_refines rec rec' pats_role sc ordered
                     ref_documents pats IH [] [] [] _ Hloop) by discriminate.
          exact H'.
        - cbn [bind] in H'. congruence. }
      assert (Hadd : forall nd sch outcome',
        match add with
        | Some (IsBool b) =>
            Return (nd, dict_set "additionalProperties" (JBool b) sch)
        | Some (IsField additional_properties) =>
            '(properties_definitions, properties_schema) <-
              rec additional_properties add_role sc ordered ref_documents ;;
            Return (dict_update nd properties_definitions,
                    dict_set "additionalProperties" properties_schema sch)
        | None => Return (nd, sch)
        end = outcome' -> outcome' <> OutOfFuel ->
        match add with
        | Some (IsBool b) =>
            Return (nd, dict_set "additionalProperties" (JBool b) sch)
        | Some (IsField additional_properties) =>
            '(properties_definitions, properties_schema) <-
              rec' additional_properties add_role sc ordered ref_documents ;;
            Return (dict_update nd properties_definitions,
                    dict_set "additionalProperties" properties_schema sch)
        | None => Return (nd, sch)
        end = outcome').
      { intros nd sch outcome' H' Hne'. destruct add as [[bb|g]|]; try exact H'.
        refine_call H' IH; [exact H'|exact H'|congruence]. }
      assert (Htail : forall nd sch outcome',
        bind (match pats with
              | Some pattern_properties =>
                  _ <- validate_keys (dict_keys pattern_properties) ;;
                  '(properties_definitions, _, properties_schema) <-
                    _process_properties_loop rec pattern_properties sc ordered
                      ref_documents pats_role [] [] [] ;;
                  Return (dict_update nd properties_definitions,
                          dict_set "patternProperties" (JDict properties_schema) sch)
              | None => Return (nd, sch)
              end)
          (fun x => let '(nested_definitions, schema) := x in
             bind (match add with
                   | Some (IsBool b) =>
                       Return (nested_definitions,
                               dict_set "additionalProperties" (JBool b) schema)
                   | Some (IsField additional_properties) =>
                       '(properties_definitions, properties_schema) <-
                         rec additional_properties add_role sc ordered
                           ref_documents ;;
                       Return (dict_update nested_definitions properties_definitions,
                               dict_set "additionalProperties" properties_schema
                                 schema)
                   | None => Return (nested_definitions, schema)
                   end)
               (fun y => let '(nested_definitions, schema) := y in
                  Return (nested_definitions,
                          JDict (set_if_some "maxProperties"
                                   (option_map JNum (maybe_resolve mx role))
                                   (set_if_some "minProperties"
                                      (option_map JNum (maybe_resolve mn role))
                                      schema))))) = outcome' ->
        outcome' <> OutOfFuel ->
        bind (match pats with
              | Some pattern_properties =>
                  _ <- validate_keys (dict_keys pattern_properties) ;;
                  '(properties_definitions, _, properties_schema) <-
                    _process_properties_loop rec' pattern_properties sc ordered
                      ref_documents pats_role [] [] [] ;;
                  Return (dict_update nd properties_definitions,
                          dict_set "patternProperties" (JDict properties_schema) sch)
              | None => Return (nd, sch)
              end)
          (fun x => let '(nested_definitions, schema) := x in
             bind (match add with
                   | Some (IsBool b) =>
                       Return (nested_definitions,
                               dict_set "additionalProperties" (JBool b) schema)
                   | Some (IsField additional_properties) =>
                       '(properties_definitions, properties_schema) <-
                         rec' additional_properties add_role sc ordered
                           ref_documents ;;
                       Return (dict_update nested_definitions properties_definitions,
                               dict_set "additionalProperties" properties_schema
                                 schema)
                   | None => Return (nested_definitions, schema)
                   end)
               (fun y => let '(nested_definitions, schema) := y in
                  Return (nested_definitions,
                          JDict (set_if_some "maxProperties"
                                   (option_map JNum (maybe_resolve mx role))
                                   (set_if_some "minProperties"
                                      (option_map JNum (maybe_resolve mn role))
                                      schema))))) = outcome').
      { intros nd sch outcome' H' Hne'.
        match type of H' with
        | bind ?m _ = _ => destruct m as [[nd1 sch1]| |] eqn:Hpatterns
        end.
        - rewrite (Hrest nd sch _ Hpatterns) by discriminate. cbn [bind] in *.
          match type of H' with
          | bind ?m _ = _ => destruct m as [[nd2 sch2]| |] eqn:Hadditional
          end.
          + rewrite (Hadd nd1 sch1 _ Hadditional) by discriminate. exact H'.
          + rewrite (Hadd nd1 sch1 _ Hadditional) by discriminate. exact H'.
          + cbn [bind] in H'. congruence.
        - rewrite (Hrest nd sch _ Hpatterns) by discriminate. exact H'.
        - cbn [bind] in H'. congruence. }
      destruct props as [props|].
      * destruct (_process_properties_loop rec props sc ordered ref_documents
                    props_role [] [] []) as [[[pd pr] ps]| |] eqn:Hloop.
        -- rewrite (process_properties_loop_refines rec rec' props_role sc ordered
                      ref_documents props IH [] [] [] _ Hloop) by discriminate.
           cbn [bind] in *. now apply Htail.
        -- rewrite (process_properties_loop_refines rec rec' props_role sc ordered
                      ref_documents props IH [] [] [] _ Hloop) by discriminate.
           exact H.
        -- cbn [bind] in H. congruence.
      * cbn [bind] in *. now apply Htail.
    + (* BaseOfField *)
      unfold BaseOfField_get_definitions_and_schema in *.
      destruct (alter scope (id s)) as [i sc].
      destruct (maybe_resolve_2 fields role) as [[fs|] fields_role]; [|exact H].
      destruct (BaseOfField_loop rec fs fields_role sc ordered ref_documents [] [])
        as [[nd one_of]| |] eqn:Hloop.
      * rewrite (BaseOfField_loop_refines rec rec' fields_role sc ordered
                   ref_documents fs IH [] [] _ Hloop) by discriminate.
        exact H.
      * rewrite (BaseOfField_loop_refines rec rec' fields_role sc ordered
                   ref_documents fs IH [] [] _ Hloop) by discriminate.
        exact H.
      * cbn [bind] in H. congruence.
    + (* NotField *)
      unfold NotField_get_definitions_and_schema in *.
      destruct (alter scope (id s)) as [i sc].
      destruct (maybe_resolve_2 f role) as [[g|] field_role]; [|exact H].
      refine_call H IH; [exact H|exact H|congruence].
Qed.

Lemma get_definitions_and_schema_fuel_le (fuel fuel' : nat) :
  fuel <= fuel' ->
  refines (get_definitions_and_schema fuel) (get_definitions_and_schema fuel').
Proof.
  induction 1 as [|fuel' Hle IH]; intros self role scope ordered ref_documents
    outcome H Hne; [exact H|].
  apply get_definitions_and_schema_more_fuel; [|exact Hne].
  now apply IH.
Qed.

(** X16. Compiling a field needs no more fuel than the depth of the field
    tree: when compiling a Document does not run out, any fuel from the
    depth on gives one and the same outcome, a result or an exception.
    And whatever fuel gave an outcome, more fuel gives the same one. *)
Theorem compiling_is_bounded_by_the_depth :
  (forall d role scope ordered ref_documents,
      Document_get_definitions_and_schema d role scope ordered ref_documents
      <> OutOfFuel) ->
  forall (self : Field Document) (fuel : nat) (role : Role) (scope : Scope)
         (ordered : bool) (ref_documents : option (list Document)),
    depth self <= fuel ->
    get_definitions_and_schema fuel self role scope ordered ref_documents
    <> OutOfFuel /\
    get_definitions_and_schema fuel self role scope ordered ref_documents
    = get_definitions_and_schema (depth self) self role scope ordered
        ref_documents /\
    forall fuel',
      fuel <= fuel' ->
      get_definitions_and_schema fuel' self role scope ordered ref_documents
      = get_definitions_and_schema fuel self role scope ordered ref_documents.
Proof.
  intros Hdoc self fuel role scope ordered ref_documents Hdepth.
  pose proof (get_definitions_and_schema_has_fuel Hdoc (depth self) self
                (Nat.le_refl _) role scope ordered ref_documents) as Hne.
  assert (Heq : forall n, depth self <= n ->
                  get_definitions_and_schema n self role scope ordered ref_documents
                  = get_definitions_and_schema (depth self) self role scope ordered
                      ref_documents).
  { intros n Hn.
    apply (get_definitions_and_schema_fuel_le (depth self) n Hn self role scope
             ordered ref_documents _ eq_refl Hne). }
  split; [|split].
  - now rewrite (Heq fuel Hdepth).
  - now apply Heq.
  - intros fuel' Hle. rewrite (Heq fuel Hdepth). apply Heq. lia.
Qed.

(** ** [get_schema] *)

(** X17. [get_schema] compiles the field under the default scope, with no
    [ref_documents]: it fails as the compilation fails, and returns the
    schema as it is when there are no definitions, so that a leaf field
    never gets a [definitions] key; when there are definitions it puts
    them under [definitions], over whatever the schema had there. *)
Theorem get_schema_lifts_definitions :
  forall (root : Scope) (fuel : nat) (self : Field Document) (ordered : bool)
         (role : Role),
    match get_definitions_and_schema fuel self role root ordered None with
    | Return ([], schema) => get_schema root fuel self ordered role = Return schema
    | Return ((_ :: _) as definitions, JDict object) =>
        exists object',
          get_schema root fuel self ordered role = Return (JDict object') /\
          dict_get "definitions" object' = Some (JDict definitions) /\
          forall k, k <> "definitions" -> dict_get k object' = dict_get k object
    | Return (_ :: _, _) =>
        exists e, get_schema root fuel self ordered role = Raise (TypeError e)
    | Raise e => get_schema root fuel self ordered role = Raise e
    | OutOfFuel => get_schema root fuel self ordered role = OutOfFuel
    end /\
    (forall s pattern format min_length max_length,
        self = StringField s pattern format min_length max_length ->
        exists object,
          get_schema root (S fuel) self ordered role = Return (JDict object) /\
          dict_get "definitions" object = None /\
          dict_get "type" object = Some (JStr "string")).
Proof.
  intros root fuel self ordered role. split.
  - unfold get_schema.
    destruct (get_definitions_and_schema fuel self role root ordered None)
      as [[[|d definitions] schema]| |]; cbn [bind]; try reflexivity.
    destruct schema; try (eexists; reflexivity).
    eexists. split; [reflexivity|]. split; [apply dict_get_set_same|].
    intros k Hk. apply dict_get_set_other. now apply String.eqb_neq.
  - intros s pattern format min_length max_length ->.
    unfold get_schema. cbn [get_definitions_and_schema].
    unfold StringField_get_definitions_and_schema.
    destruct (alter root (id s)) as [i sc]. cbn [bind].
    eexists. split; [reflexivity|].
    unfold truthy_opt_string.
    destruct (maybe_resolve pattern role) as [p|]; [destruct (truthy_string p)|];
      destruct (maybe_resolve min_length role);
      destruct (maybe_resolve max_length role);
      destruct (maybe_resolve format role);
      cbn [option_map set_if_some]; split; lookup_keys;
      try reflexivity;
      apply base_schema_other_key; reflexivity.
Qed.

Lemma dict_set_not_empty (V : Type) (k : string) (v : V) (d : pydict V) :
  dict_set k v d <> [].
Proof.
  destruct d as [|[k' v'] d]; cbn [dict_set]; [discriminate|].
  destruct (String.eqb k k'); discriminate.
Qed.

(** X18. [get_schema] of a [DocumentField] with [as_ref] set returns the
    reference the scope creates for the Document, together with a
    [definitions] key that holds the Document's schema under its
    definition id. *)
Theorem get_schema_of_a_reference :
  forall (root : Scope) (fuel : nat) (b : BaseAttrs)
         (document_cls : attr (DocTarget Document)) (owner_cls : option Document)
         (ordered : bool) (role : Role) (target : Document)
         (document_definitions : pydict json) (document_schema : json)
         (reference : pydict json),
    get_document_cls document_cls owner_cls role = Return (Some target) ->
    Document_get_definitions_and_schema target role root ordered None
    = Return (document_definitions, document_schema) ->
    create_ref root (get_definition_id target) = JDict reference ->
    exists object definitions,
      get_schema root (S fuel) (DocumentField b document_cls owner_cls true)
        ordered role = Return (JDict object) /\
      dict_get "definitions" object = Some (JDict definitions) /\
      dict_get (get_definition_id target) definitions = Some document_schema /\
      forall k, k <> "definitions" -> dict_get k object = dict_get k reference.
Proof.
  intros root fuel b document_cls owner_cls ordered role target ddefs dsch
    reference Hcls Hdoc Href.
  unfold get_schema. cbn [get_definitions_and_schema].
  unfold DocumentField_get_definitions_and_schema.
  rewrite Hcls. cbn [bind in_ref_documents]. rewrite Hdoc. cbn [bind].
  rewrite Href.
  pose proof (dict_set_not_empty _ (get_definition_id target) dsch ddefs) as Hne.
  destruct (dict_set (get_definition_id target) dsch ddefs) as [|d definitions]
    eqn:Hset; [congruence|].
  eexists. exists (d :: definitions). split; [reflexivity|].
  split; [apply dict_get_set_same|]. split.
  - rewrite <- Hset. apply dict_get_set_same.
  - intros k Hk. apply dict_get_set_other. now apply String.eqb_neq.
Qed.

(** ** Constructing string fields *)

(** X19. Unlike a [DictField], a [StringField] validates its [pattern]
    when it is constructed, for every value the attribute can take
    whatever the role: no [pattern] means no validation and the
    construction succeeds; a value that does not compile makes the
    construction fail with [ValueError]; when all of them compile the
    field is constructed with its attributes as given. *)
Theorem StringField_validates_pattern_when_constructed :
  forall (maybe_resolve_all_roles : attr string -> list string)
         (_FORMAT : option string) (s : SchemaAttrs) (pattern format : attr string)
         (min_length max_length : attr Z),
    let constructed :=
      StringField_init maybe_resolve_all_roles _FORMAT s pattern format min_length
        max_length in
    let stored :=
      StringField s pattern
        (if truthy_attr_string format then format else Plain _FORMAT)
        min_length max_length in
    (pattern = Plain None -> constructed = Return stored) /\
    (pattern <> Plain None ->
     (exists value,
         In value (maybe_resolve_all_roles pattern) /\ re_compile value <> None) ->
     exists value e,
       In value (maybe_resolve_all_roles pattern) /\ re_compile value = Some e /\
       constructed = Raise (ValueError ("Invalid regular expression: " ++ e)%string)) /\
    ((forall value,
         In value (maybe_resolve_all_roles pattern) -> re_compile value = None) ->
     constructed = Return stored).
Proof.
  intros mrar _FORMAT s pattern format min_length max_length constructed stored.
  unfold constructed, stored, StringField_init.
  split; [|split].
  - intros ->. reflexivity.
  - intros Hpattern Hbad.
    destruct (validate_keys_invalid _ Hbad) as (value & e & Hin & Hre & Hraise).
    exists value, e. repeat split; try assumption.
    destruct pattern as [[p|]|v]; try (now rewrite Hraise).
    now elim Hpattern.
  - intro Hvalid. pose proof (validate_keys_valid _ Hvalid) as Hok.
    destruct pattern as [[p|]|v]; try (now rewrite Hok). reflexivity.
Qed.

(** X20. The [format] of a string field is decided when it is constructed:
    a [format] that is given (a string that is not empty, or any [Var])
    replaces the format of the class for every role, so a [Var] with no
    value under the role leaves the schema without [format], also for an
    [EmailField]; only when no [format] is given does the schema carry the
    format of the class, under every role. *)
Theorem StringField_format_of_the_class :
  forall (maybe_resolve_all_roles : attr string -> list string)
         (_FORMAT : option string) (s : SchemaAttrs) (pattern format : attr string)
         (min_length max_length : attr Z) (self : Field Document)
         (fuel : nat) (role : Role) (scope : Scope) (ordered : bool)
         (ref_documents : option (list Document)),
    StringField_init maybe_resolve_all_roles _FORMAT s pattern format min_length
      max_length = Return self ->
    exists object,
      get_definitions_and_schema (S fuel) self role scope ordered ref_documents
      = Return ([], JDict object) /\
      dict_get "format" object =
        (if truthy_attr_string format
         then option_map JStr (maybe_resolve format role)
         else option_map JStr _FORMAT).
Proof.
  intros mrar _FORMAT s pattern format min_length max_length self fuel role scope
    ordered ref_documents Hinit.
  unfold StringField_init in Hinit.
  match type of Hinit with
  | bind ?m _ = _ => destruct m
  end; cbn [bind] in Hinit; try discriminate.
  inversion Hinit; subst self; clear Hinit.
  cbn [get_definitions_and_schema].
  unfold StringField_get_definitions_and_schema.
  destruct (alter scope (id s)) as [i sc].
  eexists. split; [reflexivity|].
  destruct (truthy_attr_string format).
  - destruct (maybe_resolve format role); cbn [option_map set_if_some];
      [apply dict_get_set_same|].
    unfold truthy_opt_string.
    destruct (maybe_resolve pattern role) as [p|]; [destruct (truthy_string p)|];
      destruct (maybe_resolve min_length role);
      destruct (maybe_resolve max_length role);
      cbn [option_map set_if_some]; lookup_keys;
      try reflexivity; apply base_schema_other_key; reflexivity.
  - change (maybe_resolve (Plain _FORMAT) role) with _FORMAT.
    destruct _FORMAT as [f|]; cbn [option_map set_if_some];
      [apply dict_get_set_same|].
    unfold truthy_opt_string.
    destruct (maybe_resolve pattern role) as [p|]; [destruct (truthy_string p)|];
      destruct (maybe_resolve min_length role);
      destruct (maybe_resolve max_length role);
      cbn [option_map set_if_some]; lookup_keys;
      try reflexivity; apply base_schema_other_key; reflexivity.
Qed.

(** ** The loop over properties *)

(** The names of the properties that are required under [role], in the
    order of the mapping. *)
Definition required_names (properties : pydict (attr (Field Document))) (role : Role)
  : list string :=
  flat_map (fun kv : string * attr (Field Document) =>
              match maybe_resolve_2 (snd kv) role with
              | (Some field, field_role) =>
                  if truthy (maybe_resolve (required_of field) field_role)
                  then [fst kv] else []
              | (None, _) => []
              end) properties.

Lemma process_properties_loop_required (rec : compile_fn) (scope : Scope)
    (ordered : bool) (ref_documents : option (list Document)) (role : Role)
    (properties : pydict (attr (Field Document))) :
  forall definitions0 required0 schema0 definitions required schema,
    _process_properties_loop rec properties scope ordered ref_documents role
      definitions0 required0 schema0 = Return (definitions, required, schema) ->
    required = required0 ++ required_names properties role.
Proof.
  unfold required_names.
  induction properties as [|[prop value] properties IH];
    intros d0 r0 s0 d r s Hloop.
  - cbn in Hloop. inversion Hloop; subst. cbn. now rewrite app_nil_r.
  - cbn [_process_properties_loop flat_map fst snd] in *.
    destruct (maybe_resolve_2 value role) as [[field|] field_role].
    + destruct (rec field field_role scope ordered ref_documents) as [[fd fs]| |];
        cbn [bind] in Hloop; try discriminate.
      apply IH in Hloop. subst r.
      destruct (truthy (maybe_resolve (required_of field) field_role));
        cbn [app]; [now rewrite <- app_assoc|reflexivity].
    + apply IH in Hloop. exact Hloop.
Qed.

(** X21. The [required] list that [_process_properties] returns names the
    required properties in the order of the mapping, each as often as it
    is declared: it is decided by the [required] attributes alone, under
    the roles of the fields, and not by what the fields compile to. *)
Theorem process_properties_required_in_order :
  forall (rec : compile_fn) (properties : pydict (attr (Field Document)))
         (scope : Scope) (ordered : bool) (ref_documents : option (list Document))
         (role : Role) (definitions : pydict json) (required : list string)
         (schema : pydict json),
    _process_properties rec properties scope ordered ref_documents role
    = Return (definitions, required, schema) ->
    required = required_names properties role /\
    (NoDup (dict_keys properties) -> NoDup required).
Proof.
  intros rec properties scope ordered ref_documents role definitions required
    schema Hprocess.
  apply process_properties_loop_required in Hprocess. cbn [app] in Hprocess.
  split; [exact Hprocess|]. subst required. clear.
  unfold required_names, dict_keys.
  induction properties as [|[prop value] properties IH]; intro Hnodup;
    [constructor|].
  cbn [map fst] in Hnodup. inversion Hnodup as [|? ? Hnotin Hnodup']; subst.
  cbn [flat_map fst snd].
  assert (Hsub : forall k,
             In k (flat_map
                     (fun kv : string * attr (Field Document) =>
                        match maybe_resolve_2 (snd kv) role with
                        | (Some field, field_role) =>
                            if truthy (maybe_resolve (required_of field) field_role)
                            then [fst kv] else []
                        | (None, _) => []
                        end) properties) ->
             In k (map fst properties)).
  { intros k Hk. apply in_flat_map in Hk. destruct Hk as ([k' v'] & Hin & Hk).
    cbn [fst snd] in Hk.
    destruct (maybe_resolve_2 v' role) as [[f|] r]; [|destruct Hk].
    destruct (truthy (maybe_resolve (required_of f) r)); [|destruct Hk].
    destruct Hk as [<-|[]]. change k' with (fst (k', v')). now apply in_map. }
  destruct (maybe_resolve_2 value role) as [[field|] field_role];
    [|now apply IH].
  destruct (truthy (maybe_resolve (required_of field) field_role));
    [|now apply IH].
  cbn [app]. constructor; [|now apply IH].
  intro Hin. apply Hnotin. now apply Hsub.
Qed.

(** ** Roles matter through [Var]s only *)

Ltac split_andb :=
  repeat match goal with
         | H : _ && _ = true |- _ => apply andb_prop in H; destruct H
         end.

Lemma plain_resolve_2 {T : Type} (value : attr T) (role : Role) :
  is_plain value = true ->
  maybe_resolve_2 value role = (maybe_resolve value DEFAULT_ROLE, role).
Proof. destruct value; [reflexivity|discriminate]. Qed.

Lemma plain_resolve {T : Type} (value : attr T) (role role' : Role) :
  is_plain value = true -> maybe_resolve value role = maybe_resolve value role'.
Proof. destruct value; [reflexivity|discriminate]. Qed.

Lemma common_fields_plain (s : SchemaAttrs) (schema : pydict json) (id : string)
    (role role' : Role) :
  plain_attrs s = true ->
  _update_schema_with_common_fields s schema id role
  = _update_schema_with_common_fields s schema id role'.
Proof.
  unfold plain_attrs. intro H. split_andb.
  unfold _update_schema_with_common_fields, get_enum, get_default.
  rewrite (plain_resolve (title s) role role') by assumption.
  rewrite (plain_resolve (description s) role role') by assumption.
  rewrite (plain_resolve (_enum s) role role') by assumption.
  rewrite (plain_resolve (_default s) role role') by assumption.
  reflexivity.
Qed.

Lemma var_free_required (self : Field Document) :
  var_free self = true -> is_plain (required_of self) = true.
Proof.
  destruct self; cbn [var_free]; intro H; try discriminate;
    unfold plain_attrs in H; split_andb; assumption.
Qed.

(** [rec] gives the same for every role on fields without [Var]s. *)
Definition same_for_every_role (rec : compile_fn) : Prop :=
  forall field role role' scope ordered ref_documents,
    var_free field = true ->
    rec field role scope ordered ref_documents
    = rec field role' scope ordered ref_documents.

Lemma ArrayField_items_loop_plain (rec : compile_fn) (role role' : Role)
    (scope : Scope) (ordered : bool) (ref_documents : option (list Document))
    (items : list (attr (Field Document))) :
  same_for_every_role rec -> forallb (plain_and (@var_free Document)) items = true ->
  forall nested_definitions nested_schema,
    ArrayField_items_loop rec items role scope ordered ref_documents
      nested_definitions nested_schema
    = ArrayField_items_loop rec items role' scope ordered ref_documents
        nested_definitions nested_schema.
Proof.
  intro Hrec. induction items as [|item items IH]; intros Hall nd ns;
    [reflexivity|].
  cbn [forallb] in Hall. split_andb. cbn [ArrayField_items_loop].
  destruct item as [[f|]|v]; try discriminate; cbn [maybe_resolve_2 plain_and] in *;
    [|reflexivity].
  rewrite (Hrec f role role') by assumption.
  destruct (rec f role' scope ordered ref_documents) as [[d sch]| |]; cbn [bind];
    try reflexivity.
  now apply IH.
Qed.

Lemma process_properties_loop_plain (rec : compile_fn) (role role' : Role)
    (scope : Scope) (ordered : bool) (ref_documents : option (list Document))
    (properties : pydict (attr (Field Document))) :
  same_for_every_role rec ->
  forallb (fun kv : string * attr (Field Document) =>
             plain_and (@var_free Document) (snd kv)) properties = true ->
  forall nested_definitions required schema,
    _process_properties_loop rec properties scope ordered ref_documents role
      nested_definitions required schema
    = _process_properties_loop rec properties scope ordered ref_documents role'
        nested_definitions required schema.
Proof.
  intro Hrec. induction properties as [|[prop value] properties IH];
    intros Hall nd req sch; [reflexivity|].
  cbn [forallb snd] in Hall. split_andb. cbn [_process_properties_loop].
  destruct value as [[f|]|v]; try discriminate; cbn [maybe_resolve_2 plain_and] in *;
    [|now apply IH].
  rewrite (Hrec f role role') by assumption.
  destruct (rec f role' scope ordered ref_documents) as [[d s]| |]; cbn [bind];
    try reflexivity.
  rewrite (plain_resolve (required_of f) role role')
    by now apply var_free_required.
  now apply IH.
Qed.

Lemma BaseOfField_loop_plain (rec : compile_fn) (role role' : Role)
    (scope : Scope) (ordered : bool) (ref_documents : option (list Document))
    (fields : list (attr (Field Document))) :
  same_for_every_role rec -> forallb (plain_and (@var_free Document)) fields = true ->
  forall nested_definitions one_of,
    BaseOfField_loop rec fields role scope ordered ref_documents
      nested_definitions one_of
    = BaseOfField_loop rec fields role' scope ordered ref_documents
        nested_definitions one_of.
Proof.
  intro Hrec. induction fields as [|field fields IH]; intros Hall nd one_of;
    [reflexivity|].
  cbn [forallb] in Hall. split_andb. cbn [BaseOfField_loop].
  destruct field as [[f|]|v]; try discriminate; cbn [maybe_resolve_2 plain_and] in *;
    [|now apply IH].
  rewrite (Hrec f role role') by assumption.
  destruct (rec f role' scope ordered ref_documents) as [[d s]| |]; cbn [bind];
    try reflexivity.
  now apply IH.
Qed.

Ltac plain_attr a :=
  destruct a as [?|?]; [|discriminate].

(** X22. Roles matter through [Var]s only: a field tree in which no
    attribute is a [Var] (and which holds no [DocumentField]) compiles to
    the same definitions and schema, or fails in the same way, under
    every role. *)
Theorem schema_without_vars_is_the_same_for_every_role :
  forall (fuel : nat) (self : Field Document) (role role' : Role) (scope : Scope)
         (ordered : bool) (ref_documents : option (list Document)),
    var_free self = true ->
    get_definitions_and_schema fuel self role scope ordered ref_documents
    = get_definitions_and_schema fuel self role' scope ordered ref_documents.
Proof.
  induction fuel as [|fuel IH]; [reflexivity|].
  assert (Hrec : same_for_every_role (get_definitions_and_schema fuel)).
  { intros field role role' scope ordered ref_documents Hfree. now apply IH. }
  intros self role role' scope ordered ref_documents Hfree.
  destruct self as [s|s p f mn mx|s t a b c d e|s items mn mx u additional
                   |s properties patterns additional mn mx|s k fields|s f
                   |b c o r]; cbn [var_free] in Hfree; try discriminate;
    split_andb; cbn [get_definitions_and_schema].
  - unfold BooleanField_get_definitions_and_schema.
    destruct (alter scope (id s)).
    now rewrite (common_fields_plain s _ _ role role').
  - unfold StringField_get_definitions_and_schema.
    destruct (alter scope (id s)).
    rewrite (common_fields_plain s _ _ role role') by assumption.
    rewrite (plain_resolve p role role'), (plain_resolve f role role'),
      (plain_resolve mn role role'), (plain_resolve mx role role') by assumption.
    reflexivity.
  - unfold NumberField_get_definitions_and_schema.
    destruct (alter scope (id s)).
    rewrite (common_fields_plain s _ _ role role') by assumption.
    rewrite (plain_resolve a role role'), (plain_resolve b role role'),
      (plain_resolve c role role'), (plain_resolve d role role'),
      (plain_resolve e role role') by assumption.
    reflexivity.
  - unfold ArrayField_get_definitions_and_schema.
    destruct (alter scope (id s)) as [i sc].
    rewrite (common_fields_plain s _ _ role role') by assumption.
    rewrite (plain_resolve mn role role'), (plain_resolve mx role role'),
      (plain_resolve u role role') by assumption.
    destruct additional as [[[bb|g]|]|v]; try discriminate;
      destruct items as [[[item|l]|]|v]; try discriminate;
      cbn [maybe_resolve_2 plain_and iter_items bind] in *;
      try rewrite (Hrec item role role') by assumption;
      try rewrite (ArrayField_items_loop_plain _ role role') by assumption;
      try rewrite (Hrec g role role') by assumption;
      reflexivity.
  - unfold DictField_get_definitions_and_schema, _process_properties.
    destruct (alter scope (id s)) as [i sc].
    rewrite (common_fields_plain s _ _ role role') by assumption.
    rewrite (plain_resolve mn role role'), (plain_resolve mx role role')
      by assumption.
    assert (Hloop : forall props r r',
               forallb (fun kv : string * attr (Field Document) =>
                          plain_and (@var_free Document) (snd kv)) props = true ->
               _process_properties_loop (get_definitions_and_schema fuel) props sc
                 ordered ref_documents r [] [] []
               = _process_properties_loop (get_definitions_and_schema fuel) props sc
                   ordered ref_documents r' [] [] []).
    { intros props r r' Hall. now apply process_properties_loop_plain. }
    destruct properties as [[props|]|v]; try discriminate;
      destruct patterns as [[pats|]|v]; try discriminate;
      destruct additional as [[[bb|g]|]|v]; try discriminate;
      cbn [maybe_resolve_2 plain_and bind] in *;
      try rewrite (Hloop props role role') by assumption;
      try rewrite (Hloop pats role role') by assumption;
      try rewrite (Hrec g role role') by assumption;
      reflexivity.
  - unfold BaseOfField_get_definitions_and_schema.
    destruct (alter scope (id s)) as [i sc].
    destruct fields as [[fs|]|v]; try discriminate;
      cbn [maybe_resolve_2 plain_and] in *; [|reflexivity].
    now rewrite (BaseOfField_loop_plain _ role role').
  - unfold NotField_get_definitions_and_schema.
    destruct (alter scope (id s)) as [i sc].
    destruct f as [[g|]|v]; try discriminate;
      cbn [maybe_resolve_2 plain_and] in *.
    + rewrite (Hrec g role role') by assumption.
      destruct (get_definitions_and_schema fuel g role' sc ordered ref_documents)
        as [[d sch]| |]; cbn [bind]; try reflexivity.
      now rewrite (common_fields_plain s _ _ role role').
    + cbn [bind]. now rewrite (common_fields_plain s _ _ role role').
Qed.

(** ** Definitions come from document fields *)

Lemma attr_all_resolved {T : Type} (p : T -> bool) (value : attr T) (role : Role)
    (x : T) (x_role : Role) :
  attr_all p value = true -> maybe_resolve_2 value role = (Some x, x_role) ->
  p x = true.
Proof.
  destruct value as [v|v]; cbn [attr_all maybe_resolve_2].
  - intros H Heq. inversion Heq; subst. exact H.
  - unfold resolve_2. intros H Heq. inversion Heq as [[Hfirst Hrole]]. clear Heq Hrole.
    induction (values v) as [|[m y] vs IH]; [discriminate|].
    cbn [forallb snd first_match] in *. apply andb_prop in H. destruct H as [Hy Hvs].
    destruct (matches m role); [subst y; exact Hy|now apply IH].
Qed.

(** [rec] is blind to [ref_documents] and returns no definitions, on
    fields without document fields. *)
Definition without_definitions (rec : compile_fn) : Prop :=
  forall field role scope ordered ref_documents ref_documents',
    document_free field = true ->
    rec field role scope ordered ref_documents
    = rec field role scope ordered ref_documents' /\
    forall definitions schema,
      rec field role scope ordered ref_documents = Return (definitions, schema) ->
      definitions = [].

Lemma ArrayField_items_loop_without_definitions (rec : compile_fn) (role : Role)
    (scope : Scope) (ordered : bool)
    (ref_documents ref_documents' : option (list Document))
    (items : list (attr (Field Document))) :
  without_definitions rec ->
  forallb (attr_all (@document_free Document)) items = true ->
  forall nested_definitions nested_schema,
    ArrayField_items_loop rec items role scope ordered ref_documents
      nested_definitions nested_schema
    = ArrayField_items_loop rec items role scope ordered ref_documents'
        nested_definitions nested_schema /\
    forall definitions schemas,
      ArrayField_items_loop rec items role scope ordered ref_documents
        nested_definitions nested_schema = Return (definitions, schemas) ->
      definitions = nested_definitions.
Proof.
  intro Hrec. induction items as [|item items IH]; intros Hall nd ns.
  - cbn. split; [reflexivity|]. intros d s H. now inversion H.
  - cbn [forallb] in Hall. apply andb_prop in Hall. destruct Hall as [Hitem Hall].
    cbn [ArrayField_items_loop].
    destruct (maybe_resolve_2 item role) as [[f|] r] eqn:Hres;
      [|split; [reflexivity|discriminate]].
    pose proof (attr_all_resolved _ item role f r Hitem Hres) as Hfree.
    destruct (Hrec f r scope ordered ref_documents ref_documents' Hfree)
      as [Hsame Hnone].
    rewrite <- Hsame.
    destruct (rec f r scope ordered ref_documents) as [[d sch]| |]; cbn [bind];
      try (split; [reflexivity|discriminate]).
    rewrite (Hnone d sch eq_refl). cbn [dict_update fold_left].
    now apply IH.
Qed.

Lemma process_properties_loop_without_definitions (rec : compile_fn) (role : Role)
    (scope : Scope) (ordered : bool)
    (ref_documents ref_documents' : option (list Document))
    (properties : pydict (attr (Field Document))) :
  without_definitions rec ->
  forallb (fun kv : string * attr (Field Document) =>
             attr_all (@document_free Document) (snd kv)) properties = true ->
  forall nested_definitions required schema,
    _process_properties_loop rec properties scope ordered ref_documents role
      nested_definitions required schema
    = _process_properties_loop rec properties scope ordered ref_documents' role
        nested_definitions required schema /\
    forall definitions required' schema',
      _process_properties_loop rec properties scope ordered ref_documents role
        nested_definitions required schema
      = Return (definitions, required', schema') ->
      definitions = nested_definitions.
Proof.
  intro Hrec. induction properties as [|[prop value] properties IH];
    intros Hall nd req sch.
  - cbn. split; [reflexivity|]. intros d r s H. now inversion H.
  - cbn [forallb snd] in Hall. apply andb_prop in Hall.
    destruct Hall as [Hvalue Hall]. cbn [_process_properties_loop].
    destruct (maybe_resolve_2 value role) as [[f|] r] eqn:Hres; [|now apply IH].
    pose proof (attr_all_resolved _ value role f r Hvalue Hres) as Hfree.
    destruct (Hrec f r scope ordered ref_documents ref_documents' Hfree)
      as [Hsame Hnone].
    rewrite <- Hsame.
    destruct (rec f r scope ordered ref_documents) as [[d s]| |]; cbn [bind];
      try (split; [reflexivity|discriminate]).
    rewrite (Hnone d s eq_refl). cbn [dict_update fold_left].
    now apply IH.
Qed.

Lemma BaseOfField_loop_without_definitions (rec : compile_fn) (fields_role : Role)
    (scope : Scope) (ordered : bool)
    (ref_documents ref_documents' : option (list Document))
    (fields : list (attr (Field Document))) :
  without_definitions rec ->
  forallb (attr_all (@document_free Document)) fields = true ->
  forall nested_definitions one_of,
    BaseOfField_loop rec fields fields_role scope ordered ref_documents
      nested_definitions one_of
    = BaseOfField_loop rec fields fields_role scope ordered ref_documents'
        nested_definitions one_of /\
    forall definitions schemas,
      BaseOfField_loop rec fields fields_role scope ordered ref_documents
        nested_definitions one_of = Return (definitions, schemas) ->
      definitions = nested_definitions.
Proof.
  intro Hrec. induction fields as [|field fields IH]; intros Hall nd one_of.
  - cbn. split; [reflexivity|]. intros d s H. now inversion H.
  - cbn [forallb] in Hall. apply andb_prop in Hall. destruct Hall as [Hfield Hall].
    cbn [BaseOfField_loop].
    destruct (maybe_resolve_2 field fields_role) as [[f|] r] eqn:Hres;
      [|now apply IH].
    pose proof (attr_all_resolved _ field fields_role f r Hfield Hres) as Hfree.
    destruct (Hrec f r scope ordered ref_documents ref_documents' Hfree)
      as [Hsame Hnone].
    rewrite <- Hsame.
    destruct (rec f r scope ordered ref_documents) as [[d s]| |]; cbn [bind];
      try (split; [reflexivity|discriminate]).
    rewrite (Hnone d s eq_refl). cbn [dict_update fold_left].
    now apply IH.
Qed.

Ltac resolved_child :=
  match goal with
  | Hall : attr_all ?p ?a = true |- context [maybe_resolve_2 ?a ?r] =>
      let Hres := fresh "Hres" in
      let x := fresh "x" in
      let xr := fresh "r" in
      destruct (maybe_resolve_2 a r) as [[x|] xr] eqn:Hres;
      [pose proof (attr_all_resolved _ a r x xr Hall Hres)|];
      clear Hall
  end.

Ltac no_definitions :=
  split; [reflexivity|];
  let d := fresh "d" in
  let s := fresh "s" in
  let H := fresh "H" in
  intros d s H; try discriminate; inversion H; reflexivity.

Ltac properties_stage Hrec refs refs' :=
  match goal with
  | Hall : forallb _ ?props = true
    |- context [_process_properties_loop ?rec ?props ?sc ?o refs' ?r [] [] []] =>
      let Hsame := fresh "Hsame" in
      let Hnone := fresh "Hnone" in
      destruct (process_properties_loop_without_definitions rec r sc o refs refs'
                  props Hrec Hall [] [] []) as [Hsame Hnone];
      rewrite <- Hsame; clear Hsame;
      destruct (_process_properties_loop rec props sc o refs r [] [] [])
        as [[[? ?] ?]| |];
      [rewrite (Hnone _ _ _ eq_refl)|..]; clear Hnone;
      cbn [bind dict_update fold_left]
  end.

Ltac child_stage Hrec refs refs' :=
  match goal with
  | Hfree : document_free ?f = true
    |- context [get_definitions_and_schema ?fuel ?f ?r ?sc ?o refs'] =>
      let Hsame := fresh "Hsame" in
      let Hnone := fresh "Hnone" in
      destruct (Hrec f r sc o refs refs' Hfree) as [Hsame Hnone];
      rewrite <- Hsame; clear Hsame;
      destruct (get_definitions_and_schema fuel f r sc o refs) as [[? ?]| |];
      [rewrite (Hnone _ _ eq_refl)|..]; clear Hnone;
      cbn [bind dict_update fold_left]
  end.

(** X23. Definitions come from document fields only: a field tree that
    holds no [DocumentField], whatever the roles select, compiles without
    looking at [ref_documents], and what it returns has no definitions. *)
Theorem definitions_come_from_document_fields :
  forall (fuel : nat) (self : Field Document) (role : Role) (scope : Scope)
         (ordered : bool) (ref_documents ref_documents' : option (list Document)),
    document_free self = true ->
    get_definitions_and_schema fuel self role scope ordered ref_documents
    = get_definitions_and_schema fuel self role scope ordered ref_documents' /\
    forall definitions schema,
      get_definitions_and_schema fuel self role scope ordered ref_documents
      = Return (definitions, schema) ->
      definitions = [].
Proof.
  induction fuel as [|fuel IH]; [intros; split; [reflexivity|discriminate]|].
  assert (Hrec : without_definitions (get_definitions_and_schema fuel)).
  { intros field role scope ordered refs refs' Hfree. now apply IH. }
  intros self role scope ordered refs refs' Hfree.
  destruct self as [s|s p f mn mx|s t a b c d e|s items mn mx u additional
                   |s properties patterns additional mn mx|s k fields|s f
                   |b c o r]; cbn [document_free] in Hfree; try discriminate;
    split_andb; cbn [get_definitions_and_schema].
  - unfold BooleanField_get_definitions_and_schema.
    destruct (alter scope (id s)). no_definitions.
  - unfold StringField_get_definitions_and_schema.
    destruct (alter scope (id s)). no_definitions.
  - unfold NumberField_get_definitions_and_schema.
    destruct (alter scope (id s)). no_definitions.
  - unfold ArrayField_get_definitions_and_schema.
    destruct (alter scope (id s)) as [i sc].
    assert (Htail : forall nd schema,
               nd = [] ->
               let tail (refs : option (list Document)) :=
                 (let '(additional_items, additional_items_role) :=
                    maybe_resolve_2 additional role in
                  '(nested_definitions, schema) <-
                    match additional_items with
                    | Some (IsBool b) =>
                        Return (nd, dict_set "additionalItems" (JBool b) schema)
                    | Some (IsField additional_items) =>
                        '(items_definitions, items_schema) <-
                          get_definitions_and_schema fuel additional_items
                            additional_items_role sc ordered refs ;;
                        let schema := dict_set "additionalItems" items_schema schema in
                        Return (dict_update nd items_definitions, schema)
                    | None => Return (nd, schema)
                    end ;;
                  let min_items := maybe_resolve mn role in
                  let schema :=
                    set_if_some "minItems" (option_map JNum min_items) schema in
                  let max_items := maybe_resolve mx role in
                  let schema :=
                    set_if_some "maxItems" (option_map JNum max_items) schema in
                  let unique_items := maybe_resolve u role in
                  let schema :=
                    if truthy unique_items
                    then dict_set "uniqueItems" (JBool true) schema
                    else schema in
                  Return (nested_definitions, JDict schema)) in
               tail refs = tail refs' /\
               forall definitions schema',
                 tail refs = Return (definitions, schema') -> definitions = []).
    { intros nd schema -> tail. subst tail. cbv beta.
      resolved_child; cbn [bind]; [|no_definitions].
      destruct x as [bb|g]; cbn [bool_or_all bind] in *; [no_definitions|].
      destruct (Hrec g r sc ordered refs refs' H1) as [Hsame Hnone].
      rewrite <- Hsame.
      destruct (get_definitions_and_schema fuel g r sc ordered refs)
        as [[nd sch]| |]; cbn [bind];
        [rewrite (Hnone nd sch eq_refl)|..]; no_definitions. }
    cbv zeta in Htail.
    destruct (maybe_resolve_2 items role) as [[its|] ir] eqn:Hres; cbn [bind];
      [|now apply Htail].
    pose proof (attr_all_resolved _ items role its ir H Hres) as Hits.
    destruct its as [item|l]; cbn [items_all] in Hits.
    + destruct (Hrec item ir sc ordered refs refs' Hits) as [Hsame Hnone].
      rewrite <- Hsame.
      destruct (get_definitions_and_schema fuel item ir sc ordered refs)
        as [[nd sch]| |]; cbn [bind]; try no_definitions.
      apply Htail. exact (Hnone nd sch eq_refl).
    + destruct (iter_items items) as [l'| |] eqn:Hiter; cbn [bind];
        try no_definitions.
      assert (Hl' : forallb (attr_all (@document_free Document)) l' = true).
      { destruct items as [[[?|?]|]|?]; try discriminate.
        inversion Hiter; subst. exact H. }
      destruct (ArrayField_items_loop_without_definitions
                  (get_definitions_and_schema fuel) role sc ordered refs refs' l'
                  Hrec Hl' [] []) as [Hsame Hnone].
      rewrite <- Hsame.
      destruct (ArrayField_items_loop (get_definitions_and_schema fuel) l' role sc
                  ordered refs [] []) as [[nd schs]| |]; cbn [bind];
        try no_definitions.
      apply Htail. exact (Hnone nd schs eq_refl).
  - unfold DictField_get_definitions_and_schema, _process_properties.
    destruct (alter scope (id s)) as [i sc].
    repeat resolved_child;
      repeat match goal with
             | x : BoolOr (Field Document) |- _ =>
                 destruct x; cbn [bool_or_all] in *
             end;
      cbn [bind dict_update fold_left];
      try (properties_stage Hrec refs refs'; try no_definitions);
      try (destruct (validate_keys _) as [[]| |]; cbn [bind]; try no_definitions);
      try (properties_stage Hrec refs refs'; try no_definitions);
      try (child_stage Hrec refs refs'; try no_definitions);
      no_definitions.
  - unfold BaseOfField_get_definitions_and_schema.
    destruct (alter scope (id s)) as [i sc].
    resolved_child; cbn [bind]; [|no_definitions].
    destruct (BaseOfField_loop_without_definitions (get_definitions_and_schema fuel)
                r sc ordered refs refs' x Hrec H [] []) as [Hsame Hnone].
    rewrite <- Hsame.
    destruct (BaseOfField_loop (get_definitions_and_schema fuel) x r sc ordered refs
                [] []) as [[nd one_of]| |]; cbn [bind];
      [rewrite (Hnone nd one_of eq_refl)|..]; no_definitions.
  - unfold NotField_get_definitions_and_schema.
    destruct (alter scope (id s)) as [i sc].
    resolved_child; cbn [bind]; [|no_definitions].
    destruct (Hrec x r sc ordered refs refs' H) as [Hsame Hnone].
    rewrite <- Hsame.
    destruct (get_definitions_and_schema fuel x r sc ordered refs)
      as [[nd sch]| |]; cbn [bind];
      [rewrite (Hnone nd sch eq_refl)|..]; no_definitions.
Qed.

(** ** Walking a tree without document fields *)

Lemma attr_all_maybe_resolve {T : Type} (p : T -> bool) (value : attr T)
    (role : Role) :
  attr_all p value = true -> option_all p (maybe_resolve value role) = true.
Proof.
  intro H. unfold maybe_resolve.
  destruct (maybe_resolve_2 value role) as [[x|] r] eqn:Hres; [|reflexivity].
  exact (attr_all_resolved p value role x r H Hres).
Qed.

Lemma resolved_items_all {T : Type} (p : T -> bool) (items : list (attr T))
    (role : Role) :
  forallb (attr_all p) items = true ->
  forallb (attr_all p) (map (fun item => Plain (maybe_resolve item role)) items)
  = true.
Proof.
  induction items as [|item items IH]; [reflexivity|].
  cbn [forallb map attr_all]. intro H. apply andb_prop in H. destruct H as [H1 H2].
  now rewrite (attr_all_maybe_resolve p item role H1), IH.
Qed.

Lemma iter_fields_document_free (self : Field Document) (role : Role)
    (fields : list (attr (Field Document))) :
  document_free self = true -> iter_fields self role = Return fields ->
  forallb (attr_all (@document_free Document)) fields = true.
Proof.
  destruct self as [s|s p f mn mx|s t a b c d e|s items mn mx u additional
                   |s properties patterns additional mn mx|s k fields'|s f
                   |b c o r]; cbn [document_free iter_fields]; intros Hfree Hiter;
    try discriminate; split_andb;
    try (inversion Hiter; reflexivity).
  - pose proof (attr_all_maybe_resolve _ additional role H0) as Hadd.
    assert (Hfrom_additional :
              forallb (attr_all (@document_free Document))
                match maybe_resolve additional role with
                | Some (IsField additional_items) => [Plain (Some additional_items)]
                | _ => []
                end = true).
    { destruct (maybe_resolve additional role) as [[?|?]|]; cbn in *;
        now rewrite ?Hadd. }
    destruct (maybe_resolve_2 items role) as [[its|] ir] eqn:Hres;
      [pose proof (attr_all_resolved _ items role its ir H Hres) as Hits|];
      cbv beta iota zeta in Hiter; inversion Hiter; subst; clear Hiter;
      [|exact Hfrom_additional].
    rewrite forallb_app, Hfrom_additional, andb_true_r.
    destruct its as [item|l]; cbn [items_all] in Hits; [cbn; now rewrite Hits|].
    now apply resolved_items_all.
  - pose proof (attr_all_maybe_resolve _ additional role H0) as Hadd.
    assert (Hpresent : forall props r,
               forallb (fun kv : string * attr (Field Document) =>
                          attr_all (@document_free Document) (snd kv)) props = true ->
               forallb (attr_all (@document_free Document))
                 (flat_map (fun kv : string * attr (Field Document) =>
                              match maybe_resolve (snd kv) r with
                              | Some field => [Plain (Some field)]
                              | None => []
                              end) props) = true).
    { intros props r. induction props as [|[key value] props IH]; [reflexivity|].
      cbn [forallb flat_map snd]. intro Hall. split_andb.
      rewrite forallb_app. apply andb_true_intro. split; [|now apply IH].
      pose proof (attr_all_maybe_resolve _ value r H2) as Hvalue.
      destruct (maybe_resolve value r); cbn in *; [now rewrite Hvalue|reflexivity]. }
    assert (Hfrom_additional :
              forallb (attr_all (@document_free Document))
                match maybe_resolve additional role with
                | Some (IsField additional_properties) =>
                    [Plain (Some additional_properties)]
                | _ => []
                end = true).
    { destruct (maybe_resolve additional role) as [[?|?]|]; cbn in *;
        now rewrite ?Hadd. }
    destruct (maybe_resolve_2 properties role) as [[props|] pr] eqn:Hprops;
      [pose proof (attr_all_resolved _ properties role props pr H Hprops)|];
      (destruct (maybe_resolve_2 patterns role) as [[pats|] ptr] eqn:Hpats;
       [pose proof (attr_all_resolved _ patterns role pats ptr H1 Hpats)|]);
      cbv beta iota zeta in Hiter; inversion Hiter; subst; clear Hiter;
      rewrite ?forallb_app, ?Hfrom_additional, ?Hpresent by assumption;
      reflexivity.
  - destruct (maybe_resolve_2 fields' role) as [[fs|] fr] eqn:Hres;
      [|discriminate].
    pose proof (attr_all_resolved _ fields' role fs fr Hfree Hres) as Hfs.
    cbv beta iota zeta in Hiter. inversion Hiter; subst; clear Hiter.
    now apply resolved_items_all.
Qed.

(** [rec] ignores [through_document_fields] and [visited_documents], and
    yields no document field, on fields without document fields. *)
Definition walks_without_documents (rec : walk_fn) : Prop :=
  forall field role through through' visited visited',
    document_free field = true ->
    rec field role through visited = rec field role through' visited' /\
    forall yielded,
      rec field role through visited = Return yielded ->
      forallb (@document_free Document) yielded = true.

Lemma walk_loop_without_documents (rec : walk_fn) (role : Role)
    (through through' : bool) (visited visited' : list Document)
    (fields : list (attr (Field Document))) :
  walks_without_documents rec ->
  forallb (attr_all (@document_free Document)) fields = true ->
  walk_loop rec fields role through visited
  = walk_loop rec fields role through' visited' /\
  forall yielded,
    walk_loop rec fields role through visited = Return yielded ->
    forallb (@document_free Document) yielded = true.
Proof.
  intro Hrec. induction fields as [|field fields IH]; intro Hall.
  - cbn. split; [reflexivity|]. intros y H. now inversion H.
  - cbn [forallb] in Hall. split_andb. cbn [walk_loop].
    destruct (IH H0) as [Hsame Hfree]. clear IH.
    destruct (maybe_resolve_2 field role) as [[f|] r] eqn:Hres;
      [|split; assumption].
    pose proof (attr_all_resolved _ field role f r H Hres) as Hf.
    destruct (Hrec f r through through' visited visited' Hf) as [Hsame' Hfree'].
    rewrite <- Hsame', <- Hsame.
    split; [reflexivity|].
    destruct (rec f r through visited) as [y| |]; cbn [bind]; try discriminate.
    destruct (walk_loop rec fields role through visited) as [ys| |]; cbn [bind];
      try discriminate.
    intros yielded Hret. inversion Hret; subst.
    rewrite forallb_app, (Hfree' y eq_refl), (Hfree ys eq_refl). reflexivity.
Qed.

(** X24. [through_document_fields] and [visited_documents] matter through
    document fields only: a field tree that holds no [DocumentField] is
    walked in the same way whatever they are, and the walk yields no
    [DocumentField]. *)
Theorem walk_without_document_fields :
  forall (fuel : nat) (self : Field Document) (role : Role)
         (through through' : bool) (visited visited' : list Document),
    document_free self = true ->
    walk fuel self role through visited = walk fuel self role through' visited' /\
    forall yielded,
      walk fuel self role through visited = Return yielded ->
      forallb (@document_free Document) yielded = true.
Proof.
  induction fuel as [|fuel IH]; [intros; split; [reflexivity|discriminate]|].
  assert (Hrec : walks_without_documents (walk fuel)).
  { intros field role through through' visited visited' Hfree. now apply IH. }
  intros self role through through' visited visited' Hfree.
  assert (Hbase : BaseField_walk (walk fuel) self role through visited
                  = BaseField_walk (walk fuel) self role through' visited' /\
                  forall yielded,
                    BaseField_walk (walk fuel) self role through visited
                    = Return yielded ->
                    forallb (@document_free Document) yielded = true).
  { unfold BaseField_walk.
    destruct (iter_fields self role) as [fields| |] eqn:Hiter; cbn [bind];
      try (split; [reflexivity|discriminate]).
    pose proof (iter_fields_document_free self role fields Hfree Hiter) as Hall.
    destruct (walk_loop_without_documents (walk fuel) role through through'
                visited visited' fields Hrec Hall) as [Hsame Hnone].
    rewrite <- Hsame. split; [reflexivity|].
    destruct (walk_loop (walk fuel) fields role through visited) as [ys| |];
      cbn [bind]; try discriminate.
    intros yielded Hret. inversion Hret; subst.
    cbn [forallb]. now rewrite Hfree, (Hnone ys eq_refl). }
  destruct self; cbn [document_free] in Hfree; try discriminate;
    cbn [walk]; exact Hbase.
Qed.

(** ** Roles to pass down, in compiling and in walking *)

(** The role for descending into the value of a [Var] whose roles to pass
    down are [passed], when the [Var] is resolved under [role]: the second
    component of [resolve_2]. *)
Definition descent_role (passed : list Role) (role : Role) : Role :=
  if role_in role passed then role else DEFAULT_ROLE.

Lemma resolve_2_descent {T : Type} (v : Var T) (passed : list Role) (role : Role) :
  roles_to_pass_down v = Some passed ->
  maybe_resolve_2 (IsVar v) role = (resolve v role, descent_role passed role).
Proof.
  intro Hpassed. cbn [maybe_resolve_2]. unfold resolve, resolve_2, descent_role.
  now rewrite Hpassed.
Qed.

(** [field] compiles under [role] to [schema]. *)
Definition compiled_under (rec : compile_fn) (scope : Scope) (ordered : bool)
    (ref_documents : option (list Document)) (field : Field Document)
    (role : Role) (schema : json) : Prop :=
  exists definitions,
    rec field role scope ordered ref_documents = Return (definitions, schema).

(** [schemas] holds, for every entry of [entries] whose value is present
    under [role], the schema the value compiles to under the role that
    comes with it, and nothing for an entry whose value is absent. *)
Definition entries_compiled_under (rec : compile_fn) (scope : Scope)
    (ordered : bool) (ref_documents : option (list Document))
    (entries : pydict (attr (Field Document))) (role : Role)
    (schemas : pydict json) : Prop :=
  forall prop value,
    In (prop, value) entries ->
    match maybe_resolve_2 value role with
    | (Some field, field_role) =>
        exists schema,
          compiled_under rec scope ordered ref_documents field field_role schema /\
          dict_get prop schemas = Some schema
    | (None, _) => dict_get prop schemas = None
    end.

Lemma process_properties_loop_keeps (rec : compile_fn) (scope : Scope)
    (ordered : bool) (ref_documents : option (list Document)) (role : Role)
    (properties : pydict (attr (Field Document))) (k : string) :
  ~ In k (dict_keys properties) ->
  forall definitions0 required0 schema0 definitions required schema,
    _process_properties_loop rec properties scope ordered ref_documents role
      definitions0 required0 schema0 = Return (definitions, required, schema) ->
    dict_get k schema = dict_get k schema0.
Proof.
  induction properties as [|[p value] properties IH]; intros Hk d0 r0 s0 d r s Hloop.
  - cbn in Hloop. now inversion Hloop.
  - cbn [dict_keys map fst] in Hk. cbn [_process_properties_loop] in Hloop.
    assert (Hp : String.eqb k p = false).
    { apply String.eqb_neq. intro Heq. apply Hk. now left. }
    assert (Hrest : ~ In k (dict_keys properties)).
    { intro Hin. apply Hk. now right. }
    destruct (maybe_resolve_2 value role) as [[field|] field_role].
    + destruct (rec field field_role scope ordered ref_documents) as [[fd fs]| |];
        cbn [bind] in Hloop; try discriminate.
      rewrite (IH Hrest _ _ _ _ _ _ Hloop). now apply dict_get_set_other.
    + exact (IH Hrest _ _ _ _ _ _ Hloop).
Qed.

Lemma process_properties_loop_entries (rec : compile_fn) (scope : Scope)
    (ordered : bool) (ref_documents : option (list Document)) (role : Role)
    (properties : pydict (attr (Field Document))) :
  NoDup (dict_keys properties) ->
  forall definitions0 required0 schema0 definitions required schema,
    _process_properties_loop rec properties scope ordered ref_documents role
      definitions0 required0 schema0 = Return (definitions, required, schema) ->
    forall prop value,
      In (prop, value) properties ->
      match maybe_resolve_2 value role with
      | (Some field, field_role) =>
          exists field_schema,
            compiled_under rec scope ordered ref_documents field field_role
              field_schema /\
            dict_get prop schema = Some field_schema
      | (None, _) => dict_get prop schema = dict_get prop schema0
      end.
Proof.
  induction properties as [|[p v] properties IH];
    intros Hnodup d0 r0 s0 d r s Hloop prop value Hin; [destruct Hin|].
  cbn [dict_keys map fst] in Hnodup.
  inversion Hnodup as [|? ? Hfresh Hnodup']; subst.
  cbn [_process_properties_loop] in Hloop.
  destruct Hin as [Heq|Hin].
  - inversion Heq; subst p v. clear Heq.
    destruct (maybe_resolve_2 value role) as [[field|] field_role].
    + destruct (rec field field_role scope ordered ref_documents) as [[fd fs]| |]
        eqn:Hrec; cbn [bind] in Hloop; try discriminate.
      exists fs. split; [now exists fd|].
      rewrite (process_properties_loop_keeps rec scope ordered ref_documents role
                 properties prop Hfresh _ _ _ _ _ _ Hloop).
      apply dict_get_set_same.
    + exact (process_properties_loop_keeps rec scope ordered ref_documents role
               properties prop Hfresh _ _ _ _ _ _ Hloop).
  - assert (Hp : String.eqb prop p = false).
    { apply String.eqb_neq. intro Heq. subst p. apply Hfresh.
      change prop with (fst (prop, value)). now apply in_map. }
    destruct (maybe_resolve_2 v role) as [[field|] field_role].
    + destruct (rec field field_role scope ordered ref_documents) as [[fd fs]| |];
        cbn [bind] in Hloop; try discriminate.
      pose proof (IH Hnodup' _ _ _ _ _ _ Hloop prop value Hin) as Hentry.
      destruct (maybe_resolve_2 value role) as [[f|] fr]; [exact Hentry|].
      rewrite Hentry. now apply dict_get_set_other.
    + exact (IH Hnodup' _ _ _ _ _ _ Hloop prop value Hin).
Qed.

Lemma process_properties_entries (rec : compile_fn) (scope : Scope)
    (ordered : bool) (ref_documents : option (list Document)) (role : Role)
    (properties : pydict (attr (Field Document)))
    (definitions : pydict json) (required : list string) (schema : pydict json) :
  NoDup (dict_keys properties) ->
  _process_properties rec properties scope ordered ref_documents role
  = Return (definitions, required, schema) ->
  entries_compiled_under rec scope ordered ref_documents properties role schema.
Proof.
  intros Hnodup Hprocess prop value Hin.
  exact (process_properties_loop_entries rec scope ordered ref_documents role
           properties Hnodup _ _ _ _ _ _ Hprocess prop value Hin).
Qed.

(** What the children of a [DictField] that returned compiled to, each
    under the role that came with the attribute it sits in. *)
Lemma DictField_children_compiled (rec : compile_fn) (s : SchemaAttrs)
    (properties pattern_properties : attr (pydict (attr (Field Document))))
    (additional_properties : attr (BoolOr (Field Document)))
    (min_properties max_properties : attr Z)
    (role : Role) (scope : Scope) (ordered : bool)
    (ref_documents : option (list Document))
    (definitions : pydict json) (schema : json) :
  DictField_get_definitions_and_schema rec s properties pattern_properties
    additional_properties min_properties max_properties role scope ordered
    ref_documents = Return (definitions, schema) ->
  exists object,
    schema = JDict object /\
    (forall props props_role,
        maybe_resolve_2 properties role = (Some props, props_role) ->
        exists pd required ps,
          _process_properties rec props (snd (alter scope (id s))) ordered
            ref_documents props_role = Return (pd, required, ps) /\
          dict_get "properties" object = Some (JDict ps)) /\
    (forall patterns patterns_role,
        maybe_resolve_2 pattern_properties role = (Some patterns, patterns_role) ->
        exists pd required ps,
          _process_properties rec patterns (snd (alter scope (id s))) ordered
            ref_documents patterns_role = Return (pd, required, ps) /\
          dict_get "patternProperties" object = Some (JDict ps)) /\
    (forall child child_role,
        maybe_resolve_2 additional_properties role = (Some (IsField child), child_role) ->
        exists child_schema,
          compiled_under rec (snd (alter scope (id s))) ordered ref_documents child
            child_role child_schema /\
          dict_get "additionalProperties" object = Some child_schema).
Proof.
  intro Hcompile.
  dict_field_stages Hcompile rec; cbn [snd];
    (eexists; split; [reflexivity|];
     destruct (maybe_resolve min_properties role);
     destruct (maybe_resolve max_properties role);
     cbn [option_map set_if_some];
     try match goal with
         | |- context [match ?l with [] => _ | _ :: _ => _ end] => destruct l
         end;
     repeat match goal with
            | Heq : maybe_resolve_2 _ _ = _ |- _ => rewrite Heq; clear Heq
            end;
     (split; [|split]); intros x x_role Hx; inversion Hx; subst; clear Hx;
     first [ do 3 eexists; split; [eassumption|]; lookup_keys; reflexivity
           | eexists; split; [eexists; eassumption|]; lookup_keys; reflexivity ]).
Qed.

(** The same for an [ArrayField]; a list of items that was not given as a
    plain list does not get there, the loop runs over the attribute itself. *)
Lemma ArrayField_children_compiled (rec : compile_fn) (s : SchemaAttrs)
    (items : attr (ItemsOf (Field Document))) (min_items max_items : attr Z)
    (unique_items : attr bool) (additional_items : attr (BoolOr (Field Document)))
    (role : Role) (scope : Scope) (ordered : bool)
    (ref_documents : option (list Document))
    (definitions : pydict json) (schema : json) :
  ArrayField_get_definitions_and_schema rec s items min_items max_items unique_items
    additional_items role scope ordered ref_documents = Return (definitions, schema) ->
  exists object,
    schema = JDict object /\
    (forall child child_role,
        maybe_resolve_2 items role = (Some (OneItem child), child_role) ->
        exists child_schema,
          compiled_under rec (snd (alter scope (id s))) ordered ref_documents child
            child_role child_schema /\
          dict_get "items" object = Some child_schema) /\
    (forall l items_role,
        maybe_resolve_2 items role = (Some (ItemList l), items_role) ->
        items = Plain (Some (ItemList l))) /\
    (forall child child_role,
        maybe_resolve_2 additional_items role = (Some (IsField child), child_role) ->
        exists child_schema,
          compiled_under rec (snd (alter scope (id s))) ordered ref_documents child
            child_role child_schema /\
          dict_get "additionalItems" object = Some child_schema).
Proof.
  intro Hcompile. unfold ArrayField_get_definitions_and_schema in Hcompile.
  destruct (alter scope (id s)) as [i sc]. cbn [snd].
  destruct (maybe_resolve_2 items role) as [[[item|l]|] items_role] eqn:Hitems.
  - destruct (rec item items_role sc ordered ref_documents) as [[d sch]| |] eqn:Hitem;
      cbn [bind] in Hcompile; try discriminate.
    destruct (maybe_resolve_2 additional_items role) as [[[b|g]|] add_role];
      [|destruct (rec g add_role sc ordered ref_documents) as [[gd gs]| |] eqn:Hg|];
      cbn [bind] in Hcompile; try discriminate;
      inversion Hcompile; subst; clear Hcompile;
      (eexists; split; [reflexivity|];
       destruct (maybe_resolve min_items role);
       destruct (maybe_resolve max_items role);
       destruct (truthy (maybe_resolve unique_items role));
       cbn [option_map set_if_some];
       (split; [|split]); intros x x_role Hx; inversion Hx; subst; clear Hx;
       (eexists; split; [eexists; eassumption|]; lookup_keys; reflexivity)).
  - destruct (iter_items items) as [l'| |] eqn:Hiter; cbn [bind] in Hcompile;
      try discriminate.
    assert (Hplain : items = Plain (Some (ItemList l))).
    { destruct items as [[[?|?]|]|?]; try discriminate.
      cbn [maybe_resolve_2] in Hitems. now inversion Hitems. }
    destruct (ArrayField_items_loop rec l' role sc ordered ref_documents [] [])
      as [[nd ns]| |]; cbn [bind] in Hcompile; try discriminate.
    destruct (maybe_resolve_2 additional_items role) as [[[b|g]|] add_role];
      [|destruct (rec g add_role sc ordered ref_documents) as [[gd gs]| |] eqn:Hg|];
      cbn [bind] in Hcompile; try discriminate;
      inversion Hcompile; subst; clear Hcompile;
      (eexists; split; [reflexivity|];
       destruct (maybe_resolve min_items role);
       destruct (maybe_resolve max_items role);
       destruct (truthy (maybe_resolve unique_items role));
       cbn [option_map set_if_some];
       (split; [|split]); intros x x_role Hx; inversion Hx; subst; clear Hx;
       first [ reflexivity
             | eexists; split; [eexists; eassumption|]; lookup_keys; reflexivity ]).
  - cbn [bind] in Hcompile.
    destruct (maybe_resolve_2 additional_items role) as [[[b|g]|] add_role];
      [|destruct (rec g add_role sc ordered ref_documents) as [[gd gs]| |] eqn:Hg|];
      cbn [bind] in Hcompile; try discriminate;
      inversion Hcompile; subst; clear Hcompile;
      (eexists; split; [reflexivity|];
       destruct (maybe_resolve min_items role);
       destruct (maybe_resolve max_items role);
       destruct (truthy (maybe_resolve unique_items role));
       cbn [option_map set_if_some];
       (split; [|split]); intros x x_role Hx; inversion Hx; subst; clear Hx;
       (eexists; split; [eexists; eassumption|]; lookup_keys; reflexivity)).
Qed.

(** The same for a [BaseOfField]. *)
Lemma BaseOfField_children_compiled (rec : compile_fn) (s : SchemaAttrs)
    (keyword : string) (fields : attr (list (attr (Field Document))))
    (role : Role) (scope : Scope) (ordered : bool)
    (ref_documents : option (list Document))
    (definitions : pydict json) (schema : json) :
  In keyword ["oneOf"; "anyOf"; "allOf"] ->
  BaseOfField_get_definitions_and_schema rec s keyword fields role scope ordered
    ref_documents = Return (definitions, schema) ->
  exists object,
    schema = JDict object /\
    forall declared fields_role,
      maybe_resolve_2 fields role = (Some declared, fields_role) ->
      exists results,
        compiled_to rec (snd (alter scope (id s))) ordered ref_documents
          (present_fields declared fields_role) results /\
        dict_get keyword object = Some (JList (map snd results)).
Proof.
  intros Hkeyword Hcompile. unfold BaseOfField_get_definitions_and_schema in Hcompile.
  destruct (alter scope (id s)) as [i sc]. cbn [snd].
  assert (Hkey : forall one_of,
             dict_get keyword
               (_update_schema_with_common_fields s [(keyword, JList one_of)] i
                  DEFAULT_ROLE) = Some (JList one_of)).
  { intro one_of. rewrite common_fields_other_key.
    - cbn [dict_get]. now rewrite String.eqb_refl.
    - destruct Hkeyword as [<-|[<-|[<-|[]]]]; reflexivity. }
  destruct (maybe_resolve_2 fields role) as [[declared|] fields_role].
  - destruct (BaseOfField_loop rec declared fields_role sc ordered ref_documents [] [])
      as [[nd one_of]| |] eqn:Hloop; cbn [bind] in Hcompile; try discriminate.
    inversion Hcompile; subst; clear Hcompile.
    eexists. split; [reflexivity|].
    intros x x_role Hx. inversion Hx; subst; clear Hx.
    apply BaseOfField_loop_returns in Hloop.
    destruct Hloop as (results & Hall & _ & ->).
    exists results. split; [assumption|]. apply Hkey.
  - cbn [bind] in Hcompile. inversion Hcompile; subst; clear Hcompile.
    eexists. split; [reflexivity|]. intros x x_role Hx. discriminate.
Qed.

(** The same for a [NotField]. *)
Lemma NotField_child_compiled (rec : compile_fn) (s : SchemaAttrs)
    (field : attr (Field Document)) (role : Role) (scope : Scope) (ordered : bool)
    (ref_documents : option (list Document))
    (definitions : pydict json) (schema : json) :
  NotField_get_definitions_and_schema rec s field role scope ordered ref_documents
  = Return (definitions, schema) ->
  exists object,
    schema = JDict object /\
    forall child child_role,
      maybe_resolve_2 field role = (Some child, child_role) ->
      exists child_schema,
        compiled_under rec (snd (alter scope (id s))) ordered ref_documents child
          child_role child_schema /\
        dict_get "not" object = Some child_schema.
Proof.
  intro Hcompile. unfold NotField_get_definitions_and_schema in Hcompile.
  destruct (alter scope (id s)) as [i sc]. cbn [snd].
  destruct (maybe_resolve_2 field role) as [[child|] child_role].
  - destruct (rec child child_role sc ordered ref_documents) as [[d sch]| |] eqn:Hchild;
      cbn [bind] in Hcompile; try discriminate.
    inversion Hcompile; subst; clear Hcompile.
    eexists. split; [reflexivity|].
    intros x x_role Hx. inversion Hx; subst; clear Hx.
    exists sch. split; [now exists definitions|].
    rewrite common_fields_other_key by reflexivity. reflexivity.
  - cbn [bind] in Hcompile. inversion Hcompile; subst; clear Hcompile.
    eexists. split; [reflexivity|]. intros x x_role Hx. discriminate.
Qed.

(** What [iter_fields] yields for a field that is not a [DocumentField] is
    resolved already: no [Var] is left for [walk] to resolve. *)
Lemma iter_fields_resolved (self : Field Document) (role : Role)
    (children : list (attr (Field Document))) :
  (forall b c o r, self <> DocumentField b c o r) ->
  iter_fields self role = Return children ->
  forall child, In child children -> is_plain child = true.
Proof.
  intros Hself Hiter child Hin.
  destruct self as [s|s p f mn mx|s t a b c d e|s items mn mx u additional
                   |s properties patterns additional mn mx|s k fields|s f
                   |b c o r]; cbn [iter_fields] in Hiter;
    try (inversion Hiter; subst; destruct Hin; fail).
  - destruct (maybe_resolve_2 items role) as [its items_role].
    inversion Hiter; subst; clear Hiter.
    apply in_app_or in Hin. destruct Hin as [Hin|Hin].
    + destruct its as [[item|l]|]; [destruct Hin as [<-|[]]; reflexivity| |destruct Hin].
      apply in_map_iff in Hin. destruct Hin as (item & <- & _). reflexivity.
    + destruct (maybe_resolve additional role) as [[?|?]|];
        [destruct Hin|destruct Hin as [<-|[]]; reflexivity|destruct Hin].
  - destruct (maybe_resolve_2 properties role) as [props props_role].
    destruct (maybe_resolve_2 patterns role) as [pats pats_role].
    inversion Hiter; subst; clear Hiter.
    assert (Hpresent : forall entries r,
               In child
                 (flat_map (fun kv : string * attr (Field Document) =>
                              match maybe_resolve (snd kv) r with
                              | Some field => [Plain (Some field)]
                              | None => []
                              end) entries) ->
               is_plain child = true).
    { intros entries r Hc. apply in_flat_map in Hc. destruct Hc as (kv & _ & Hc).
      destruct (maybe_resolve (snd kv) r); [destruct Hc as [<-|[]]; reflexivity|].
      destruct Hc. }
    apply in_app_or in Hin. destruct Hin as [Hin|Hin].
    + destruct props; [now apply (Hpresent _ _ Hin)|destruct Hin].
    + apply in_app_or in Hin. destruct Hin as [Hin|Hin].
      * destruct pats; [now apply (Hpresent _ _ Hin)|destruct Hin].
      * destruct (maybe_resolve additional role) as [[?|?]|];
          [destruct Hin|destruct Hin as [<-|[]]; reflexivity|destruct Hin].
  - destruct (maybe_resolve_2 fields role) as [[fs|] fields_role]; [|discriminate].
    inversion Hiter; subst; clear Hiter.
    apply in_map_iff in Hin. destruct Hin as (field & <- & _). reflexivity.
  - now elim (Hself b c o r).
Qed.

(** The fields that the loop of [walk] yields include what [rec] yields
    for every child that is present. *)
Lemma walk_loop_includes (rec : walk_fn) (role : Role) (through : bool)
    (visited : list Document) (children : list (attr (Field Document))) :
  forall nested,
    walk_loop rec children role through visited = Return nested ->
    forall child field field_role,
      In child children ->
      maybe_resolve_2 child role = (Some field, field_role) ->
      exists yielded,
        rec field field_role through visited = Return yielded /\
        incl yielded nested.
Proof.
  induction children as [|c children IH]; intros nested Hloop child field field_role
    Hin Hres; [destruct Hin|].
  cbn [walk_loop] in Hloop.
  destruct (maybe_resolve_2 c role) as [[f|] fr] eqn:Hc.
  - destruct (rec f fr through visited) as [ys| |] eqn:Hrec; cbn [bind] in Hloop;
      try discriminate.
    destruct (walk_loop rec children role through visited) as [others| |] eqn:Hrest;
      cbn [bind] in Hloop; try discriminate.
    inversion Hloop; subst; clear Hloop.
    destruct Hin as [<-|Hin].
    + rewrite Hc in Hres. inversion Hres; subst.
      exists ys. split; [assumption|]. now apply incl_appl, incl_refl.
    + destruct (IH others eq_refl child field field_role Hin Hres) as (zs & Hzs & Hincl).
      exists zs. split; [assumption|]. now apply incl_appr.
  - destruct Hin as [<-|Hin]; [rewrite Hc in Hres; discriminate|].
    exact (IH nested Hloop child field field_role Hin Hres).
Qed.

(** C2. For a [Var] whose roles to pass down are [passed], resolved under
    [role], [resolve_2] gives the role for descending: [role] itself when
    it is one of [passed], the default role otherwise.  Compiling follows
    it wherever a field holds such a [Var]: the entries of [properties]
    and [pattern_properties], the fields of a [BaseOfField], the field of a
    [NotField], a single field as [items], and a field as
    [additional_items] or [additional_properties] are resolved and
    compiled under that role (a list of [items] behind a [Var] never gets
    that far).  Walking does not: what [iter_fields] yields is resolved
    already, under the role for descending, and [walk] then walks every
    one of these fields under its own role, so a [Var] nested in them is
    resolved under the queried role whether that role is passed down or
    not. *)
Theorem roles_to_pass_down_reach_nested_vars :
  forall (passed : list Role) (role : Role),
    let descent := descent_role passed role in
    (In role passed -> descent = role) /\
    (~ In role passed -> descent = DEFAULT_ROLE) /\
    (forall (T : Type) (v : Var T),
        roles_to_pass_down v = Some passed ->
        resolve_2 v role = (resolve v role, descent)) /\
    (forall (fuel : nat) (s : SchemaAttrs) (scope : Scope) (ordered : bool)
            (ref_documents : option (list Document))
            (definitions : pydict json) (schema : json),
        let rec := get_definitions_and_schema fuel in
        let scope' := snd (alter scope (id s)) in
        let returns (self : Field Document) :=
          get_definitions_and_schema (S fuel) self role scope ordered ref_documents
          = Return (definitions, schema) in
        (forall v pattern_properties additional_properties min_properties
                max_properties props,
            roles_to_pass_down v = Some passed ->
            resolve v role = Some props ->
            NoDup (dict_keys props) ->
            returns (DictField s (IsVar v) pattern_properties additional_properties
                       min_properties max_properties) ->
            exists object schemas,
              schema = JDict object /\
              dict_get "properties" object = Some (JDict schemas) /\
              entries_compiled_under rec scope' ordered ref_documents props descent
                schemas) /\
        (forall properties v additional_properties min_properties max_properties
                patterns,
            roles_to_pass_down v = Some passed ->
            resolve v role = Some patterns ->
            NoDup (dict_keys patterns) ->
            returns (DictField s properties (IsVar v) additional_properties
                       min_properties max_properties) ->
            exists object schemas,
              schema = JDict object /\
              dict_get "patternProperties" object = Some (JDict schemas) /\
              entries_compiled_under rec scope' ordered ref_documents patterns
                descent schemas) /\
        (forall properties pattern_properties v min_properties max_properties child,
            roles_to_pass_down v = Some passed ->
            resolve v role = Some (IsField child) ->
            returns (DictField s properties pattern_properties (IsVar v)
                       min_properties max_properties) ->
            exists object child_schema,
              schema = JDict object /\
              compiled_under rec scope' ordered ref_documents child descent
                child_schema /\
              dict_get "additionalProperties" object = Some child_schema) /\
        (forall v min_items max_items unique_items additional_items,
            roles_to_pass_down v = Some passed ->
            returns (ArrayField s (IsVar v) min_items max_items unique_items
                       additional_items) ->
            (forall items, resolve v role <> Some (ItemList items)) /\
            forall child,
              resolve v role = Some (OneItem child) ->
              exists object child_schema,
                schema = JDict object /\
                compiled_under rec scope' ordered ref_documents child descent
                  child_schema /\
                dict_get "items" object = Some child_schema) /\
        (forall items min_items max_items unique_items v child,
            roles_to_pass_down v = Some passed ->
            resolve v role = Some (IsField child) ->
            returns (ArrayField s items min_items max_items unique_items (IsVar v)) ->
            exists object child_schema,
              schema = JDict object /\
              compiled_under rec scope' ordered ref_documents child descent
                child_schema /\
              dict_get "additionalItems" object = Some child_schema) /\
        (forall keyword v declared,
            In keyword ["oneOf"; "anyOf"; "allOf"] ->
            roles_to_pass_down v = Some passed ->
            resolve v role = Some declared ->
            returns (BaseOfField s keyword (IsVar v)) ->
            exists object results,
              schema = JDict object /\
              compiled_to rec scope' ordered ref_documents
                (present_fields declared descent) results /\
              dict_get keyword object = Some (JList (map snd results))) /\
        (forall v child,
            roles_to_pass_down v = Some passed ->
            resolve v role = Some child ->
            returns (NotField s (IsVar v)) ->
            exists object child_schema,
              schema = JDict object /\
              compiled_under rec scope' ordered ref_documents child descent
                child_schema /\
              dict_get "not" object = Some child_schema)) /\
    (forall (s : SchemaAttrs) (v : Var (pydict (attr (Field Document))))
            pattern_properties additional_properties min_properties max_properties
            props prop value nested,
        roles_to_pass_down v = Some passed ->
        resolve v role = Some props ->
        In (prop, value) props ->
        maybe_resolve value descent = Some nested ->
        exists children,
          iter_fields (DictField s (IsVar v) pattern_properties additional_properties
                         min_properties max_properties) role = Return children /\
          In (Plain (Some nested)) children) /\
    (forall (fuel : nat) (self : Field Document) (through_document_fields : bool)
            (visited_documents : list Document)
            (children : list (attr (Field Document)))
            (yielded : list (Field Document)),
        (forall b c o r, self <> DocumentField b c o r) ->
        iter_fields self role = Return children ->
        walk (S fuel) self role through_document_fields visited_documents
        = Return yielded ->
        forall child,
          In child children ->
          maybe_resolve_2 child role = (maybe_resolve child role, role) /\
          forall nested,
            maybe_resolve child role = Some nested ->
            exists nested_yielded,
              walk fuel nested role through_document_fields visited_documents
              = Return nested_yielded /\
              incl nested_yielded yielded).
Proof.
  intros passed role descent. unfold descent.
  split; [|split; [|split; [|split; [|split]]]].
  - intro Hin. unfold descent_role. apply role_in_In in Hin. now rewrite Hin.
  - intro Hnot. unfold descent_role.
    destruct (role_in role passed) eqn:Hin; [|reflexivity].
    apply role_in_In in Hin. contradiction.
  - intros T v Hpassed. exact (resolve_2_descent v passed role Hpassed).
  - intros fuel s scope ordered ref_documents definitions schema. cbv zeta.
    cbn [get_definitions_and_schema].
    split; [|split; [|split; [|split; [|split; [|split]]]]].
    + intros v patterns additional mn mx props Hpassed Hprops Hnodup Hcompile.
      destruct (DictField_children_compiled _ _ _ _ _ _ _ _ _ _ _ _ _ Hcompile)
        as (object & -> & Hp & _ & _).
      destruct (Hp props (descent_role passed role)) as (pd & required & ps & Hprocess & Hget).
      { rewrite (resolve_2_descent v passed role Hpassed). now rewrite Hprops. }
      exists object, ps. repeat split; try assumption.
      exact (process_properties_entries _ _ _ _ _ _ _ _ _ Hnodup Hprocess).
    + intros properties v additional mn mx patterns Hpassed Hpatterns Hnodup Hcompile.
      destruct (DictField_children_compiled _ _ _ _ _ _ _ _ _ _ _ _ _ Hcompile)
        as (object & -> & _ & Hp & _).
      destruct (Hp patterns (descent_role passed role))
        as (pd & required & ps & Hprocess & Hget).
      { rewrite (resolve_2_descent v passed role Hpassed). now rewrite Hpatterns. }
      exists object, ps. repeat split; try assumption.
      exact (process_properties_entries _ _ _ _ _ _ _ _ _ Hnodup Hprocess).
    + intros properties patterns v mn mx child Hpassed Hchild Hcompile.
      destruct (DictField_children_compiled _ _ _ _ _ _ _ _ _ _ _ _ _ Hcompile)
        as (object & -> & _ & _ & Ha).
      destruct (Ha child (descent_role passed role)) as (child_schema & Hc & Hget).
      { rewrite (resolve_2_descent v passed role Hpassed). now rewrite Hchild. }
      exists object, child_schema. repeat split; assumption.
    + intros v mn mx u additional Hpassed Hcompile.
      destruct (ArrayField_children_compiled _ _ _ _ _ _ _ _ _ _ _ _ _ Hcompile)
        as (object & -> & Hi & Hl & _).
      split.
      * intros items Hitems.
        specialize (Hl items (descent_role passed role)).
        rewrite (resolve_2_descent v passed role Hpassed), Hitems in Hl.
        specialize (Hl eq_refl). discriminate.
      * intros child Hchild.
        destruct (Hi child (descent_role passed role)) as (child_schema & Hc & Hget).
        { rewrite (resolve_2_descent v passed role Hpassed). now rewrite Hchild. }
        exists object, child_schema. repeat split; assumption.
    + intros items mn mx u v child Hpassed Hchild Hcompile.
      destruct (ArrayField_children_compiled _ _ _ _ _ _ _ _ _ _ _ _ _ Hcompile)
        as (object & -> & _ & _ & Ha).
      destruct (Ha child (descent_role passed role)) as (child_schema & Hc & Hget).
      { rewrite (resolve_2_descent v passed role Hpassed). now rewrite Hchild. }
      exists object, child_schema. repeat split; assumption.
    + intros keyword v declared Hkeyword Hpassed Hdeclared Hcompile.
      destruct (BaseOfField_children_compiled _ _ _ _ _ _ _ _ _ _ Hkeyword Hcompile)
        as (object & -> & Hf).
      destruct (Hf declared (descent_role passed role)) as (results & Hall & Hget).
      { rewrite (resolve_2_descent v passed role Hpassed). now rewrite Hdeclared. }
      exists object, results. repeat split; assumption.
    + intros v child Hpassed Hchild Hcompile.
      destruct (NotField_child_compiled _ _ _ _ _ _ _ _ _ Hcompile)
        as (object & -> & Hn).
      destruct (Hn child (descent_role passed role)) as (child_schema & Hc & Hget).
      { rewrite (resolve_2_descent v passed role Hpassed). now rewrite Hchild. }
      exists object, child_schema. repeat split; assumption.
  - intros s v patterns additional mn mx props prop value nested Hpassed Hprops Hin
      Hnested.
    cbn [iter_fields].
    rewrite (resolve_2_descent v passed role Hpassed), Hprops.
    destruct (maybe_resolve_2 patterns role) as [pats pats_role].
    eexists. split; [reflexivity|].
    apply in_or_app. left. apply in_flat_map. exists (prop, value).
    split; [assumption|]. cbn [snd]. rewrite Hnested. now left.
  - intros fuel self through visited children yielded Hself Hiter Hwalk child Hin.
    pose proof (iter_fields_resolved self role children Hself Hiter child Hin) as Hplain.
    assert (Hres : maybe_resolve_2 child role = (maybe_resolve child role, role)).
    { destruct child; [reflexivity|discriminate]. }
    split; [exact Hres|].
    intros nested Hnested. rewrite Hnested in Hres.
    assert (Hbase : BaseField_walk (walk fuel) self role through visited
                    = Return yielded).
    { destruct self; try exact Hwalk. now elim (Hself b _document_cls owner_cls as_ref). }
    unfold BaseField_walk in Hbase. rewrite Hiter in Hbase. cbn [bind] in Hbase.
    destruct (walk_loop (walk fuel) children role through visited) as [others| |]
      eqn:Hloop; cbn [bind] in Hbase; try discriminate.
    inversion Hbase; subst; clear Hbase.
    destruct (walk_loop_includes _ _ _ _ _ _ Hloop child nested role Hin Hres)
      as (ys & Hys & Hincl).
    exists ys. split; [assumption|]. now apply incl_tl.
Qed.

End Extras.

(** * The further properties at work on the sample program *)

(** Roles to pass down on the [properties] of [test_dict_field]: compiled
    under [role_1], which is passed down, the nested [Var] gives the
    property [name]; under [role_2], which is not, it is resolved under the
    default role and gives nothing.  Walking under [role_2] a [DictField]
    whose [properties] pass down [role_1] alone yields the field nested in
    its array, which compiling leaves out. *)
Lemma roles_to_pass_down_reach_nested_vars_witness :
  resolve_2 Sample.passing_properties "role_1"
  = (Some [("name", Sample.only "role_1" Sample.s_f)], "role_1") /\
  resolve_2 Sample.passing_properties "role_2"
  = (Some [("name", Sample.only "role_2" Sample.s_f)], DEFAULT_ROLE) /\
  (exists object schemas,
      JDict [("type", JStr "object");
             ("properties", JDict [("name", JDict [("type", JStr "string")])])]
      = JDict object /\
      dict_get "properties" object = Some (JDict schemas) /\
      dict_get "name" schemas = Some (JDict [("type", JStr "string")])) /\
  (exists object schemas,
      JDict [("type", JStr "object"); ("properties", JDict [])] = JDict object /\
      dict_get "properties" object = Some (JDict schemas) /\
      dict_get "name" schemas = None) /\
  get_definitions_and_schema (E := Sample.program) 3 Sample.walked_dict "role_2" []
    false None
  = Return ([], JDict [("type", JStr "object");
                       ("properties", JDict [("tags", JDict [("type", JStr "array")])])]) /\
  walk (E := Sample.program) 3 Sample.walked_dict "role_2" false []
  = Return [Sample.walked_dict; Sample.nested_array; Sample.s_f] /\
  (exists children,
      iter_fields (E := Sample.program) Sample.walked_dict "role_2" = Return children /\
      In (Plain (Some Sample.nested_array)) children) /\
  exists nested_yielded,
    walk (E := Sample.program) 2 Sample.nested_array "role_2" false []
    = Return nested_yielded /\
    incl nested_yielded [Sample.walked_dict; Sample.nested_array; Sample.s_f].
Proof.
  destruct (roles_to_pass_down_reach_nested_vars (E := Sample.program) ["role_1"]
              "role_1") as (_ & _ & Hresolve1 & Hcompile1 & _).
  destruct (roles_to_pass_down_reach_nested_vars (E := Sample.program) ["role_1"]
              "role_2") as (_ & _ & Hresolve2 & Hcompile2 & Hiter2 & Hwalk2).
  split; [exact (Hresolve1 _ Sample.passing_properties eq_refl)|].
  split; [exact (Hresolve2 _ Sample.passing_properties eq_refl)|].
  split; [|split; [|split; [reflexivity|split; [reflexivity|split]]]].
  - destruct (proj1 (Hcompile1 2 (Sample.no_attrs 3) [] false None []
                       (JDict [("type", JStr "object");
                               ("properties",
                                JDict [("name", JDict [("type", JStr "string")])])]))
                Sample.passing_properties (Plain None) (Plain None) (Plain None)
                (Plain None) [("name", Sample.only "role_1" Sample.s_f)]
                eq_refl eq_refl)
      as (object & schemas & Hobject & Hproperties & Hentries).
    + constructor; [intros []|constructor].
    + reflexivity.
    + exists object, schemas. split; [exact Hobject|]. split; [exact Hproperties|].
      destruct (Hentries "name" (Sample.only "role_1" Sample.s_f) (or_introl eq_refl))
        as (schema & (definitions & Hschema) & Hname).
      inversion Hschema; subst. exact Hname.
  - destruct (proj1 (Hcompile2 2 (Sample.no_attrs 3) [] false None []
                       (JDict [("type", JStr "object"); ("properties", JDict [])]))
                Sample.passing_properties (Plain None) (Plain None) (Plain None)
                (Plain None) [("name", Sample.only "role_2" Sample.s_f)]
                eq_refl eq_refl)
      as (object & schemas & Hobject & Hproperties & Hentries).
    + constructor; [intros []|constructor].
    + reflexivity.
    + exists object, schemas. split; [exact Hobject|]. split; [exact Hproperties|].
      exact (Hentries "name" (Sample.only "role_2" Sample.s_f) (or_introl eq_refl)).
  - exact (Hiter2 (Sample.no_attrs 60) Sample.walked_properties (Plain None)
             (Plain None) (Plain None) (Plain None)
             [("tags", Plain (Some Sample.nested_array))] "tags"
             (Plain (Some Sample.nested_array)) Sample.nested_array eq_refl eq_refl
             (or_introl eq_refl) eq_refl).
  - refine (proj2 (Hwalk2 2 Sample.walked_dict false []
                     [Plain (Some Sample.nested_array)]
                     [Sample.walked_dict; Sample.nested_array; Sample.s_f]
                     _ eq_refl eq_refl (Plain (Some Sample.nested_array))
                     (or_introl eq_refl))
              Sample.nested_array eq_refl).
    intros b c o r. discriminate.
Defined.

Lemma common_attributes_under_the_queried_role_witness :
  exists object,
    get_definitions_and_schema (E := Sample.program) 1
      (BooleanField (Sample.titled 39)) "role_1" [] false None
    = Return ([], JDict object) /\
    dict_get "type" object = Some (JStr "boolean") /\
    common_written (Sample.titled 39) "role_1" "" object.
Proof.
  exact (proj1 (common_attributes_under_the_queried_role (E := Sample.program) 0
                  (Sample.titled 39) "role_1" [] false None)).
Defined.

Lemma NotField_wraps_its_field_witness :
  exists object,
    get_definitions_and_schema (E := Sample.program) 2 Sample.titled_not "role_1" []
      false None = Return ([], JDict object) /\
    dict_get "not" object = Some (JDict [("type", JStr "string")]).
Proof.
  exact (proj2 (NotField_wraps_its_field (E := Sample.program) 1 (Sample.titled 7)
                  (Plain (Some Sample.s_f)) "role_1" [] false None)
           Sample.s_f "role_1" eq_refl).
Defined.

Lemma ArrayField_without_items_witness :
  maybe_resolve (Sample.only "role_1" (OneItem Sample.s_f)) DEFAULT_ROLE = None /\
  exists object,
    JDict [("type", JStr "array")] = JDict object /\
    dict_get "type" object = Some (JStr "array") /\
    (forall k, In k ("items" :: common_keys) -> dict_get k object = None) /\
    dict_get "minItems" object = None /\
    dict_get "maxItems" object = None /\
    dict_get "uniqueItems" object = None.
Proof.
  split; [reflexivity|].
  apply (ArrayField_without_items (E := Sample.program) 0 (Sample.with_title 34)
           (Sample.only "role_1" (OneItem Sample.s_f)) (Plain None) (Plain None)
           (Plain None) (Plain None) DEFAULT_ROLE [] false None []
           (JDict [("type", JStr "array")])); reflexivity.
Defined.

Lemma BaseOfField_lists_present_fields_witness :
  exists results object,
    compiled_to (E := Sample.program) (get_definitions_and_schema 1) [] false None
      (present_fields (E := Sample.program) Sample.keyword_fields "role_1") results /\
    [] = merged [] results /\
    JDict [("oneOf", JList [JDict [("type", JStr "number")];
                            JDict [("type", JStr "string")]])] = JDict object /\
    object = _update_schema_with_common_fields (Sample.no_attrs 33)
               [("oneOf", JList (map snd results))] "" DEFAULT_ROLE /\
    dict_get "oneOf" object = Some (JList (map snd results)).
Proof.
  apply (proj1 (BaseOfField_lists_present_fields (E := Sample.program) 1
                  (Sample.no_attrs 33) "oneOf" (Plain (Some Sample.keyword_fields))
                  "role_1" [] false None Sample.keyword_fields "role_1"
                  (or_introl eq_refl) eq_refl []
                  (JDict [("oneOf", JList [JDict [("type", JStr "number")];
                                           JDict [("type", JStr "string")]])]))).
  reflexivity.
Defined.

Lemma ArrayField_tuple_items_witness :
  exists results object,
    items_compiled_to (E := Sample.program) (get_definitions_and_schema 1) "role_1" []
      false None Sample.array_of_two results /\
    List.length results = 2 /\
    JDict [("type", JStr "array"); ("title", JStr "Title");
           ("items", JList [JDict [("type", JStr "string")];
                            JDict [("type", JStr "number")]])] = JDict object /\
    dict_get "type" object = Some (JStr "array") /\
    dict_get "items" object = Some (JList (map snd results)) /\
    common_written (Sample.with_title 36) "role_1" "" object.
Proof.
  apply (ArrayField_tuple_items (E := Sample.program) 1 (Sample.with_title 36)
           Sample.array_of_two (Plain None) (Plain None) (Plain None) (Plain None)
           "role_1" [] false None []).
  reflexivity.
Defined.

Lemma ArrayField_single_items_witness :
  exists item_definitions item_schema object,
    get_definitions_and_schema (E := Sample.program) 1 Sample.s_f DEFAULT_ROLE []
      false None = Return (item_definitions, item_schema) /\
    JDict [("type", JStr "array"); ("title", JStr "Title");
           ("items", JDict [("type", JStr "string")])] = JDict object /\
    dict_get "type" object = Some (JStr "array") /\
    dict_get "items" object = Some item_schema /\
    common_written (Sample.with_title 34) "role_1" "" object.
Proof.
  apply (ArrayField_single_items (E := Sample.program) 1 (Sample.with_title 34)
           (Sample.only "role_1" (OneItem Sample.s_f)) (Plain None) (Plain None)
           (Plain None) (Plain None) "role_1" [] false None Sample.s_f DEFAULT_ROLE []);
    reflexivity.
Defined.

Lemma BaseOfField_without_fields_witness :
  (exists object,
      get_definitions_and_schema (E := Sample.program) 1
        (OneOfField (Sample.no_attrs 37) (Sample.only "role_1" Sample.keyword_fields))
        DEFAULT_ROLE [] false None = Return ([], JDict object) /\
      dict_get "oneOf" object = Some (JList [])) /\
  iter_fields (E := Sample.program)
    (OneOfField (Sample.no_attrs 37) (Sample.only "role_1" Sample.keyword_fields))
    DEFAULT_ROLE
  = Raise (TypeError "'NoneType' object is not iterable") /\
  walk (E := Sample.program) 1
    (OneOfField (Sample.no_attrs 37) (Sample.only "role_1" Sample.keyword_fields))
    DEFAULT_ROLE true []
  = Raise (TypeError "'NoneType' object is not iterable").
Proof.
  apply (BaseOfField_without_fields (E := Sample.program) 0 (Sample.no_attrs 37)
           "oneOf" (Sample.only "role_1" Sample.keyword_fields) DEFAULT_ROLE [] false
           None true []).
  - now left.
  - reflexivity.
Defined.

Lemma DictField_schema_keys_witness :
  exists object,
    JDict [("type", JStr "object"); ("title", JStr "Title");
           ("properties", JDict [("a", JDict [("type", JStr "string")]);
                                 ("b", JDict [("type", JStr "number")])]);
           ("required", JList [JStr "a"]); ("additionalProperties", JBool false);
           ("minProperties", JNum 1)] = JDict object /\
    dict_get "type" object = Some (JStr "object") /\
    (exists pd required ps,
        _process_properties (E := Sample.program) (get_definitions_and_schema 1)
          Sample.plain_properties [] false None "role_1" = Return (pd, required, ps) /\
        dict_get "properties" object = Some (JDict ps) /\
        dict_get "required" object =
          match required with
          | [] => None
          | _ :: _ => Some (JList (map JStr required))
          end) /\
    dict_get "patternProperties" object = None /\
    dict_get "additionalProperties" object = Some (JBool false) /\
    dict_get "minProperties" object = Some (JNum 1) /\
    dict_get "maxProperties" object = None.
Proof.
  apply (DictField_schema_keys (E := Sample.program) 1 (Sample.with_title 35)
           (Plain (Some Sample.plain_properties)) (Plain None)
           (Plain (Some (IsBool false))) (Plain (Some 1%Z)) (Plain None) "role_1" []
           false None []).
  reflexivity.
Defined.

Lemma DocumentField_inlines_its_document_witness :
  get_definitions_and_schema (E := Sample.program) 1 Sample.to_A DEFAULT_ROLE [] false
    (Some [Sample.B])
  = Document_get_definitions_and_schema (Externals := Sample.program) Sample.A
      DEFAULT_ROLE [] false (Some [Sample.B]).
Proof.
  apply (proj1 (DocumentField_inlines_its_document (E := Sample.program) 0
                  (mkBase 10 (Plain (Some false)))
                  (Plain (Some (DocClass Sample.A))) None false DEFAULT_ROLE [] false
                  (Some [Sample.B])) Sample.A eq_refl).
  - intros docs Hdocs Hin. inversion Hdocs; subst.
    destruct Hin as [Heq|[]]. discriminate.
  - reflexivity.
Defined.

Lemma get_document_cls_outcomes_witness :
  get_document_cls (E := Sample.program) (Plain (Some (DocName "Foo")))
    (Some Sample.A) DEFAULT_ROLE = Raise (KeyError "app.Foo") /\
  exists owner name,
    Some Sample.A = Some owner /\
    maybe_resolve (Plain (Some (DocName (Document := Sample.Doc) "Foo"))) DEFAULT_ROLE
    = Some (DocName name) /\
    name <> RECURSIVE_REFERENCE_CONSTANT /\
    (exists e, registry_get_document (Externals := Sample.program) name None = inr e) /\
    registry_get_document (Externals := Sample.program) name
      (Some (module_of (Externals := Sample.program) owner))
    = inr "app.Foo".
Proof.
  split; [reflexivity|].
  exact (proj1 (proj2 (get_document_cls_outcomes (E := Sample.program)
                         (Plain (Some (DocName "Foo"))) (Some Sample.A)
                         DEFAULT_ROLE)) "app.Foo" eq_refl).
Defined.

Lemma walk_not_through_document_fields_witness :
  depth Sample.to_A <= 1 /\
  walk (E := Sample.program) 1 Sample.to_A DEFAULT_ROLE false [] <> OutOfFuel /\
  walk (E := Sample.program) 1 Sample.to_A DEFAULT_ROLE false []
  = walk (E := Sample.program) 1 Sample.to_A DEFAULT_ROLE false [Sample.A] /\
  (forall b document_cls owner_cls as_ref,
      Sample.to_A = DocumentField b document_cls owner_cls as_ref ->
      walk (E := Sample.program) 1 Sample.to_A DEFAULT_ROLE false []
      = Return [Sample.to_A]).
Proof.
  split; [apply le_n|].
  apply (walk_not_through_document_fields (E := Sample.program) 1 Sample.to_A
           DEFAULT_ROLE [] [Sample.A]).
  apply le_n.
Defined.

Lemma walk_yields_self_first_witness :
  exists others,
    Sample.to_A :: flat_map (fun value =>
                               match value with
                               | Plain (Some field) => [field]
                               | _ => []
                               end)
                     (Sample.doc_fields Sample.A ++ Sample.doc_fields Sample.B)
    = Sample.to_A :: others /\
    (forall b document_cls owner_cls as_ref,
        Sample.to_A = DocumentField b document_cls owner_cls as_ref ->
        Forall (fun field => field_ne field Sample.to_A = true) others).
Proof.
  apply (walk_yields_self_first (E := Sample.program) 3 Sample.to_A DEFAULT_ROLE true
           []).
  reflexivity.
Defined.

Lemma NotField_field_is_not_walked_witness :
  maybe_resolve (Plain (Some Sample.s_f)) "role_1" = Some Sample.s_f /\
  exists yielded,
    walk (E := Sample.program) 1 Sample.titled_not "role_1" true [] = Return yielded /\
    yielded = [Sample.titled_not] /\
    ~ In Sample.s_f yielded.
Proof.
  split; [reflexivity|].
  apply (NotField_field_is_not_walked (E := Sample.program) 0 (Sample.titled 7)
           (Plain (Some Sample.s_f)) "role_1" true [] Sample.s_f).
  reflexivity.
Defined.

Lemma compiling_is_bounded_by_the_depth_witness :
  depth Sample.abc_dict <= 3 /\
  get_definitions_and_schema (E := Sample.program) 3 Sample.abc_dict "X" [] false None
  <> OutOfFuel /\
  get_definitions_and_schema (E := Sample.program) 3 Sample.abc_dict "X" [] false None
  = get_definitions_and_schema (E := Sample.program) (depth Sample.abc_dict)
      Sample.abc_dict "X" [] false None /\
  forall fuel',
    3 <= fuel' ->
    get_definitions_and_schema (E := Sample.program) fuel' Sample.abc_dict "X" [] false
      None
    = get_definitions_and_schema (E := Sample.program) 3 Sample.abc_dict "X" [] false
        None.
Proof.
  assert (Hdepth : depth Sample.abc_dict <= 3) by (apply le_S, le_n).
  split; [exact Hdepth|].
  apply (compiling_is_bounded_by_the_depth (E := Sample.program)); [|exact Hdepth].
  intros d role scope ordered ref_documents. discriminate.
Defined.

Lemma get_schema_lifts_definitions_witness :
  exists object,
    get_schema (E := Sample.program) [] 2 Sample.s_f false DEFAULT_ROLE
    = Return (JDict object) /\
    dict_get "definitions" object = None /\
    dict_get "type" object = Some (JStr "string").
Proof.
  exact (proj2 (get_schema_lifts_definitions (E := Sample.program) [] 1 Sample.s_f
                  false DEFAULT_ROLE)
           (Sample.no_attrs 1) (Plain None) (Plain None) (Plain None) (Plain None)
           eq_refl).
Defined.

Lemma get_schema_of_a_reference_witness :
  exists object definitions,
    get_schema (E := Sample.program) [] 1
      (DocumentField (mkBase 10 (Plain (Some false)))
         (Plain (Some (DocClass Sample.A))) None true) false DEFAULT_ROLE
    = Return (JDict object) /\
    dict_get "definitions" object = Some (JDict definitions) /\
    dict_get "A" definitions = Some (JDict [("type", JStr "object")]) /\
    forall k,
      k <> "definitions" ->
      dict_get k object = dict_get k [("$ref", JStr "#/definitions/A")].
Proof.
  apply (get_schema_of_a_reference (E := Sample.program) [] 0
           (mkBase 10 (Plain (Some false))) (Plain (Some (DocClass Sample.A))) None
           false DEFAULT_ROLE Sample.A [] (JDict [("type", JStr "object")])
           [("$ref", JStr "#/definitions/A")]); reflexivity.
Defined.

Lemma StringField_validates_pattern_when_constructed_witness :
  exists value e,
    In value (Sample.all_values (Sample.only "role_1" "(")) /\
    re_compile (Externals := Sample.program) value = Some e /\
    StringField_init (E := Sample.program) (@Sample.all_values string) None
      (Sample.no_attrs 40) (Sample.only "role_1" "(") (Plain None) (Plain None)
      (Plain None)
    = Raise (ValueError ("Invalid regular expression: " ++ e)%string).
Proof.
  apply (proj1 (proj2 (StringField_validates_pattern_when_constructed
                         (E := Sample.program) (@Sample.all_values string) None
                         (Sample.no_attrs 40) (Sample.only "role_1" "(") (Plain None)
                         (Plain None) (Plain None)))).
  - discriminate.
  - exists "(". split; [now left|discriminate].
Defined.

Lemma StringField_format_of_the_class_witness :
  exists object,
    get_definitions_and_schema (E := Sample.program) 1
      (StringField (Sample.no_attrs 38) (Plain None)
         (Sample.only "role_1" "date-time") (Plain None) (Plain None))
      DEFAULT_ROLE [] false None = Return ([], JDict object) /\
    dict_get "format" object = None.
Proof.
  apply (StringField_format_of_the_class (E := Sample.program)
           (@Sample.all_values string) (Some "email") (Sample.no_attrs 38) (Plain None)
           (Sample.only "role_1" "date-time") (Plain None) (Plain None)
           (StringField (Sample.no_attrs 38) (Plain None)
              (Sample.only "role_1" "date-time") (Plain None) (Plain None))
           0 DEFAULT_ROLE [] false None).
  reflexivity.
Defined.

Lemma process_properties_required_in_order_witness :
  ["a"] = required_names (E := Sample.program) Sample.abc_properties "X" /\
  (NoDup (dict_keys Sample.abc_properties) -> NoDup ["a"]).
Proof.
  apply (process_properties_required_in_order (E := Sample.program)
           (get_definitions_and_schema 1) Sample.abc_properties [] false None "X" []
           ["a"]
           [("a", JDict [("type", JStr "string")]);
            ("b", JDict [("type", JStr "string")])]).
  reflexivity.
Defined.

Lemma schema_without_vars_is_the_same_for_every_role_witness :
  var_free Sample.plain_dict = true /\
  get_definitions_and_schema (E := Sample.program) 2 Sample.plain_dict "role_1" []
    false None
  = get_definitions_and_schema (E := Sample.program) 2 Sample.plain_dict DEFAULT_ROLE
      [] false None.
Proof.
  split; [reflexivity|].
  apply (schema_without_vars_is_the_same_for_every_role (E := Sample.program) 2
           Sample.plain_dict "role_1" DEFAULT_ROLE [] false None).
  reflexivity.
Defined.

Lemma definitions_come_from_document_fields_witness :
  document_free Sample.passing_dict = true /\
  get_definitions_and_schema (E := Sample.program) 3 Sample.passing_dict "role_1" []
    false None
  = get_definitions_and_schema (E := Sample.program) 3 Sample.passing_dict "role_1" []
      false (Some [Sample.A]) /\
  forall definitions schema,
    get_definitions_and_schema (E := Sample.program) 3 Sample.passing_dict "role_1" []
      false None = Return (definitions, schema) ->
    definitions = [].
Proof.
  split; [reflexivity|].
  apply (definitions_come_from_document_fields (E := Sample.program) 3
           Sample.passing_dict "role_1" [] false None (Some [Sample.A])).
  reflexivity.
Defined.

Lemma walk_without_document_fields_witness :
  document_free Sample.passing_dict = true /\
  walk (E := Sample.program) 3 Sample.passing_dict "role_1" false []
  = walk (E := Sample.program) 3 Sample.passing_dict "role_1" true [Sample.A] /\
  forall yielded,
    walk (E := Sample.program) 3 Sample.passing_dict "role_1" false []
    = Return yielded ->
    forallb (document_free (Document := Sample.Doc)) yielded = true.
Proof.
  split; [reflexivity|].
  apply (walk_without_document_fields (E := Sample.program) 3 Sample.passing_dict
           "role_1" false true [] [Sample.A]).
  reflexivity.
Defined.
